(** * SkyLearn SCORM add-on: runtime bridge, attempt lifecycle, ingestion

    A shallow embedding of [scorm/models.py] and [scorm/views.py]:
    - Python floats are IEEE-754 binary64 values ([spec_float] at precision 53,
      exponent bound 1024), with Python's [ZeroDivisionError] written out;
    - Python exceptions are values of [exn], and [try]/[except] is a handler;
    - model instances are records, tables are lists of rows, the extraction
      directory is a finite map from member names to file contents. *)

From Stdlib Require Import ZArith List String Ascii Bool Lia.
From Stdlib Require Import Floats.SpecFloat DecimalString Permutation.
From stdpp Require Import base gmap strings.
Import ListNotations.

Local Open Scope string_scope.
Local Open Scope list_scope.
Local Open Scope Z_scope.

(** ** Exceptions and fallible computations *)

Inductive exn :=
| ValueError (msg : string)
| TypeError (msg : string)
| OverflowError (msg : string)
| ZeroDivisionError (msg : string)
| UnicodeDecodeError (msg : string)
| BadZipFile (msg : string)
| OSError (msg : string)
| IntegrityError (msg : string)
| DoesNotExist (msg : string)
| MultipleObjectsReturned (msg : string)
| AttributeError (msg : string)
| KeyError (msg : string)
| Http404.

(** [isinstance(e, ValueError)]; [UnicodeDecodeError] derives from it. *)
Definition is_ValueError (e : exn) : bool :=
  match e with
  | ValueError _ | UnicodeDecodeError _ => true
  | _ => false
  end.

(** [isinstance(e, Exception)]: every exception raised in this code is one. *)
Definition is_Exception (e : exn) : bool := true.

(** [str(e)] *)
Definition exn_str (e : exn) : string :=
  match e with
  | ValueError m | TypeError m | OverflowError m | ZeroDivisionError m
  | UnicodeDecodeError m | BadZipFile m | OSError m | IntegrityError m
  | DoesNotExist m | MultipleObjectsReturned m | AttributeError m | KeyError m => m
  | Http404 => ""
  end.

Inductive result (A : Type) :=
| Ok (a : A)
| Raise (e : exn).
Arguments Ok {A} a.
Arguments Raise {A} e.

Definition rbind {A B} (c : result A) (k : A -> result B) : result B :=
  match c with
  | Ok a => k a
  | Raise e => Raise e
  end.

(** [try: c except <class>: h] *)
Definition try_except {A} (c : result A) (cls : exn -> bool) (h : exn -> result A)
  : result A :=
  match c with
  | Ok a => Ok a
  | Raise e => if cls e then h e else Raise e
  end.

Declare Scope py_scope.
Delimit Scope py_scope with py.
Notation "'let!' x ':=' c 'in' k" := (rbind c (fun x => k))
  (at level 10, x name, c at level 100, k at level 200) : py_scope.
Local Open Scope py_scope.

(** ** Text

    A Python [str] is a [string]: one [ascii] per character, so the code
    points are those below 256. *)

(** The longest prefix of [s] whose characters satisfy [p], and the rest. *)
Fixpoint span (p : ascii -> bool) (s : list ascii) : list ascii * list ascii :=
  match s with
  | c :: r => if p c then let '(a, b) := span p r in (c :: a, b) else ([], s)
  | [] => ([], [])
  end.

(** ** Python floats *)

Module PyFloat.

Definition prec : Z := 53.
Definition emax : Z := 1024.

Definition t := spec_float.

Definition div : t -> t -> t := SFdiv prec emax.
Definition mul : t -> t -> t := SFmul prec emax.

(** Nearest binary64 to [m * 2^e] (ties to even). *)
Definition normalize (m e : Z) : t := binary_normalize prec emax m e false.

Definition is_finite (f : t) : bool :=
  match f with
  | S754_zero _ | S754_finite _ _ _ => true
  | _ => false
  end.

(** [bool(f)]: zero of either sign is false, NaN is true. *)
Definition truthy (f : t) : bool :=
  match f with
  | S754_zero _ => false
  | _ => true
  end.

(** [float(z)] for a Python int. *)
Definition of_int (z : Z) : result t :=
  let f := normalize z 0 in
  if is_finite f then Ok f
  else Raise (OverflowError "int too large to convert to float").

(** The float a small integer literal denotes. *)
Definition lit (z : Z) : t := normalize z 0.

(** [a / b] on floats. *)
Definition truediv (a b : t) : result t :=
  if truthy b then Ok (div a b)
  else Raise (ZeroDivisionError "float division by zero").

(** Order of a float against an exact integer, as Python compares
    [float] with [int]: no rounding of the integer. *)
Definition compare_int (f : t) (z : Z) : option comparison :=
  match f with
  | S754_nan => None
  | S754_infinity s => Some (if s then Lt else Gt)
  | S754_zero _ => Some (0 ?= z)
  | S754_finite s m e =>
      let v := cond_Zopp s (Zpos m) in
      if 0 <=? e then Some (v * 2 ^ e ?= z)
      else Some (v ?= z * 2 ^ (- e))
  end.

Definition eqb (f g : t) : bool :=
  match f, g with
  | S754_zero a, S754_zero b => Bool.eqb a b
  | S754_infinity a, S754_infinity b => Bool.eqb a b
  | S754_nan, S754_nan => true
  | S754_finite a m e, S754_finite b n k =>
      Bool.eqb a b && Pos.eqb m n && Z.eqb e k
  | _, _ => false
  end.

(** *** Decimal to binary: the value [float(str)] computes *)

(** The decimal digits of a non-negative integer, and their number. *)
Definition dec_digits (z : Z) : list ascii :=
  list_ascii_of_string (NilZero.string_of_uint (N.to_uint (Z.to_N z))).

Definition ndigits (z : Z) : Z := Z.of_nat (length (dec_digits z)).

(** Correctly rounded [(-1)^neg * d * 10^e10] for [d >= 0].  A value of
    at least [10^309] overflows to infinity and a value below [10^-324]
    underflows to zero, whatever its digits. *)
Definition of_decimal (neg : bool) (d e10 : Z) : t :=
  if d <=? 0 then S754_zero neg
  else if 309 <=? ndigits d - 1 + e10 then S754_infinity neg
  else if ndigits d + e10 <=? -324 then S754_zero neg
  else if 0 <=? e10 then
    binary_normalize prec emax (cond_Zopp neg (d * 10 ^ e10)) 0 neg
  else
    let '(q, e', l) := SFdiv_core_binary prec emax d 0 (10 ^ (- e10)) 0 in
    binary_round_aux prec emax neg q e' l.

Definition code (c : ascii) : Z := Z.of_N (N_of_ascii c).

Definition is_digit (c : ascii) : bool := (48 <=? code c) && (code c <=? 57).

(** Characters [float()] strips as white space (code points below 256):
    tab to carriage return, space, NEL and no-break space. *)
Definition is_space (c : ascii) : bool :=
  let n := code c in
  ((9 <=? n) && (n <=? 13)) || (n =? 32) || (n =? 133) || (n =? 160).

Definition lower (c : ascii) : ascii :=
  let n := code c in
  if (65 <=? n) && (n <=? 90) then ascii_of_N (Z.to_N (n + 32)) else c.

Definition digits_value (ds : list ascii) : Z :=
  fold_left (fun acc c => 10 * acc + (code c - 48)) ds 0.

(** Digit-group underscores: allowed only between two digits. *)
Fixpoint drop_underscores (prev : ascii) (s : list ascii) : option (list ascii) :=
  match s with
  | [] => if Ascii.eqb prev "_" then None else Some []
  | c :: r =>
      if Ascii.eqb c "_" then
        if is_digit prev then drop_underscores c r else None
      else if Ascii.eqb prev "_" && negb (is_digit c) then None
      else option_map (cons c) (drop_underscores c r)
  end.

Definition strip (s : list ascii) : list ascii :=
  rev (snd (span is_space (rev (snd (span is_space s))))).

Definition parse_sign (s : list ascii) : bool * list ascii :=
  match s with
  | "-"%char :: r => (true, r)
  | "+"%char :: r => (false, r)
  | _ => (false, s)
  end.

(** The longest numeric prefix: sign, digits, point, digits, exponent.
    [None] when there is no digit at all. *)
Definition parse_decimal (s : list ascii) : option (t * list ascii) :=
  let '(neg, s1) := parse_sign s in
  let '(ip, s2) := span is_digit s1 in
  let '(fp, s3) :=
    match s2 with
    | "."%char :: r => span is_digit r
    | _ => ([], s2)
    end in
  match ip ++ fp with
  | [] => None
  | ds =>
      let '(ex, s4) :=
        match s3 with
        | c :: r =>
            if Ascii.eqb (lower c) "e" then
              let '(eneg, r1) := parse_sign r in
              let '(ed, r2) := span is_digit r1 in
              match ed with
              | [] => (0, s3)
              | _ => (cond_Zopp eneg (digits_value ed), r2)
              end
            else (0, s3)
        | [] => (0, s3)
        end in
      Some (of_decimal neg (digits_value ds) (ex - Z.of_nat (length fp)), s4)
  end.

Fixpoint ci_prefix (lit s : list ascii) : option (list ascii) :=
  match lit, s with
  | [], _ => Some s
  | l :: lit', c :: r => if Ascii.eqb l (lower c) then ci_prefix lit' r else None
  | _ :: _, [] => None
  end.

Definition parse_inf_or_nan (s : list ascii) : option (t * list ascii) :=
  let '(neg, s1) := parse_sign s in
  match ci_prefix (list_ascii_of_string "inf") s1 with
  | Some r =>
      Some (S754_infinity neg,
            match ci_prefix (list_ascii_of_string "inity") r with
            | Some r' => r'
            | None => r
            end)
  | None =>
      match ci_prefix (list_ascii_of_string "nan") s1 with
      | Some r => Some (S754_nan, r)
      | None => None
      end
  end.

(** [float(s)] for a string; [None] stands for [ValueError]. *)
Definition parse (s : string) : option t :=
  match drop_underscores "000"%char (list_ascii_of_string s) with
  | None => None
  | Some cs =>
      let body := strip cs in
      match (match parse_decimal body with
             | Some r => Some r
             | None => parse_inf_or_nan body
             end) with
      | Some (f, []) => Some f
      | _ => None
      end
  end.

Definition of_string (s : string) : result t :=
  match parse s with
  | Some f => Ok f
  | None => Raise (ValueError "could not convert string to float")
  end.

(** *** Binary to decimal: [repr(float)], the shortest string that reads back *)

(** [floor (log10 (num / den))] for positive [num], [den]. *)
Definition floor_log10 (num den : Z) : Z :=
  if den <=? num then ndigits (num / den) - 1
  else
    let t := ndigits (den / num) in
    if den <=? num * 10 ^ (t - 1) then - (t - 1) else - t.

(** The two [n]-digit neighbours of [num/den] at decimal exponent [k],
    nearest first (ties: even last digit first). *)
Definition neighbours (num den k : Z) : list Z :=
  let N := if 0 <=? k then num else num * 10 ^ (- k) in
  let D := if 0 <=? k then den * 10 ^ k else den in
  let lo := N / D in
  let r := N mod D in
  if r =? 0 then [lo]
  else
    match 2 * r ?= D with
    | Lt => [lo; lo + 1]
    | Gt => [lo + 1; lo]
    | Eq => if Z.even lo then [lo; lo + 1] else [lo + 1; lo]
    end.

Definition reads_back (x : t) (k d : Z) : bool := eqb (of_decimal false d k) x.

(** Try [n], [n+1], ... significant digits; 17 always suffice for binary64. *)
Fixpoint shortest (fuel : nat) (x : t) (num den p n : Z) : Z * Z :=
  let k := p - n + 1 in
  let cands := neighbours num den k in
  match List.find (reads_back x k) cands with
  | Some d => (d, k)
  | None =>
      match fuel with
      | O => (hd 0 cands, k)
      | S fuel' => shortest fuel' x num den p (n + 1)
      end
  end.

Definition strip_trailing_zeros (ds : list ascii) : list ascii :=
  rev (snd (span (Ascii.eqb "0") (rev ds))).

(** Digits and position of the decimal point ([0.d1d2... * 10^decpt])
    of a positive finite float. *)
Definition shortest_digits (m : positive) (e : Z) : list ascii * Z :=
  let num := if 0 <=? e then Zpos m * 2 ^ e else Zpos m in
  let den := if 0 <=? e then 1 else 2 ^ (- e) in
  let p := floor_log10 num den in
  let '(d, k) := shortest 16 (S754_finite false m e) num den p 1 in
  let ds := dec_digits d in
  (strip_trailing_zeros ds, Z.of_nat (length ds) + k).

Definition zeros (n : Z) : list ascii := repeat "0"%char (Z.to_nat n).

Definition format_exp (x : Z) : list ascii :=
  (if x <? 0 then "-"%char else "+"%char)
    :: (if Z.abs x <? 10 then ["0"%char] else []) ++ dec_digits (Z.abs x).

(** Format code ['r'] with a trailing [.0] for integers: fixed notation
    when [-4 < decpt <= 16], exponent notation otherwise. *)
Definition format_repr (ds : list ascii) (decpt : Z) : list ascii :=
  let nd := Z.of_nat (length ds) in
  if (decpt <=? -4) || (16 <? decpt) then
    match ds with
    | [] => []
    | d1 :: rest =>
        d1 :: (match rest with [] => [] | _ => "."%char :: rest end)
           ++ "e"%char :: format_exp (decpt - 1)
    end
  else if decpt <=? 0 then
    "0"%char :: "."%char :: zeros (- decpt) ++ ds
  else if decpt <? nd then
    firstn (Z.to_nat decpt) ds ++ "."%char :: skipn (Z.to_nat decpt) ds
  else
    ds ++ zeros (decpt - nd) ++ ["."%char; "0"%char].

(** [repr(f)], which is also [str(f)]. *)
Definition repr (f : t) : string :=
  match f with
  | S754_nan => "nan"
  | S754_infinity s => if s then "-inf" else "inf"
  | S754_zero s => if s then "-0.0" else "0.0"
  | S754_finite s m e =>
      let '(ds, decpt) := shortest_digits m e in
      string_of_list_ascii ((if s then ["-"%char] else []) ++ format_repr ds decpt)
  end.

End PyFloat.

(** A Python number: [int] or [float]. *)
Inductive pynum :=
| PInt (z : Z)
| PFloat (f : PyFloat.t).

Definition py_compare (x y : pynum) : option comparison :=
  match x, y with
  | PInt a, PInt b => Some (a ?= b)
  | PFloat f, PInt b => PyFloat.compare_int f b
  | PInt a, PFloat g => option_map CompOpp (PyFloat.compare_int g a)
  | PFloat f, PFloat g => SFcompare f g
  end.

(** [x >= y] *)
Definition py_ge (x y : pynum) : bool :=
  match py_compare x y with
  | Some (Gt | Eq) => true
  | _ => false
  end.

(** [x > y] *)
Definition py_gt (x y : pynum) : bool :=
  match py_compare x y with
  | Some Gt => true
  | _ => false
  end.

(** ** Python values reaching the bridge

    The runtime endpoint decodes a JSON body, so the [value] handed to
    [set_scorm_value] is any JSON value.  Arrays and objects are only ever
    hashed, converted to [float] or printed there; they carry their
    printed form. *)

Inductive pyval :=
| VNone
| VBool (b : bool)
| VInt (z : Z)
| VFloat (f : PyFloat.t)
| VStr (s : string)
| VList (shown : string)
| VDict (shown : string).

(** [str(z)] for an int. *)
Definition str_of_int (z : Z) : string := NilZero.string_of_int (Z.to_int z).

(** [str(value)] *)
Definition py_str (v : pyval) : string :=
  match v with
  | VNone => "None"
  | VBool b => if b then "True" else "False"
  | VInt z => str_of_int z
  | VFloat f => PyFloat.repr f
  | VStr s => s
  | VList shown | VDict shown => shown
  end.

(** [float(value)] *)
Definition py_float (v : pyval) : result PyFloat.t :=
  match v with
  | VNone => Raise (TypeError "float() argument must be a string or a real number, not 'NoneType'")
  | VBool b => Ok (PyFloat.lit (if b then 1 else 0))
  | VInt z => PyFloat.of_int z
  | VFloat f => Ok f
  | VStr s => PyFloat.of_string s
  | VList _ => Raise (TypeError "float() argument must be a string or a real number, not 'list'")
  | VDict _ => Raise (TypeError "float() argument must be a string or a real number, not 'dict'")
  end.

(** [s[:n]] *)
Definition str_prefix (n : nat) (s : string) : string := String.substring 0 n s.

(** [value in d] for a dict [d] whose keys are the strings [keys]: the
    value is hashed first, and only an equal string is found.  A successful
    test yields the string the value is. *)
Definition py_in_str_keys (v : pyval) (keys : list string) : result (option string) :=
  match v with
  | VList _ => Raise (TypeError "unhashable type: 'list'")
  | VDict _ => Raise (TypeError "unhashable type: 'dict'")
  | VStr s => Ok (if existsb (String.eqb s) keys then Some s else None)
  | VNone | VBool _ | VInt _ | VFloat _ => Ok None
  end.

(** ** [datetime.timedelta] *)

Module TimeDelta.

Record t := { days : Z; seconds : Z; microseconds : Z }.

(** [bool(td)] *)
Definition truthy (d : t) : bool :=
  negb ((days d =? 0) && (seconds d =? 0) && (microseconds d =? 0)).

(** [%0<w>d] for a non-negative number. *)
Definition pad (w : nat) (z : Z) : string :=
  let ds := str_of_int z in
  (string_of_list_ascii (repeat "0"%char (w - String.length ds)) ++ ds)%string.

(** [str(td)]: [[D day[s], ]H:MM:SS[.ffffff]] *)
Definition str (d : t) : string :=
  let mm := seconds d / 60 in
  let ss := seconds d mod 60 in
  let hh := mm / 60 in
  let mm := mm mod 60 in
  let s := (str_of_int hh ++ ":" ++ pad 2 mm ++ ":" ++ pad 2 ss)%string in
  let plural := if Z.abs (days d) =? 1 then "" else "s" in
  let s :=
    if days d =? 0 then s
    else (str_of_int (days d) ++ " day" ++ plural ++ ", " ++ s)%string in
  if microseconds d =? 0 then s
  else (s ++ "." ++ pad 6 (microseconds d))%string.

End TimeDelta.

(** ** Model instances *)

(** The authenticated learner, an external collaborator: [full_name] is what
    [get_full_name()] returns, [is_student] is [hasattr(user, 'student')]. *)
Module User.
Record t := {
  id : Z;
  username : string;
  full_name : string;
  is_authenticated : bool;
  is_superuser : bool;
  is_staff : bool;
  is_student : bool
}.
End User.

Module ScormPackage.

Record t := {
  id : Z;
  course : Z;
  title : string;
  slug : string;
  package_file : string;
  extracted_path : string;
  entry_point : string;
  status : string;
  error_message : string;
  allow_multiple_attempts : bool;
  passing_score : Z;
  created_at : Z
}.

End ScormPackage.

Module ScormAttempt.

Record t := {
  id : Z;
  package : ScormPackage.t;
  user : User.t;
  started_at : Z;
  last_accessed : Z;
  completed_at : option Z;
  lesson_status : string;
  score_raw : option PyFloat.t;
  score_min : PyFloat.t;
  score_max : PyFloat.t;
  score_scaled : option PyFloat.t;
  progress_measure : PyFloat.t;
  total_time : option TimeDelta.t;
  session_time : option TimeDelta.t;
  suspend_data : string;
  lesson_location : string;
  exit_mode : string;
  credit : string;
  entry : string
}.

(** A [ScormAttempt] object in memory: the row it is stored as, and the
    Python numbers it holds in the three [FloatField]s that have a default.
    An object loaded from the database holds the row's floats.  An object
    built by [objects.create] without these fields holds their declared
    defaults, the ints 0, 100 and 0, which its row stores as the floats
    0.0, 100.0 and 0.0. *)
Record instance := {
  row : t;
  held_score_min : pynum;
  held_score_max : pynum;
  held_progress_measure : pynum
}.

(** The object a query returns for a row. *)
Definition loaded (a : t) : instance :=
  {| row := a;
     held_score_min := PFloat (score_min a);
     held_score_max := PFloat (score_max a);
     held_progress_measure := PFloat (progress_measure a) |}.

(** The keys of [dict(ScormAttempt.STATUS_CHOICES)]. *)
Definition STATUS_CHOICES : list string :=
  ["browsed"; "incomplete"; "completed"; "failed"; "passed"; "not_attempted"].

(** Attribute assignments [attempt.<field> = v]. *)
Definition with_last_accessed (v : Z) (a : t) : t :=
  Build_t (id a) (package a) (user a) (started_at a) v (completed_at a)
    (lesson_status a) (score_raw a) (score_min a) (score_max a) (score_scaled a)
    (progress_measure a) (total_time a) (session_time a) (suspend_data a)
    (lesson_location a) (exit_mode a) (credit a) (entry a).

Definition with_lesson_status (v : string) (a : t) : t :=
  Build_t (id a) (package a) (user a) (started_at a) (last_accessed a) (completed_at a)
    v (score_raw a) (score_min a) (score_max a) (score_scaled a)
    (progress_measure a) (total_time a) (session_time a) (suspend_data a)
    (lesson_location a) (exit_mode a) (credit a) (entry a).

Definition with_score_raw (v : option PyFloat.t) (a : t) : t :=
  Build_t (id a) (package a) (user a) (started_at a) (last_accessed a) (completed_at a)
    (lesson_status a) v (score_min a) (score_max a) (score_scaled a)
    (progress_measure a) (total_time a) (session_time a) (suspend_data a)
    (lesson_location a) (exit_mode a) (credit a) (entry a).

Definition with_score_min (v : PyFloat.t) (a : t) : t :=
  Build_t (id a) (package a) (user a) (started_at a) (last_accessed a) (completed_at a)
    (lesson_status a) (score_raw a) v (score_max a) (score_scaled a)
    (progress_measure a) (total_time a) (session_time a) (suspend_data a)
    (lesson_location a) (exit_mode a) (credit a) (entry a).

Definition with_score_max (v : PyFloat.t) (a : t) : t :=
  Build_t (id a) (package a) (user a) (started_at a) (last_accessed a) (completed_at a)
    (lesson_status a) (score_raw a) (score_min a) v (score_scaled a)
    (progress_measure a) (total_time a) (session_time a) (suspend_data a)
    (lesson_location a) (exit_mode a) (credit a) (entry a).

Definition with_suspend_data (v : string) (a : t) : t :=
  Build_t (id a) (package a) (user a) (started_at a) (last_accessed a) (completed_at a)
    (lesson_status a) (score_raw a) (score_min a) (score_max a) (score_scaled a)
    (progress_measure a) (total_time a) (session_time a) v
    (lesson_location a) (exit_mode a) (credit a) (entry a).

Definition with_lesson_location (v : string) (a : t) : t :=
  Build_t (id a) (package a) (user a) (started_at a) (last_accessed a) (completed_at a)
    (lesson_status a) (score_raw a) (score_min a) (score_max a) (score_scaled a)
    (progress_measure a) (total_time a) (session_time a) (suspend_data a)
    v (exit_mode a) (credit a) (entry a).

Definition with_exit_mode (v : string) (a : t) : t :=
  Build_t (id a) (package a) (user a) (started_at a) (last_accessed a) (completed_at a)
    (lesson_status a) (score_raw a) (score_min a) (score_max a) (score_scaled a)
    (progress_measure a) (total_time a) (session_time a) (suspend_data a)
    (lesson_location a) v (credit a) (entry a).

(** [(self.score_raw / self.score_max) * 100] *)
Definition ratio_times_100 (raw max : PyFloat.t) : result pynum :=
  let! q := PyFloat.truediv raw max in
  Ok (PFloat (PyFloat.mul q (PyFloat.lit 100))).

(** [is_passed(self)] *)
Definition is_passed (self : t) : result bool :=
  match score_raw self with
  | Some raw =>
      if negb (ScormPackage.passing_score (package self) =? 0) then
        let! percentage :=
          if PyFloat.truthy (score_max self)
          then ratio_times_100 raw (score_max self)
          else Ok (PInt 0) in
        Ok (py_ge percentage (PInt (ScormPackage.passing_score (package self))))
      else Ok (String.eqb (lesson_status self) "passed")
  | None => Ok (String.eqb (lesson_status self) "passed")
  end.

(** [get_percentage_score(self)] *)
Definition get_percentage_score (self : t) : result pynum :=
  match score_raw self with
  | Some raw =>
      if PyFloat.truthy (score_max self)
      then ratio_times_100 raw (score_max self)
      else Ok (PInt 0)
  | None => Ok (PInt 0)
  end.

End ScormAttempt.

(** An object is read as its row where a row is expected. *)
Coercion ScormAttempt.row : ScormAttempt.instance >-> ScormAttempt.t.

(** ** Code that mutates an object and may raise *)

Definition stx (S A : Type) : Type := S -> S * result A.

Definition sret {S A} (a : A) : stx S A := fun s => (s, Ok a).

Definition sbind {S A B} (c : stx S A) (k : A -> stx S B) : stx S B :=
  fun s =>
    match c s with
    | (s', Ok a) => k a s'
    | (s', Raise e) => (s', Raise e)
    end.

(** Evaluate an expression that only reads. *)
Definition eval {S A} (c : result A) : stx S A := fun s => (s, c).

(** [obj.<field> = v] *)
Definition assign {S} (f : S -> S) : stx S unit := fun s => (f s, Ok tt).

(** [try: c except <class>: h]; what [c] assigned before raising stays. *)
Definition stry {S A} (c : stx S A) (cls : exn -> bool) (h : exn -> stx S A) : stx S A :=
  fun s =>
    match c s with
    | (s', Ok a) => (s', Ok a)
    | (s', Raise e) => if cls e then h e s' else (s', Raise e)
    end.

Notation "'do!' x ':=' c 'in' k" := (sbind c (fun x => k))
  (at level 10, x name, c at level 100, k at level 200) : py_scope.

(** ** The SCORM data-model bridge ([views.py]) *)

Local Notation "a == b" := (String.eqb a b) (at level 70, no associativity).

(** [get_scorm_value(attempt, element)] *)
Definition get_scorm_value (attempt : ScormAttempt.t) (element : string) : string :=
  if element == "cmi.core.lesson_status" then ScormAttempt.lesson_status attempt
  else if element == "cmi.core.score.raw" then
    match ScormAttempt.score_raw attempt with
    | Some f => PyFloat.repr f
    | None => ""
    end
  else if element == "cmi.core.score.min" then PyFloat.repr (ScormAttempt.score_min attempt)
  else if element == "cmi.core.score.max" then PyFloat.repr (ScormAttempt.score_max attempt)
  else if element == "cmi.core.lesson_location" then ScormAttempt.lesson_location attempt
  else if element == "cmi.core.credit" then ScormAttempt.credit attempt
  else if element == "cmi.core.entry" then ScormAttempt.entry attempt
  else if element == "cmi.core.total_time" then
    match ScormAttempt.total_time attempt with
    | Some d => if TimeDelta.truthy d then TimeDelta.str d else "00:00:00"
    | None => "00:00:00"
    end
  else if element == "cmi.core.session_time" then
    match ScormAttempt.session_time attempt with
    | Some d => if TimeDelta.truthy d then TimeDelta.str d else "00:00:00"
    | None => "00:00:00"
    end
  else if element == "cmi.core.exit" then ScormAttempt.exit_mode attempt
  else if element == "cmi.suspend_data" then ScormAttempt.suspend_data attempt
  else if element == "cmi.launch_data" then ""
  else if element == "cmi.comments" then ""
  else if element == "cmi.comments_from_lms" then ""
  else if element == "cmi.core.student_id" then
    str_of_int (User.id (ScormAttempt.user attempt))
  else if element == "cmi.core.student_name" then
    let full := User.full_name (ScormAttempt.user attempt) in
    if full == "" then User.username (ScormAttempt.user attempt) else full
  else if element == "cmi.core._version" then "3.4"
  else "".


(** [try: attempt.<field> = float(value) / except ValueError: return False /
    return True] *)
Definition set_float (field : PyFloat.t -> ScormAttempt.t -> ScormAttempt.t)
    (value : pyval) : stx ScormAttempt.t bool :=
  stry (do! f := eval (py_float value) in
        do! _ := assign (field f) in
        sret true)
       is_ValueError (fun _ => sret false).

(** The body of the [try] block of [set_scorm_value]. *)
Definition set_scorm_value_body (element : string) (value : pyval)
  : stx ScormAttempt.t bool :=
  if element == "cmi.core.lesson_status" then
    do! found := eval (py_in_str_keys value ScormAttempt.STATUS_CHOICES) in
    do! _ := match found with
                | Some status => assign (ScormAttempt.with_lesson_status status)
                | None => sret tt
                end in
    sret true
  else if element == "cmi.core.score.raw" then
    set_float (fun f => ScormAttempt.with_score_raw (Some f)) value
  else if element == "cmi.core.score.min" then
    set_float ScormAttempt.with_score_min value
  else if element == "cmi.core.score.max" then
    set_float ScormAttempt.with_score_max value
  else if element == "cmi.core.lesson_location" then
    do! _ := assign (ScormAttempt.with_lesson_location (str_prefix 255 (py_str value))) in
    sret true
  else if element == "cmi.core.exit" then
    do! _ := assign (ScormAttempt.with_exit_mode (str_prefix 20 (py_str value))) in
    sret true
  else if element == "cmi.core.session_time" then sret true
  else if element == "cmi.suspend_data" then
    do! _ := assign (ScormAttempt.with_suspend_data (py_str value)) in
    sret true
  else if String.prefix "cmi.interactions." element then sret true
  else if String.prefix "cmi.objectives." element then sret true
  else sret true.

(** [set_scorm_value(attempt, element, value)]: the attempt after the call
    and what the call returns (or raises). *)
Definition set_scorm_value (attempt : ScormAttempt.t) (element : string) (value : pyval)
  : ScormAttempt.t * result bool :=
  stry (set_scorm_value_body element value) is_Exception (fun _ => sret false) attempt.

(** The element names [set_scorm_value] writes or accepts by name. *)
Definition set_catalog : list string :=
  [ "cmi.core.lesson_status"; "cmi.core.score.raw"; "cmi.core.score.min";
    "cmi.core.score.max"; "cmi.core.lesson_location"; "cmi.core.exit";
    "cmi.core.session_time"; "cmi.suspend_data" ].

(** ** The relational store *)

Module Db.

Record t := {
  packages : list ScormPackage.t;
  attempts : list ScormAttempt.t;
  (** [(student, course)] pairs of the enrolment table *)
  enrollments : list (Z * Z);
  next_attempt_id : Z
}.

Definition with_attempts (rows : list ScormAttempt.t) (db : t) : t :=
  {| packages := packages db; attempts := rows;
     enrollments := enrollments db; next_attempt_id := next_attempt_id db |}.

Definition with_packages (rows : list ScormPackage.t) (db : t) : t :=
  {| packages := rows; attempts := attempts db;
     enrollments := enrollments db; next_attempt_id := next_attempt_id db |}.

End Db.

(** [Model.objects.get(...)] over the rows a filter selected. *)
Definition objects_get {A} (matching : list A) : result A :=
  match matching with
  | [] => Raise (DoesNotExist "matching query does not exist.")
  | [row] => Ok row
  | _ => Raise (MultipleObjectsReturned "get() returned more than one row")
  end.

(** Insertion into a list sorted by decreasing [key]; rows with equal keys
    keep their table order. *)
Fixpoint insert_desc {A} (key : A -> Z) (x : A) (l : list A) : list A :=
  match l with
  | [] => [x]
  | y :: l' => if key x <? key y then y :: insert_desc key x l' else x :: l
  end.

(** [order_by('-<key>')] *)
Definition order_by_desc {A} (key : A -> Z) (l : list A) : list A :=
  fold_right (insert_desc key) [] l.

(** [order_by('<key>')] *)
Definition order_by_asc {A} (key : A -> Z) (l : list A) : list A :=
  order_by_desc (fun x => - key x) l.

(** [ScormAttempt.objects.filter(package=package, user=user)], in the
    model's default ordering [-started_at]. *)
Definition attempts_of (package : ScormPackage.t) (user : User.t) (db : Db.t)
  : list ScormAttempt.t :=
  order_by_desc ScormAttempt.started_at
    (List.filter (fun a =>
               (ScormPackage.id (ScormAttempt.package a) =? ScormPackage.id package)
               && (User.id (ScormAttempt.user a) =? User.id user))
            (Db.attempts db)).

(** [ScormAttempt.objects.create(package, user, lesson_status, started_at)]:
    the other columns take their defaults; [unique_together] is
    [(package, user, started_at)].  The object returned is the one that was
    built: it still holds the ints [score_min=0], [score_max=100] and
    [progress_measure=0] of the field declarations. *)
Definition create_attempt (package : ScormPackage.t) (user : User.t)
    (lesson_status : string) (now : Z) : stx Db.t ScormAttempt.instance :=
  fun db =>
    if existsb (fun a => ScormAttempt.started_at a =? now) (attempts_of package user db)
    then (db, Raise (IntegrityError "UNIQUE constraint failed: package, user, started_at"))
    else
      let row :=
        {| ScormAttempt.id := Db.next_attempt_id db;
           ScormAttempt.package := package;
           ScormAttempt.user := user;
           ScormAttempt.started_at := now;
           ScormAttempt.last_accessed := now;
           ScormAttempt.completed_at := None;
           ScormAttempt.lesson_status := lesson_status;
           ScormAttempt.score_raw := None;
           ScormAttempt.score_min := PyFloat.lit 0;
           ScormAttempt.score_max := PyFloat.lit 100;
           ScormAttempt.score_scaled := None;
           ScormAttempt.progress_measure := PyFloat.lit 0;
           ScormAttempt.total_time := None;
           ScormAttempt.session_time := None;
           ScormAttempt.suspend_data := "";
           ScormAttempt.lesson_location := "";
           ScormAttempt.exit_mode := "";
           ScormAttempt.credit := "credit";
           ScormAttempt.entry := "ab-initio" |} in
      ({| Db.packages := Db.packages db;
          Db.attempts := Db.attempts db ++ [row];
          Db.enrollments := Db.enrollments db;
          Db.next_attempt_id := Db.next_attempt_id db + 1 |},
       Ok {| ScormAttempt.row := row;
             ScormAttempt.held_score_min := PInt 0;
             ScormAttempt.held_score_max := PInt 100;
             ScormAttempt.held_progress_measure := PInt 0 |}).

(** [attempt.save()]: [last_accessed] is [auto_now]; the row with the
    attempt's key is updated, and inserted when there is none. *)
Definition save_attempt (now : Z) (attempt : ScormAttempt.t) : stx Db.t ScormAttempt.t :=
  fun db =>
    let row := ScormAttempt.with_last_accessed now attempt in
    let same a := ScormAttempt.id a =? ScormAttempt.id row in
    if existsb same (Db.attempts db) then
      (Db.with_attempts (map (fun a => if same a then row else a) (Db.attempts db)) db,
       Ok row)
    else if existsb (fun a => ScormAttempt.started_at a =? ScormAttempt.started_at row)
              (attempts_of (ScormAttempt.package row) (ScormAttempt.user row) db)
    then (db, Raise (IntegrityError "UNIQUE constraint failed: package, user, started_at"))
    else (Db.with_attempts (Db.attempts db ++ [row]) db, Ok row).

Definition is_DoesNotExist (e : exn) : bool :=
  match e with DoesNotExist _ => true | _ => false end.

Definition is_IntegrityError (e : exn) : bool :=
  match e with IntegrityError _ => true | _ => false end.

(** [ScormAttempt.objects.get_or_create(package=package, user=user,
    lesson_status='not_attempted', defaults={'started_at': now(),
    'lesson_status': 'incomplete'})]: the lookup uses the keyword arguments,
    the creation uses them overridden by [defaults]. *)
Definition get_or_create_attempt (package : ScormPackage.t) (user : User.t) (now : Z)
  : stx Db.t (ScormAttempt.instance * bool) :=
  let lookup : stx Db.t ScormAttempt.t :=
    fun db =>
      (db, objects_get
             (List.filter (fun a => ScormAttempt.lesson_status a == "not_attempted")
                     (attempts_of package user db))) in
  stry (do! found := lookup in sret (ScormAttempt.loaded found, false))
       is_DoesNotExist
       (fun _ =>
          stry (do! created := create_attempt package user "incomplete" now in
                sret (created, true))
               is_IntegrityError
               (fun e =>
                  stry (do! found := lookup in sret (ScormAttempt.loaded found, false))
                       is_DoesNotExist
                       (fun _ => eval (Raise e)))).

(** ** Launching a package ([views.launch_scorm_package]) *)

Record PlayerContext := {
  ctx_package : ScormPackage.t;
  ctx_attempt : ScormAttempt.instance;
  launch_url : string;
  scorm_api_url : string;
  other_packages : list ScormPackage.t;
  completed_packages : list Z;
  attempt_count : Z
}.

Record ProgressEntry := {
  pe_package : ScormPackage.t;
  latest_attempt : ScormAttempt.t;
  total_attempts : Z;
  best_score : pynum
}.

Record ProgressContext := {
  progress_data : list ProgressEntry;
  total_packages : Z;
  completed_count : Z
}.

Inductive Response :=
| RedirectToLogin
| Redirect (route : string) (slug : string) (warning : string)
| RenderPlayer (ctx : PlayerContext)
| RenderProgress (ctx : ProgressContext).

Record Request := { user : User.t }.

(** [Course.objects.filter(takencourse__student=user.student)
      .values_list('id', flat=True)] *)
Definition enrolled_courses (u : User.t) (db : Db.t) : list Z :=
  map snd (List.filter (fun sc => fst sc =? User.id u) (Db.enrollments db)).

Definition mem_Z (z : Z) (l : list Z) : bool := existsb (Z.eqb z) l.

(** The access check of the launch view: [Ok tt] when access is granted. *)
Definition check_permissions (u : User.t) (package : ScormPackage.t) (db : Db.t)
  : result unit :=
  if negb (User.is_superuser u || User.is_staff u) then
    if User.is_student u then
      if negb (mem_Z (ScormPackage.course package) (enrolled_courses u db))
      then Raise Http404 else Ok tt
    else Raise Http404
  else Ok tt.

(** [lesson_status in ['completed', 'passed']] *)
Definition is_terminal (status : string) : bool :=
  (status == "completed") || (status == "passed").

(** [SELECT DISTINCT] over rows of two columns. *)
Fixpoint distinct (l : list (Z * Z)) : list (Z * Z) :=
  match l with
  | [] => []
  | x :: r =>
      x :: List.filter (fun y => negb ((fst y =? fst x) && (snd y =? snd x))) (distinct r)
  end.

(** [get_object_or_404(ScormPackage, slug=slug, status='ready')] *)
Definition get_ready_package_or_404 (slug : string) (db : Db.t) : result ScormPackage.t :=
  try_except
    (objects_get
       (List.filter (fun p => (ScormPackage.slug p == slug) && (ScormPackage.status p == "ready"))
               (Db.packages db)))
    is_DoesNotExist (fun _ => Raise Http404).

(** [launch_scorm_package(request, slug)] at time [now]. *)
Definition launch_scorm_package (request : Request) (slug : string) (now : Z)
  : stx Db.t Response :=
  let user := user request in
  if negb (User.is_authenticated user) then sret RedirectToLogin else
  do! package := (fun db => (db, get_ready_package_or_404 slug db)) in
  do! _ := (fun db => (db, check_permissions user package db)) in
  do! blocked :=
    (fun db =>
       (db, Ok (match attempts_of package user db with
                | latest_attempt :: _ =>
                    negb (ScormPackage.allow_multiple_attempts package)
                    && is_terminal (ScormAttempt.lesson_status latest_attempt)
                | [] => false
                end))) in
  if (blocked : bool) then
    sret (Redirect "scorm:package_detail" slug
            "You have already completed this SCORM package and multiple attempts are not allowed.")
  else
    do! got := get_or_create_attempt package user now in
    let '(current_attempt, created) := got in
    do! current_attempt :=
      (if (created : bool) then sret current_attempt
       else
         do! saved := save_attempt now
                        (ScormAttempt.with_last_accessed now current_attempt) in
         sret (ScormAttempt.loaded saved)) in
    fun db =>
      let others :=
        order_by_asc ScormPackage.created_at
          (List.filter (fun p => (ScormPackage.course p =? ScormPackage.course package)
                            && (ScormPackage.status p == "ready")
                            && negb (ScormPackage.id p =? ScormPackage.id package))
                  (Db.packages db)) in
      (* [.values_list('package_id', flat=True).distinct()] under the
         default ordering: the ordering column is selected too, so the rows
         made distinct are the pairs of package and start time. *)
      let completed :=
        map fst
          (distinct
             (map (fun a => (ScormPackage.id (ScormAttempt.package a),
                             ScormAttempt.started_at a))
                (order_by_desc ScormAttempt.started_at
                   (List.filter (fun a => (User.id (ScormAttempt.user a) =? User.id user)
                                     && (ScormPackage.course (ScormAttempt.package a)
                                           =? ScormPackage.course package)
                                     && is_terminal (ScormAttempt.lesson_status a))
                           (Db.attempts db))))) in
      (db,
       Ok (RenderPlayer
             {| ctx_package := package;
                ctx_attempt := current_attempt;
                launch_url := ("/media/" ++ ScormPackage.extracted_path package ++ "/"
                                 ++ ScormPackage.entry_point package)%string;
                scorm_api_url := "scorm:api";
                other_packages := firstn 5 others;
                completed_packages := completed;
                attempt_count := Z.of_nat (length (attempts_of package user db)) |})).

(** ** Progress summaries ([views.user_scorm_progress]) *)

(** The dict [progress_by_package], in insertion order. *)
Definition progress_dict := list (Z * ProgressEntry).

Fixpoint dict_get (k : Z) (d : progress_dict) : option ProgressEntry :=
  match d with
  | [] => None
  | (k', e) :: r => if k' =? k then Some e else dict_get k r
  end.

(** [d[k] = f(d[k])] for a key that is present. *)
Fixpoint dict_update (k : Z) (f : ProgressEntry -> ProgressEntry) (d : progress_dict)
  : progress_dict :=
  match d with
  | [] => []
  | (k', e) :: r => if k' =? k then (k', f e) :: r else (k', e) :: dict_update k f r
  end.

(** One iteration of [for attempt in attempts]. *)
Definition progress_step (d : progress_dict) (attempt : ScormAttempt.t) : progress_dict :=
  let k := ScormPackage.id (ScormAttempt.package attempt) in
  let d :=
    match dict_get k d with
    | None =>
        d ++ [(k, {| pe_package := ScormAttempt.package attempt;
                     latest_attempt := attempt;
                     total_attempts := 0;
                     best_score := PInt 0 |})]
    | Some _ => d
    end in
  let d :=
    dict_update k (fun e => {| pe_package := pe_package e;
                               latest_attempt := latest_attempt e;
                               total_attempts := total_attempts e + 1;
                               best_score := best_score e |}) d in
  match ScormAttempt.score_raw attempt, dict_get k d with
  | Some raw, Some e =>
      if PyFloat.truthy raw && py_gt (PFloat raw) (best_score e) then
        dict_update k (fun e => {| pe_package := pe_package e;
                                   latest_attempt := latest_attempt e;
                                   total_attempts := total_attempts e;
                                   best_score := PFloat raw |}) d
      else d
  | _, _ => d
  end.

(** The learner's attempts, newest first. *)
Definition user_attempts (u : User.t) (db : Db.t) : list ScormAttempt.t :=
  order_by_desc ScormAttempt.started_at
    (List.filter (fun a => User.id (ScormAttempt.user a) =? User.id u) (Db.attempts db)).

Definition progress_by_package (u : User.t) (db : Db.t) : progress_dict :=
  fold_left progress_step (user_attempts u db) [].

(** [user_scorm_progress(request)] *)
Definition user_scorm_progress (request : Request) (db : Db.t) : Response :=
  if negb (User.is_authenticated (user request)) then RedirectToLogin else
  let d := progress_by_package (user request) db in
  RenderProgress
    {| progress_data := map snd d;
       total_packages := Z.of_nat (length d);
       completed_count :=
         Z.of_nat (length (List.filter (fun p => is_terminal
                                              (ScormAttempt.lesson_status (latest_attempt p)))
                                  (map snd d))) |}.

(** ** Package ingestion ([models.ScormPackage.extract_package]) *)

(** What reading a file as UTF-8 text gives. *)
Inductive file_content :=
| Utf8Text (text : string)
| Undecodable (detail : string).

(** What is stored under an uploaded file's name: something that does not
    open as a zip archive, or an archive with its members, each under the
    path extraction gives it. *)
Inductive archive :=
| NotAZip
| ZipOf (members : list (string * file_content)).

(** The media root: uploaded files by name, and the files of each
    extraction directory by member name. *)
Record Media := {
  uploads : gmap string archive;
  extracted : gmap string (gmap string file_content)
}.

Definition quote : ascii := "034"%char.

Fixpoint match_prefix (lit s : list ascii) : option (list ascii) :=
  match lit, s with
  | [], _ => Some s
  | l :: lit', c :: r => if Ascii.eqb l c then match_prefix lit' r else None
  | _ :: _, [] => None
  end.

(** The pattern [href=Q([^Q]+)Q] at the head of [s], where [Q] is the
    double-quote character: the group. *)
Definition href_group (s : list ascii) : option (list ascii) :=
  match match_prefix (list_ascii_of_string "href=" ++ [quote]) s with
  | Some r =>
      match span (fun c => negb (Ascii.eqb c quote)) r with
      | (c :: v, _ :: _) => Some (c :: v)
      | _ => None
      end
  | None => None
  end.

(** The pattern [[^>]*href=Q([^Q]+)Q] at the head of [s]; the star is
    greedy, so the longest run is tried first. *)
Fixpoint tag_rest (s : list ascii) : option (list ascii) :=
  match s with
  | c :: r =>
      match (if Ascii.eqb c ">" then None else tag_rest r) with
      | Some v => Some v
      | None => href_group s
      end
  | [] => href_group []
  end.

(** The whole pattern [<resource[^>]*href=Q([^Q]+)Q] at the head of [s]. *)
Definition resource_href_at (s : list ascii) : option (list ascii) :=
  match match_prefix (list_ascii_of_string "<resource") s with
  | Some r => tag_rest r
  | None => None
  end.

(** [re.search] of the pattern [<resource[^>]*href=Q([^Q]+)Q] in the
    manifest text: group 1 of the leftmost match. *)
Fixpoint search_resource_href (s : list ascii) : option (list ascii) :=
  match resource_href_at s with
  | Some v => Some v
  | None =>
      match s with
      | [] => None
      | _ :: r => search_resource_href r
      end
  end.

Module Ingest.

(** The objects [extract_package] works on. *)
Record state := {
  self : ScormPackage.t;
  media : Media;
  db : Db.t
}.

Definition with_self (f : ScormPackage.t -> ScormPackage.t) (s : state) : state :=
  {| self := f (self s); media := media s; db := db s |}.

Definition set_slug (v : string) (p : ScormPackage.t) : ScormPackage.t :=
  ScormPackage.Build_t (ScormPackage.id p) (ScormPackage.course p) (ScormPackage.title p)
    v (ScormPackage.package_file p) (ScormPackage.extracted_path p)
    (ScormPackage.entry_point p) (ScormPackage.status p) (ScormPackage.error_message p)
    (ScormPackage.allow_multiple_attempts p) (ScormPackage.passing_score p)
    (ScormPackage.created_at p).

Definition set_extracted_path (v : string) (p : ScormPackage.t) : ScormPackage.t :=
  ScormPackage.Build_t (ScormPackage.id p) (ScormPackage.course p) (ScormPackage.title p)
    (ScormPackage.slug p) (ScormPackage.package_file p) v
    (ScormPackage.entry_point p) (ScormPackage.status p) (ScormPackage.error_message p)
    (ScormPackage.allow_multiple_attempts p) (ScormPackage.passing_score p)
    (ScormPackage.created_at p).

Definition set_entry_point (v : string) (p : ScormPackage.t) : ScormPackage.t :=
  ScormPackage.Build_t (ScormPackage.id p) (ScormPackage.course p) (ScormPackage.title p)
    (ScormPackage.slug p) (ScormPackage.package_file p) (ScormPackage.extracted_path p)
    v (ScormPackage.status p) (ScormPackage.error_message p)
    (ScormPackage.allow_multiple_attempts p) (ScormPackage.passing_score p)
    (ScormPackage.created_at p).

Definition set_status (v : string) (p : ScormPackage.t) : ScormPackage.t :=
  ScormPackage.Build_t (ScormPackage.id p) (ScormPackage.course p) (ScormPackage.title p)
    (ScormPackage.slug p) (ScormPackage.package_file p) (ScormPackage.extracted_path p)
    (ScormPackage.entry_point p) v (ScormPackage.error_message p)
    (ScormPackage.allow_multiple_attempts p) (ScormPackage.passing_score p)
    (ScormPackage.created_at p).

Definition set_error_message (v : string) (p : ScormPackage.t) : ScormPackage.t :=
  ScormPackage.Build_t (ScormPackage.id p) (ScormPackage.course p) (ScormPackage.title p)
    (ScormPackage.slug p) (ScormPackage.package_file p) (ScormPackage.extracted_path p)
    (ScormPackage.entry_point p) (ScormPackage.status p) v
    (ScormPackage.allow_multiple_attempts p) (ScormPackage.passing_score p)
    (ScormPackage.created_at p).

(** [Path(a) / b] as text; joining the empty name changes nothing. *)
Definition path_join (a b : string) : string :=
  if String.eqb b "" then a else (a ++ "/" ++ b)%string.

(** [extract_base], relative to the media root. *)
Definition extract_base (p : ScormPackage.t) : string :=
  path_join (path_join "scorm_extracted" (str_of_int (ScormPackage.course p)))
            (ScormPackage.slug p).

Section WithSlugGenerator.

(** [core.utils.unique_slug_generator], which lives outside this package. *)
Variable unique_slug_generator : ScormPackage.t -> string.

(** [ScormPackage.save(self)] *)
Definition save : stx state unit :=
  fun s =>
    let p := self s in
    let p := if String.eqb (ScormPackage.slug p) ""
             then set_slug (unique_slug_generator p) p else p in
    let same q := ScormPackage.id q =? ScormPackage.id p in
    let rows := Db.packages (db s) in
    let rows :=
      if existsb same rows then map (fun q => if same q then p else q) rows
      else rows ++ [p] in
    ({| self := p; media := media s; db := Db.with_packages rows (db s) |}, Ok tt).

(** [extract_base.mkdir(parents=True, exist_ok=True)] *)
Definition mkdir (dir : string) : stx state unit :=
  assign (fun s =>
    {| self := self s;
       media := {| uploads := uploads (media s);
                   extracted :=
                     match extracted (media s) !! dir with
                     | Some _ => extracted (media s)
                     | None => <[dir := ∅]> (extracted (media s))
                     end |};
       db := db s |}).

(** [with zipfile.ZipFile(path, 'r') as zip_file: zip_file.extractall(dir)] *)
Definition extractall (path dir : string) : stx state unit :=
  fun s =>
    match uploads (media s) !! path with
    | None =>
        (s, Raise (OSError ("[Errno 2] No such file or directory: '" ++ path ++ "'")))
    | Some NotAZip => (s, Raise (BadZipFile "File is not a zip file"))
    | Some (ZipOf members) =>
        let before := default ∅ (extracted (media s) !! dir) in
        let after := fold_left (fun tree m => <[fst m := snd m]> tree) members before in
        ({| self := self s;
            media := {| uploads := uploads (media s);
                        extracted := <[dir := after]> (extracted (media s)) |};
            db := db s |}, Ok tt)
    end.

(** [manifest_path.exists()] and, when it does, [f.read()]. *)
Definition read_manifest (dir : string) : stx state (option string) :=
  fun s =>
    match default ∅ (extracted (media s) !! dir) !! "imsmanifest.xml" with
    | None => (s, Ok None)
    | Some (Utf8Text content) => (s, Ok (Some content))
    | Some (Undecodable detail) =>
        (s, Raise (UnicodeDecodeError ("'utf-8' codec can't decode " ++ detail)))
    end.

(** [extract_package(self)] *)
Definition extract_package : stx state bool :=
  fun s0 =>
    if String.eqb (ScormPackage.package_file (self s0)) "" then (s0, Ok false) else
    let extract_base := extract_base (self s0) in
    (do! _ := mkdir extract_base in
     stry
       (do! _ := extractall (ScormPackage.package_file (self s0)) extract_base in
        do! _ := assign (with_self (set_extracted_path extract_base)) in
        do! manifest := read_manifest extract_base in
        do! _ := match manifest with
                 | Some content =>
                     match search_resource_href (list_ascii_of_string content) with
                     | Some group =>
                         assign (with_self (set_entry_point (string_of_list_ascii group)))
                     | None => assign (with_self (set_entry_point "index.html"))
                     end
                 | None => sret tt
                 end in
        do! _ := assign (with_self (set_status "ready")) in
        do! _ := save in
        sret true)
       is_Exception
       (fun e =>
          do! _ := assign (with_self (set_status "error")) in
          do! _ := assign (with_self (set_error_message (exn_str e))) in
          do! _ := save in
          sret false)) s0.

End WithSlugGenerator.

End Ingest.


(** ** The specification's wording, for comparison with the code *)

(** [f == 0] *)
Definition is_zero (f : PyFloat.t) : bool := SFeqb f (PyFloat.lit 0).

(** The percentage score: [score_raw / score_max * 100], taken as [0] when
    [score_max] is [0] (and when there is no raw score). *)
Definition percentage_in_words (a : ScormAttempt.t) : pynum :=
  match ScormAttempt.score_raw a with
  | Some raw =>
      if is_zero (ScormAttempt.score_max a) then PInt 0
      else PFloat (PyFloat.mul (PyFloat.div raw (ScormAttempt.score_max a)) (PyFloat.lit 100))
  | None => PInt 0
  end.

(** Passed: [lesson_status] is [passed], or the percentage score reaches the
    package's passing score. *)
Definition is_passed_in_words (a : ScormAttempt.t) : bool :=
  (ScormAttempt.lesson_status a == "passed")
  || py_ge (percentage_in_words a)
           (PInt (ScormPackage.passing_score (ScormAttempt.package a))).

(** The learner's attempts on the package with key [k], as stored. *)
Definition attempts_on (u : User.t) (k : Z) (db : Db.t) : list ScormAttempt.t :=
  List.filter (fun a => (User.id (ScormAttempt.user a) =? User.id u)
                   && (ScormPackage.id (ScormAttempt.package a) =? k))
         (Db.attempts db).

(** The maximum [score_raw] over some attempts ([None] when none has one). *)
Definition max_score_raw_in_words (rows : list ScormAttempt.t) : option PyFloat.t :=
  fold_left
    (fun best a =>
       match ScormAttempt.score_raw a, best with
       | Some s, Some m => Some (if SFltb m s then s else m)
       | Some s, None => Some s
       | None, _ => best
       end)
    rows None.

(** ** Sample data *)

Module Sample.

Definition learner : User.t :=
  {| User.id := 42; User.username := "ada"; User.full_name := "Ada Lovelace";
     User.is_authenticated := true; User.is_superuser := false;
     User.is_staff := false; User.is_student := true |}.

Definition package (allow_multiple : bool) : ScormPackage.t :=
  {| ScormPackage.id := 1; ScormPackage.course := 7;
     ScormPackage.title := "Introduction"; ScormPackage.slug := "intro";
     ScormPackage.package_file := "scorm_packages/7/intro.zip";
     ScormPackage.extracted_path := "scorm_extracted/7/intro";
     ScormPackage.entry_point := "index.html";
     ScormPackage.status := "ready"; ScormPackage.error_message := "";
     ScormPackage.allow_multiple_attempts := allow_multiple;
     ScormPackage.passing_score := 70; ScormPackage.created_at := 0 |}.

Definition float_of (s : string) : PyFloat.t := default S754_nan (PyFloat.parse s).

(** An attempt of [learner] on [package allow_multiple]. *)
Definition attempt (allow_multiple : bool) (id started : Z) (status : string)
    (raw : option PyFloat.t) : ScormAttempt.t :=
  {| ScormAttempt.id := id;
     ScormAttempt.package := package allow_multiple;
     ScormAttempt.user := learner;
     ScormAttempt.started_at := started;
     ScormAttempt.last_accessed := started;
     ScormAttempt.completed_at := None;
     ScormAttempt.lesson_status := status;
     ScormAttempt.score_raw := raw;
     ScormAttempt.score_min := PyFloat.lit 0;
     ScormAttempt.score_max := PyFloat.lit 100;
     ScormAttempt.score_scaled := None;
     ScormAttempt.progress_measure := PyFloat.lit 0;
     ScormAttempt.total_time := None;
     ScormAttempt.session_time := None;
     ScormAttempt.suspend_data := "";
     ScormAttempt.lesson_location := "";
     ScormAttempt.exit_mode := "";
     ScormAttempt.credit := "credit";
     ScormAttempt.entry := "ab-initio" |}.

(** Status [passed] with 10 points out of 100, threshold 70. *)
Definition passed_low_score : ScormAttempt.t :=
  attempt true 1 100 "passed" (Some (float_of "10")).

End Sample.

Module SampleDb.

Definition request : Request := {| user := Sample.learner |}.

(** One ready package, the learner enrolled, no attempt yet. *)
Definition fresh (allow_multiple : bool) : Db.t :=
  {| Db.packages := [Sample.package allow_multiple];
     Db.attempts := [];
     Db.enrollments := [(42, 7)];
     Db.next_attempt_id := 1 |}.

Definition with_rows (allow_multiple : bool) (rows : list ScormAttempt.t) : Db.t :=
  {| Db.packages := [Sample.package allow_multiple];
     Db.attempts := rows;
     Db.enrollments := [(42, 7)];
     Db.next_attempt_id := 1 + Z.of_nat (length rows) |}.

(** The stored row of [Sample.passed_low_score]. *)
Definition one_row : Db.t := with_rows true [Sample.passed_low_score].

(** Multiple attempts disallowed; a completed attempt, then a newer
    attempt still in progress. *)
Definition completed_then_incomplete : Db.t :=
  with_rows false
    [ Sample.attempt false 1 100 "completed" (Some (Sample.float_of "90"));
      Sample.attempt false 2 200 "incomplete" None ].

(** A single attempt with the raw score -5. *)
Definition negative_score : Db.t :=
  with_rows true [Sample.attempt true 1 100 "failed" (Some (Sample.float_of "-5"))].

End SampleDb.


Module SampleIngest.

Definition slug_generator (p : ScormPackage.t) : string := "package".

Definition manifest : string :=
  string_of_list_ascii
    (list_ascii_of_string "<manifest><resources><resource identifier='r1' href="
       ++ [quote] ++ list_ascii_of_string "content/start.html" ++ [quote]
       ++ list_ascii_of_string "/></resources></manifest>").

Definition pending_package (file : string) : ScormPackage.t :=
  {| ScormPackage.id := 1; ScormPackage.course := 7;
     ScormPackage.title := "Introduction"; ScormPackage.slug := "intro";
     ScormPackage.package_file := file;
     ScormPackage.extracted_path := "";
     ScormPackage.entry_point := "";
     ScormPackage.status := "pending"; ScormPackage.error_message := "";
     ScormPackage.allow_multiple_attempts := true;
     ScormPackage.passing_score := 70; ScormPackage.created_at := 0 |}.

Definition store (p : ScormPackage.t) : Db.t :=
  {| Db.packages := [p]; Db.attempts := []; Db.enrollments := [];
     Db.next_attempt_id := 1 |}.

(** An uploaded archive with a manifest and a start page. *)
Definition uploaded : Ingest.state :=
  {| Ingest.self := pending_package "scorm_packages/7/intro.zip";
     Ingest.media :=
       {| uploads :=
            {[ "scorm_packages/7/intro.zip" :=
                 ZipOf [("imsmanifest.xml", Utf8Text manifest);
                        ("content/start.html", Utf8Text "<html></html>")] ]};
          extracted := ∅ |};
     Ingest.db := store (pending_package "scorm_packages/7/intro.zip") |}.

(** A package record without an uploaded file. *)
Definition no_file : Ingest.state :=
  {| Ingest.self := pending_package "";
     Ingest.media := {| uploads := ∅; extracted := ∅ |};
     Ingest.db := store (pending_package "") |}.

End SampleIngest.

(** ** Orders

    Notions the properties below are stated with. *)

(** A list sorted by decreasing [key]: every row is at most as recent as
    the rows before it. *)
Fixpoint newest_first {A} (key : A -> Z) (l : list A) : Prop :=
  match l with
  | [] => True
  | x :: r => (forall y, In y r -> key y <= key x) /\ newest_first key r
  end.

(** Position of a float in the order, [None] for NaN: sign class, then
    exponent, then mantissa. *)
Definition rank (f : PyFloat.t) : option (Z * Z * Z) :=
  match f with
  | S754_nan => None
  | S754_infinity true => Some (-2, 0, 0)
  | S754_infinity false => Some (2, 0, 0)
  | S754_zero _ => Some (0, 0, 0)
  | S754_finite true m e => Some (-1, - e, - Zpos m)
  | S754_finite false m e => Some (1, e, Zpos m)
  end.

Definition lex_gt (x y : Z * Z * Z) : Prop :=
  let '(a, b, c) := x in
  let '(a', b', c') := y in
  a > a' \/ (a = a' /\ (b > b' \/ (b = b' /\ c > c'))).

Definition float_gt (f g : PyFloat.t) : bool := py_gt (PFloat f) (PFloat g).

Definition rank_gt (x y : option (Z * Z * Z)) : Prop :=
  match x, y with
  | Some a, Some b => lex_gt a b
  | _, _ => False
  end.

(** What the loop of [user_scorm_progress] does to the entry of an
    attempt's package: create it if missing, count the attempt, and keep
    the greater score. *)
Definition entry_step (o : option ProgressEntry) (a : ScormAttempt.t) : ProgressEntry :=
  let e := match o with
           | Some e => e
           | None => {| pe_package := ScormAttempt.package a; latest_attempt := a;
                        total_attempts := 0; best_score := PInt 0 |}
           end in
  let best :=
    match ScormAttempt.score_raw a with
    | Some raw =>
        if PyFloat.truthy raw && py_gt (PFloat raw) (best_score e)
        then PFloat raw else best_score e
    | None => best_score e
    end in
  {| pe_package := pe_package e; latest_attempt := latest_attempt e;
     total_attempts := total_attempts e + 1; best_score := best |}.

(** The summary [e] agrees with the attempts [seen]: it counts them, no
    score among them exceeds its best score, and its best score is [0] or a
    positive score among them. *)
Definition summarises (seen : list ScormAttempt.t) (e : ProgressEntry) : Prop :=
  total_attempts e = Z.of_nat (length seen)
  /\ (forall a s, In a seen -> ScormAttempt.score_raw a = Some s ->
                  py_gt (PFloat s) (best_score e) = false)
  /\ (best_score e = PInt 0
      \/ exists a s, In a seen /\ ScormAttempt.score_raw a = Some s
                     /\ best_score e = PFloat s
                     /\ py_gt (PFloat s) (PInt 0) = true).

(** ** The runtime endpoint ([views.scorm_api]) *)

(** A decoded JSON value that is neither text nor a container. *)
Inductive json_scalar :=
| JNull
| JBool (b : bool)
| JInt (z : Z)
| JFloat (f : PyFloat.t).

(** [type(v).__name__] *)
Definition scalar_type (v : json_scalar) : string :=
  match v with
  | JNull => "NoneType"
  | JBool _ => "bool"
  | JInt _ => "int"
  | JFloat _ => "float"
  end.

(** [bool(v)] *)
Definition scalar_truthy (v : json_scalar) : bool :=
  match v with
  | JNull => false
  | JBool b => b
  | JInt z => negb (z =? 0)
  | JFloat f => PyFloat.truthy f
  end.

(** What the body gives as [parameters]: any JSON value (the empty array
    when the key is absent).  An array has its elements.  Of an object only
    the number of keys matters: its keys are strings, and the code indexes
    it with the ints 0 and 1. *)
Inductive parameters :=
| ParamArray (items : list pyval)
| ParamText (text : string)
| ParamObject (size : nat)
| ParamScalar (v : json_scalar).

(** [parameters[0] if parameters else ''] *)
Definition first_if_any (p : parameters) : result pyval :=
  match p with
  | ParamArray items => Ok (match items with e :: _ => e | [] => VStr "" end)
  | ParamText text => Ok (VStr (String.substring 0 1 text))
  | ParamObject size =>
      match size with
      | O => Ok (VStr "")
      | S _ => Raise (KeyError "0")
      end
  | ParamScalar v =>
      if scalar_truthy v
      then Raise (TypeError ("'" ++ scalar_type v ++ "' object is not subscriptable"))
      else Ok (VStr "")
  end.

(** [parameters[i] if len(parameters) > i else ''] *)
Definition item_or_empty (i : nat) (p : parameters) : result pyval :=
  match p with
  | ParamArray items => Ok (nth i items (VStr ""))
  | ParamText text => Ok (VStr (String.substring i 1 text))
  | ParamObject size =>
      if (i <? size)%nat then Raise (KeyError (str_of_int (Z.of_nat i)))
      else Ok (VStr "")
  | ParamScalar v =>
      Raise (TypeError ("object of type '" ++ scalar_type v ++ "' has no len()"))
  end.

(** What the body gives as [attempt_id].  The code tests it for truth and
    hands it to the lookup [objects.get(id=attempt_id, ...)].
    - [KeyFalsy]: the key is absent, or the value is null, false, 0.0, or
      an empty string, array or object;
    - [KeyInt z]: the integer [z] (falsy when 0), within the range of the
      key column;
    - [KeyOther prepared]: another truthy value (true, a float, a string,
      an array, an object, an integer beyond the range of the column),
      with what the conversion of the lookup value by Django's
      [AutoField], outside this package, makes of it: a key, or the
      exception it raises. *)
Inductive attempt_key :=
| KeyFalsy
| KeyInt (z : Z)
| KeyOther (prepared : result Z).

(** The lookup value of a truthy [attempt_id]; [None] when it is falsy. *)
Definition lookup_value (k : attempt_key) : option (result Z) :=
  match k with
  | KeyFalsy => None
  | KeyInt z => if z =? 0 then None else Some (Ok z)
  | KeyOther prepared => Some prepared
  end.

(** A decoded JSON object: [method] is any JSON value ([VNone] when
    absent). *)
Record ApiData := {
  api_method : pyval;
  api_parameters : parameters;
  api_attempt_id : attempt_key
}.

(** What [json.loads(request.body)] makes of the body:
    - [BodyNotJson]: it raises [JSONDecodeError];
    - [BodyRaises e]: reading or decoding the body raises another
      exception, such as [UnicodeDecodeError] for bytes that are not UTF-8;
    - [BodyScalar], [BodyText], [BodyArray]: JSON that is not an object;
    - [BodyObject]: a JSON object. *)
Inductive request_body :=
| BodyNotJson
| BodyRaises (e : exn)
| BodyScalar (v : json_scalar)
| BodyText (text : string)
| BodyArray
| BodyObject (data : ApiData).

Record ApiRequest := {
  api_user : User.t;
  http_method : string;
  api_body : request_body
}.

Inductive JsonResponse :=
| JsonError (status : Z) (error : string)
| JsonValue (value : string)
| JsonSuccess (success : bool).

Inductive ApiResponse :=
| ApiLoginRedirect
| ApiJson (response : JsonResponse).

(** [data = json.loads(request.body)] followed by the first [data.get]:
    [None] when decoding raises [JSONDecodeError], which has a handler of
    its own; otherwise the object, or the exception raised, a value that
    is not a dict having no [get]. *)
Definition decoded_object (body : request_body) : option (result ApiData) :=
  let no_get type :=
    Some (Raise (AttributeError ("'" ++ type ++ "' object has no attribute 'get'"))) in
  match body with
  | BodyNotJson => None
  | BodyRaises e => Some (Raise e)
  | BodyScalar v => no_get (scalar_type v)
  | BodyText _ => no_get "str"
  | BodyArray => no_get "list"
  | BodyObject data => Some (Ok data)
  end.

(** [get_scorm_value] on an element that need not be a string: no name
    test succeeds on another value. *)
Definition get_scorm_value_of (attempt : ScormAttempt.t) (element : pyval) : string :=
  match element with
  | VStr name => get_scorm_value attempt name
  | _ => ""
  end.

(** [set_scorm_value] on an element that need not be a string: no name
    test succeeds on another value, [element.startswith] then raises
    [AttributeError], and the handler returns false. *)
Definition set_scorm_value_of (attempt : ScormAttempt.t) (element value : pyval)
  : ScormAttempt.t * result bool :=
  match element with
  | VStr name => set_scorm_value attempt name value
  | _ => (attempt, Ok false)
  end.

(** [ScormAttempt.objects.get(id=attempt_id, user=request.user)] for a
    key. *)
Definition get_attempt (attempt_id : Z) (u : User.t) (db : Db.t) : result ScormAttempt.t :=
  objects_get
    (List.filter (fun a => (ScormAttempt.id a =? attempt_id)
                           && (User.id (ScormAttempt.user a) =? User.id u))
                 (Db.attempts db)).

(** The same for a lookup value, which is converted first. *)
Definition find_attempt (prepared : result Z) (u : User.t) (db : Db.t)
  : result ScormAttempt.t :=
  let! attempt_id := prepared in
  get_attempt attempt_id u db.

(** [value == 'literal'] for a JSON value. *)
Definition py_str_eq (v : pyval) (literal : string) : bool :=
  match v with
  | VStr s => String.eqb s literal
  | _ => false
  end.

(** [attempt.completed_at = v] *)
Definition with_completed_at (v : option Z) (a : ScormAttempt.t) : ScormAttempt.t :=
  ScormAttempt.Build_t (ScormAttempt.id a) (ScormAttempt.package a) (ScormAttempt.user a)
    (ScormAttempt.started_at a) (ScormAttempt.last_accessed a) v
    (ScormAttempt.lesson_status a) (ScormAttempt.score_raw a) (ScormAttempt.score_min a)
    (ScormAttempt.score_max a) (ScormAttempt.score_scaled a)
    (ScormAttempt.progress_measure a) (ScormAttempt.total_time a)
    (ScormAttempt.session_time a) (ScormAttempt.suspend_data a)
    (ScormAttempt.lesson_location a) (ScormAttempt.exit_mode a) (ScormAttempt.credit a)
    (ScormAttempt.entry a).

(** The four runtime calls on the attempt that was found. *)
Definition scorm_api_dispatch (data : ApiData) (attempt : ScormAttempt.t) (now : Z)
  : stx Db.t JsonResponse :=
  if py_str_eq (api_method data) "LMSGetValue" then
    do! element := eval (first_if_any (api_parameters data)) in
    sret (JsonValue (get_scorm_value_of attempt element))
  else if py_str_eq (api_method data) "LMSSetValue" then
    do! element := eval (item_or_empty 0 (api_parameters data)) in
    do! value := eval (item_or_empty 1 (api_parameters data)) in
    do! success := eval (snd (set_scorm_value_of attempt element value)) in
    sret (JsonSuccess success)
  else if py_str_eq (api_method data) "LMSCommit" then
    do! _ := save_attempt now attempt in
    sret (JsonSuccess true)
  else if py_str_eq (api_method data) "LMSFinish" then
    do! _ := save_attempt now (with_completed_at (Some now) attempt) in
    sret (JsonSuccess true)
  else sret (JsonValue "").

(** The [try] block of [scorm_api] from the decoded object on: what it
    returns, or the exception that reaches the outer handlers. *)
Definition scorm_api_try (u : User.t) (data : ApiData) (now : Z)
  : stx Db.t JsonResponse :=
  match lookup_value (api_attempt_id data) with
  | None => sret (JsonError 400 "No attempt ID provided")
  | Some prepared =>
      fun db =>
        match find_attempt prepared u db with
        | Raise e =>
            if is_DoesNotExist e
            then (db, Ok (JsonError 404 "Invalid attempt"))
            else (db, Raise e)
        | Ok attempt => scorm_api_dispatch data attempt now db
        end
  end.

(** [scorm_api(request)] at time [now]. *)
Definition scorm_api (request : ApiRequest) (now : Z) (db : Db.t) : Db.t * ApiResponse :=
  if negb (User.is_authenticated (api_user request)) then (db, ApiLoginRedirect) else
  if http_method request == "POST" then
    match decoded_object (api_body request) with
    | None => (db, ApiJson (JsonError 400 "Invalid JSON"))
    | Some decoded =>
        match (do! data := eval decoded in
               scorm_api_try (api_user request) data now) db with
        | (db', Ok response) => (db', ApiJson response)
        | (db', Raise e) => (db', ApiJson (JsonError 500 (exn_str e)))
        end
    end
  else (db, ApiJson (JsonError 405 "Method not allowed")).

(** An attempt with its two time stamps that a save may touch blanked. *)
Definition without_save_times (a : ScormAttempt.t) : ScormAttempt.t :=
  with_completed_at None (ScormAttempt.with_last_accessed 0 a).

Module SampleApi.

(** A runtime call of the sample learner on attempt 1. *)
Definition call (method : string) (parameters : list pyval) : ApiRequest :=
  {| api_user := Sample.learner;
     http_method := "POST";
     api_body := BodyObject {| api_method := VStr method;
                               api_parameters := ParamArray parameters;
                               api_attempt_id := KeyInt 1 |} |}.

(** Another learner. *)
Definition stranger : User.t :=
  {| User.id := 43; User.username := "bob"; User.full_name := "";
     User.is_authenticated := true; User.is_superuser := false;
     User.is_staff := false; User.is_student := true |}.

End SampleApi.

(** A session: calls of the endpoint one after another, each with the
    caller's clock. *)
Definition scorm_api_calls (calls : list (ApiRequest * Z)) (db : Db.t) : Db.t :=
  fold_left (fun db call => fst (scorm_api (fst call) (snd call) db)) calls db.

(** What a call of [set_scorm_value] on [element] can do to an attempt:
    nothing, or one assignment to the field the element names. *)
Inductive set_effect (a : ScormAttempt.t) : string -> ScormAttempt.t -> Prop :=
| effect_none element : set_effect a element a
| effect_lesson_status status :
    In status ScormAttempt.STATUS_CHOICES ->
    set_effect a "cmi.core.lesson_status" (ScormAttempt.with_lesson_status status a)
| effect_score_raw f :
    set_effect a "cmi.core.score.raw" (ScormAttempt.with_score_raw (Some f) a)
| effect_score_min f :
    set_effect a "cmi.core.score.min" (ScormAttempt.with_score_min f a)
| effect_score_max f :
    set_effect a "cmi.core.score.max" (ScormAttempt.with_score_max f a)
| effect_lesson_location text :
    set_effect a "cmi.core.lesson_location"
      (ScormAttempt.with_lesson_location (str_prefix 255 text) a)
| effect_exit text :
    set_effect a "cmi.core.exit" (ScormAttempt.with_exit_mode (str_prefix 20 text) a)
| effect_suspend_data text :
    set_effect a "cmi.suspend_data" (ScormAttempt.with_suspend_data text a).

(** The widths of the three [CharField] columns the bridge writes. *)
Definition fits_columns (a : ScormAttempt.t) : Prop :=
  (String.length (ScormAttempt.lesson_status a) <= 20
   /\ String.length (ScormAttempt.lesson_location a) <= 255
   /\ String.length (ScormAttempt.exit_mode a) <= 20)%nat.

(** Attempt keys are unique and were all handed out already. *)
Definition well_keyed (db : Db.t) : Prop :=
  List.NoDup (map ScormAttempt.id (Db.attempts db))
  /\ forall a, In a (Db.attempts db) -> ScormAttempt.id a < Db.next_attempt_id db.

(** The access rule of the launch view. *)
Definition may_launch (u : User.t) (package : ScormPackage.t) (db : Db.t) : Prop :=
  User.is_superuser u = true
  \/ User.is_staff u = true
  \/ (User.is_student u = true
      /\ In (User.id u, ScormPackage.course package) (Db.enrollments db)).

(** The text [s] contains a match of the pattern [<resource[^>]*href=Q([^Q]+)Q]
    (with [Q] the double-quote character) whose group is [v]. *)
Definition matches_resource_href (s v : list ascii) : Prop :=
  exists pre mid post,
    s = pre ++ list_ascii_of_string "<resource" ++ mid
            ++ (list_ascii_of_string "href=" ++ [quote]) ++ v ++ quote :: post
    /\ Forall (fun c => c <> ">"%char) mid
    /\ Forall (fun c => c <> quote) v
    /\ v <> [].



(** ** Upload validation ([models.validate_scorm_package],
       [forms.ScormPackageUploadForm]) *)

(** An uploaded file as the validators see it: its name, its size in
    bytes, and the member names [ZipFile(file).namelist()] gives, [None]
    when opening it raises [BadZipFile]. *)
Record UploadedFile := {
  file_name : string;
  file_size : Z;
  file_namelist : option (list string)
}.

(** The outcome of a validator or of a form's [clean_<field>] method. *)
Inductive checked (A : Type) :=
| Cleaned (a : A)
| ValidationError (message : string).
Arguments Cleaned {A} a.
Arguments ValidationError {A} message.

(** [s.endswith(suffix)] *)
Definition endswith (s suffix : string) : bool :=
  let n := String.length s in
  let m := String.length suffix in
  (m <=? n)%nat && String.eqb (String.substring (n - m) m s) suffix.

(** [c.lower()] for a code point below 256. *)
Definition lower_char (c : ascii) : ascii :=
  let n := N_of_ascii c in
  if ((65 <=? n) && (n <=? 90) || (192 <=? n) && (n <=? 222) && negb (n =? 215))%N
  then ascii_of_N (n + 32) else c.

(** [s.lower()] *)
Fixpoint lower (s : string) : string :=
  match s with
  | EmptyString => EmptyString
  | String c r => String (lower_char c) (lower r)
  end.

Definition max_size : Z := 500 * 1024 * 1024.

(** [validate_scorm_package(file)] *)
Definition validate_scorm_package (file : UploadedFile) : checked unit :=
  if negb (endswith (file_name file) ".zip")
  then ValidationError "File must be a ZIP archive"
  else if file_size file >? 500 * 1024 * 1024
  then ValidationError "File size cannot exceed 500MB"
  else
    match file_namelist file with
    | Some names =>
        if negb (existsb (String.eqb "imsmanifest.xml") names)
        then ValidationError "Invalid SCORM package: imsmanifest.xml not found"
        else Cleaned tt
    | None => ValidationError "Invalid ZIP file"
    end.

(** [ScormPackageUploadForm.clean_package_file(self)] on the cleaned
    [package_file]; a file object is falsy when its name is empty. *)
Definition clean_package_file (package_file : option UploadedFile)
  : checked (option UploadedFile) :=
  match package_file with
  | None => Cleaned None
  | Some file =>
      if String.eqb (file_name file) "" then Cleaned package_file
      else if negb (endswith (lower (file_name file)) ".zip")
      then ValidationError "Please upload a ZIP file."
      else if file_size file >? max_size
      then ValidationError "File size cannot exceed 500MB."
      else Cleaned package_file
  end.

(** [clean_passing_score(self)], of both forms. *)
Definition clean_passing_score (passing_score : option Z) : checked (option Z) :=
  match passing_score with
  | Some score =>
      if negb ((0 <=? score) && (score <=? 100))
      then ValidationError "Passing score must be between 0 and 100."
      else Cleaned passing_score
  | None => Cleaned passing_score
  end.

(** ** The detail page ([views.ScormPackageDetailView.get_object]) *)

Module ScormPackageDetailView.

(** [get_object(self)] for the slug of the URL. *)
Definition get_object (request : Request) (slug : string) (db : Db.t)
  : result ScormPackage.t :=
  let! obj :=
    try_except
      (objects_get (List.filter (fun p => ScormPackage.slug p == slug) (Db.packages db)))
      is_DoesNotExist (fun _ => Raise Http404) in
  let user := user request in
  if negb (User.is_authenticated user) then Raise Http404
  else if User.is_superuser user || User.is_staff user then Ok obj
  else if User.is_student user then
    if negb (mem_Z (ScormPackage.course obj) (enrolled_courses user db))
    then Raise Http404 else Ok obj
  else Raise Http404.

End ScormPackageDetailView.

(** * Properties *)

(** ** Scores *)

Lemma truthy_not_zero (f : PyFloat.t) : PyFloat.truthy f = negb (is_zero f).
Proof. destruct f as [s | s | | s m e]; try destruct s; reflexivity. Qed.

Lemma ratio_times_100_ok (raw max : PyFloat.t) :
  PyFloat.truthy max = true ->
  ScormAttempt.ratio_times_100 raw max
  = Ok (PFloat (PyFloat.mul (PyFloat.div raw max) (PyFloat.lit 100))).
Proof.
  intros Hmax. unfold ScormAttempt.ratio_times_100, PyFloat.truediv.
  rewrite Hmax. reflexivity.
Qed.

(** C5. [get_percentage_score] returns on every attempt, never raising a
    division error: with a raw score and a non-zero [score_max] it is
    [score_raw / score_max * 100], and it is [0] when [score_max] is zero
    (of either sign) or there is no raw score. *)
Theorem get_percentage_score_total (a : ScormAttempt.t) :
  ScormAttempt.get_percentage_score a = Ok (percentage_in_words a).
Proof.
  unfold ScormAttempt.get_percentage_score, percentage_in_words.
  destruct (ScormAttempt.score_raw a) as [raw|]; [|reflexivity].
  rewrite truthy_not_zero.
  destruct (is_zero (ScormAttempt.score_max a)) eqn:Hz; cbn [negb]; [reflexivity|].
  apply ratio_times_100_ok. rewrite truthy_not_zero, Hz. reflexivity.
Qed.

(** C1, as claimed, fails: an attempt whose status is [passed] but whose
    score of 10 out of 100 is below the threshold 70 is not passed. *)
Lemma is_passed_status_overridden_by_score :
  ScormAttempt.is_passed Sample.passed_low_score = Ok false
  /\ is_passed_in_words Sample.passed_low_score = true.
Proof. split; vm_compute; reflexivity. Qed.

(** C1, amended. [is_passed] never raises.  With a raw score and a non-zero
    passing score it is decided by the score alone: true iff the percentage
    score reaches the passing score.  Otherwise it is decided by the status
    alone: true iff [lesson_status] is [passed]. *)
Theorem is_passed_by_score_else_status (a : ScormAttempt.t) :
  ScormAttempt.is_passed a
  = Ok (match ScormAttempt.score_raw a with
        | Some _ =>
            if ScormPackage.passing_score (ScormAttempt.package a) =? 0
            then ScormAttempt.lesson_status a == "passed"
            else py_ge (percentage_in_words a)
                       (PInt (ScormPackage.passing_score (ScormAttempt.package a)))
        | None => ScormAttempt.lesson_status a == "passed"
        end).
Proof.
  unfold ScormAttempt.is_passed, percentage_in_words.
  destruct (ScormAttempt.score_raw a) as [raw|]; [|reflexivity].
  destruct (ScormPackage.passing_score (ScormAttempt.package a) =? 0); cbn [negb];
    [reflexivity|].
  rewrite truthy_not_zero.
  destruct (is_zero (ScormAttempt.score_max a)) eqn:Hz; cbn [negb]; [reflexivity|].
  rewrite ratio_times_100_ok by (rewrite truthy_not_zero, Hz; reflexivity).
  reflexivity.
Qed.

(** The scenario of the specification: threshold 70, 75 points out of 100. *)
Example is_passed_scenario :
  let a := Sample.attempt true 1 100 "incomplete" (Some (Sample.float_of "75")) in
  ScormAttempt.is_passed a = Ok true
  /\ ScormAttempt.get_percentage_score a = Ok (PFloat (Sample.float_of "75.0")).
Proof. split; vm_compute; reflexivity. Qed.

(** ** The data-model bridge *)

Lemma existsb_eqb_In (v : string) (l : list string) :
  existsb (String.eqb v) l = true <-> In v l.
Proof.
  rewrite existsb_exists. split.
  - intros (x & Hx & Heq). apply String.eqb_eq in Heq. now subst.
  - intros Hin. exists v. split; [assumption | apply String.eqb_refl].
Qed.

Ltac unknown_element H :=
  repeat match goal with
    | |- context [String.eqb ?x ?y] =>
        destruct (String.eqb_spec x y) as [-> | _];
        [exfalso; apply H; simpl; tauto |]
    end.



Lemma set_scorm_value_handler (a : ScormAttempt.t) (element : string) (value : pyval) :
  set_scorm_value a element value
  = match set_scorm_value_body element value a with
    | (a', Ok b) => (a', Ok b)
    | (a', Raise _) => (a', Ok false)
    end.
Proof.
  unfold set_scorm_value, stry.
  destruct (set_scorm_value_body element value a) as [a' [b | e]]; reflexivity.
Qed.

Lemma set_lesson_status_body (a : ScormAttempt.t) (v : string) :
  set_scorm_value_body "cmi.core.lesson_status" (VStr v) a
  = (if existsb (String.eqb v) ScormAttempt.STATUS_CHOICES
     then ScormAttempt.with_lesson_status v a else a, Ok true).
Proof.
  unfold set_scorm_value_body. cbn [String.eqb Ascii.eqb Bool.eqb].
  unfold sbind, eval, py_in_str_keys.
  destruct (existsb (String.eqb v) ScormAttempt.STATUS_CHOICES); reflexivity.
Qed.

(** For a string: one of the status enum is stored, any other changes
    nothing; the call returns true either way. *)
Lemma set_lesson_status_string (a : ScormAttempt.t) (v : string) :
  (In v ScormAttempt.STATUS_CHOICES ->
   set_scorm_value a "cmi.core.lesson_status" (VStr v)
   = (ScormAttempt.with_lesson_status v a, Ok true))
  /\ (~ In v ScormAttempt.STATUS_CHOICES ->
      set_scorm_value a "cmi.core.lesson_status" (VStr v) = (a, Ok true)).
Proof.
  rewrite set_scorm_value_handler, set_lesson_status_body.
  split; intros H.
  - apply existsb_eqb_In in H. rewrite H. reflexivity.
  - destruct (existsb (String.eqb v) ScormAttempt.STATUS_CHOICES) eqn:E; [|reflexivity].
    apply existsb_eqb_In in E. contradiction.
Qed.

(** The same call on the other JSON values: numbers, booleans and null
    are no status name, and are ignored with true. *)
Lemma set_lesson_status_scalar (a : ScormAttempt.t) (v : pyval) :
  match v with
  | VNone | VBool _ | VInt _ | VFloat _ => True
  | _ => False
  end ->
  set_scorm_value a "cmi.core.lesson_status" v = (a, Ok true).
Proof. destruct v; intros []; reflexivity. Qed.

(** Arrays and objects cannot be hashed: the membership test raises, and
    the call returns false. *)
Lemma set_lesson_status_unhashable (a : ScormAttempt.t) (shown : string) :
  set_scorm_value a "cmi.core.lesson_status" (VList shown) = (a, Ok false)
  /\ set_scorm_value a "cmi.core.lesson_status" (VDict shown) = (a, Ok false).
Proof. split; reflexivity. Qed.

(** C8, as claimed, fails: a JSON array is a value outside the status
    enum, and setting the status to it returns false, not true. *)
Lemma set_lesson_status_array_returns_false :
  set_scorm_value Sample.passed_low_score "cmi.core.lesson_status" (VList "['completed']")
  = (Sample.passed_low_score, Ok false).
Proof. reflexivity. Qed.

(** C8, amended. Setting [cmi.core.lesson_status] to a string of the
    status enum stores it and returns true; to any other string, to null,
    to a boolean or to a number changes nothing and returns true; to an
    array or an object, which cannot be hashed, changes nothing and returns
    false. *)
Theorem set_lesson_status_by_value (a : ScormAttempt.t) (value : pyval) :
  match value with
  | VStr v =>
      (In v ScormAttempt.STATUS_CHOICES ->
       set_scorm_value a "cmi.core.lesson_status" value
       = (ScormAttempt.with_lesson_status v a, Ok true))
      /\ (~ In v ScormAttempt.STATUS_CHOICES ->
          set_scorm_value a "cmi.core.lesson_status" value = (a, Ok true))
  | VNone | VBool _ | VInt _ | VFloat _ =>
      set_scorm_value a "cmi.core.lesson_status" value = (a, Ok true)
  | VList _ | VDict _ =>
      set_scorm_value a "cmi.core.lesson_status" value = (a, Ok false)
  end.
Proof.
  destruct value as [| b | z | f | v | shown | shown].
  - apply set_lesson_status_scalar. exact I.
  - apply set_lesson_status_scalar. exact I.
  - apply set_lesson_status_scalar. exact I.
  - apply set_lesson_status_scalar. exact I.
  - apply set_lesson_status_string.
  - apply set_lesson_status_unhashable.
  - apply set_lesson_status_unhashable.
Qed.

Lemma set_lesson_status_by_value_witness :
  ScormAttempt.lesson_status
    (fst (set_scorm_value Sample.passed_low_score "cmi.core.lesson_status" (VStr "completed")))
  = "completed"
  /\ set_scorm_value Sample.passed_low_score "cmi.core.lesson_status" (VStr "done")
     = (Sample.passed_low_score, Ok true).
Proof.
  split.
  - rewrite (proj1 (set_lesson_status_by_value Sample.passed_low_score (VStr "completed"))).
    + reflexivity.
    + simpl. tauto.
  - apply (proj2 (set_lesson_status_by_value Sample.passed_low_score (VStr "done"))).
    simpl. intros H. repeat (destruct H as [H | H]; [discriminate H |]). exact H.
Defined.

Lemma set_float_total (field : PyFloat.t -> ScormAttempt.t -> ScormAttempt.t)
    (value : pyval) (a : ScormAttempt.t) :
  set_float field value a
  = match py_float value with
    | Ok f => (field f a, Ok true)
    | Raise e => if is_ValueError e then (a, Ok false) else (a, Raise e)
    end.
Proof.
  unfold set_float, stry, sbind, eval, assign, sret.
  destruct (py_float value) as [f | e]; [reflexivity|].
  destruct (is_ValueError e); reflexivity.
Qed.

Lemma set_scorm_value_body_unknown (a : ScormAttempt.t) (element : string) (value : pyval) :
  ~ In element set_catalog -> set_scorm_value_body element value a = (a, Ok true).
Proof.
  intros H. unfold set_scorm_value_body. unknown_element H.
  destruct (String.prefix "cmi.interactions." element);
    [|destruct (String.prefix "cmi.objectives." element)]; reflexivity.
Qed.

Lemma prefixed_not_in_set_catalog (p element : string) :
  forallb (fun c => negb (String.prefix p c)) set_catalog = true ->
  String.prefix p element = true -> ~ In element set_catalog.
Proof.
  intros Hall Hp Hin. rewrite forallb_forall in Hall.
  specialize (Hall element Hin). rewrite Hp in Hall. discriminate.
Qed.

(** C10. [set_scorm_value] returns a boolean on every attempt, element name
    and value.  Whenever its body raises, the call returns false (and the
    attempt is as the body left it).  On an element name it does not write,
    among them every [cmi.interactions.*] and [cmi.objectives.*] path, it
    returns true and leaves the attempt as it was. *)
Theorem set_scorm_value_total (a : ScormAttempt.t) (element : string) (value : pyval) :
  (exists a' b, set_scorm_value a element value = (a', Ok b))
  /\ (forall a' e, set_scorm_value_body element value a = (a', Raise e) ->
      set_scorm_value a element value = (a', Ok false))
  /\ (~ In element set_catalog -> set_scorm_value a element value = (a, Ok true))
  /\ (String.prefix "cmi.interactions." element = true
      \/ String.prefix "cmi.objectives." element = true ->
      set_scorm_value a element value = (a, Ok true)).
Proof.
  rewrite set_scorm_value_handler.
  assert (Hunknown : ~ In element set_catalog ->
            match set_scorm_value_body element value a with
            | (a', Ok b) => (a', Ok b)
            | (a', Raise _) => (a', Ok false)
            end = (a, Ok true)).
  { intros H. rewrite (set_scorm_value_body_unknown a element value H). reflexivity. }
  split; [|split; [|split]].
  - destruct (set_scorm_value_body element value a) as [a' [b | e]]; eauto.
  - intros a' e Hbody. rewrite Hbody. reflexivity.
  - exact Hunknown.
  - intros [Hp | Hp]; apply Hunknown;
      eapply prefixed_not_in_set_catalog; try exact Hp; reflexivity.
Qed.

Lemma set_scorm_value_total_witness :
  set_scorm_value Sample.passed_low_score "cmi.interactions.0.id" (VStr "q1")
  = (Sample.passed_low_score, Ok true)
  /\ set_scorm_value Sample.passed_low_score "cmi.core.score.raw" (VList "[]")
     = (Sample.passed_low_score, Ok false).
Proof.
  split.
  - apply (proj2 (proj2 (proj2
             (set_scorm_value_total Sample.passed_low_score "cmi.interactions.0.id" (VStr "q1"))))).
    left. reflexivity.
  - apply (proj1 (proj2
             (set_scorm_value_total Sample.passed_low_score "cmi.core.score.raw" (VList "[]")))
             Sample.passed_low_score
             (TypeError "float() argument must be a string or a real number, not 'list'")).
    reflexivity.
Defined.

(** C6. On [cmi.core.score.raw] a string that [float()] rejects makes the
    call return false, and the string [85] is accepted and reads back as
    [85.0] from the attempt object it was set on.  But the value does not
    survive a commit: [LMSSetValue] never saves, and [LMSCommit] saves an
    attempt it has just loaded.  After a launch, setting 85 and committing,
    [LMSGetValue] answers the empty string and the stored score is null. *)
Theorem set_score_raw_lost_on_commit :
  exists db1 c,
    launch_scorm_package SampleDb.request "intro" 1000 (SampleDb.fresh true)
    = (db1, Ok (RenderPlayer c))
    /\ let call method parameters :=
         {| api_user := Sample.learner; http_method := "POST";
            api_body :=
              BodyObject
                {| api_method := VStr method;
                   api_parameters := ParamArray parameters;
                   api_attempt_id :=
                     KeyInt (ScormAttempt.id (ScormAttempt.row (ctx_attempt c))) |} |} in
       scorm_api (call "LMSSetValue" [VStr "cmi.core.score.raw"; VStr "notanumber"]) 1001 db1
       = (db1, ApiJson (JsonSuccess false))
       /\ scorm_api (call "LMSSetValue" [VStr "cmi.core.score.raw"; VStr "85"]) 1002 db1
          = (db1, ApiJson (JsonSuccess true))
       /\ get_scorm_value
            (fst (set_scorm_value (ScormAttempt.row (ctx_attempt c))
                    "cmi.core.score.raw" (VStr "85")))
            "cmi.core.score.raw"
          = "85.0"
       /\ exists db2,
            scorm_api (call "LMSCommit" []) 1003 db1 = (db2, ApiJson (JsonSuccess true))
            /\ scorm_api (call "LMSGetValue" [VStr "cmi.core.score.raw"]) 1004 db2
               = (db2, ApiJson (JsonValue ""))
            /\ map ScormAttempt.score_raw (Db.attempts db2) = [None].
Proof.
  do 2 eexists. split; [vm_compute; reflexivity|]. cbv zeta.
  split; [vm_compute; reflexivity|]. split; [vm_compute; reflexivity|].
  split; [vm_compute; reflexivity|].
  eexists. split; [vm_compute; reflexivity|].
  split; [vm_compute; reflexivity|]. vm_compute. reflexivity.
Qed.

(** ** Query sets *)

Section OrderBy.

Context {A : Type} (key : A -> Z).

Lemma insert_desc_perm (x : A) (l : list A) :
  Permutation (insert_desc key x l) (x :: l).
Proof.
  induction l as [|y l IH]; cbn [insert_desc]; [reflexivity|].
  destruct (key x <? key y); [|reflexivity].
  rewrite IH. apply perm_swap.
Qed.

Lemma order_by_desc_perm (l : list A) : Permutation (order_by_desc key l) l.
Proof.
  induction l as [|x l IH]; cbn [order_by_desc fold_right]; [reflexivity|].
  rewrite insert_desc_perm. apply perm_skip. exact IH.
Qed.

Lemma insert_desc_newest_first (x : A) (l : list A) :
  newest_first key l -> newest_first key (insert_desc key x l).
Proof.
  induction l as [|y l IH]; cbn [insert_desc newest_first].
  - intros _. split; [intros y []| exact I].
  - intros [Hy Hl]. destruct (key x <? key y) eqn:E.
    + apply Z.ltb_lt in E. cbn [newest_first]. split; [|apply IH; exact Hl].
      intros z Hz. apply (Permutation_in z (insert_desc_perm x l)) in Hz.
      destruct Hz as [<- | Hz]; [lia | apply Hy; exact Hz].
    + apply Z.ltb_ge in E. cbn [newest_first]. split; [|split; assumption].
      intros z [<- | Hz]; [exact E|]. specialize (Hy z Hz). lia.
Qed.

Lemma order_by_desc_newest_first (l : list A) : newest_first key (order_by_desc key l).
Proof.
  induction l as [|x l IH]; cbn [order_by_desc fold_right]; [exact I|].
  apply insert_desc_newest_first. exact IH.
Qed.

(** [.first()] of an ordered query set is a row with the greatest key. *)
Lemma order_by_desc_first (l : list A) (h : A) (t : list A) :
  order_by_desc key l = h :: t ->
  In h l /\ forall a, In a l -> key a <= key h.
Proof.
  intros E. pose proof (order_by_desc_perm l) as P.
  pose proof (order_by_desc_newest_first l) as S.
  rewrite E in P, S. destruct S as [Hh _]. split.
  - apply (Permutation_in h P). left. reflexivity.
  - intros a Ha. apply (Permutation_in a (Permutation_sym P)) in Ha.
    destruct Ha as [<- | Ha]; [lia | apply Hh; exact Ha].
Qed.

End OrderBy.

(** ** Launch *)

(** C2, the code at a failing input: on a table without attempts, two
    launches by the same learner of the same package, neither completed,
    create two attempts with different identifiers; the first one, left in
    status [incomplete], is not resumed. *)
Theorem launch_twice_creates_two_attempts :
  exists db1 db2 c1 c2,
    launch_scorm_package SampleDb.request "intro" 1000 (SampleDb.fresh true)
    = (db1, Ok (RenderPlayer c1))
    /\ launch_scorm_package SampleDb.request "intro" 2000 db1
       = (db2, Ok (RenderPlayer c2))
    /\ ScormAttempt.lesson_status (ctx_attempt c1) = "incomplete"
    /\ ScormAttempt.completed_at (ctx_attempt c1) = None
    /\ ScormAttempt.id (ctx_attempt c1) = 1
    /\ ScormAttempt.id (ctx_attempt c2) = 2
    /\ map ScormAttempt.id (Db.attempts db2) = [1; 2].
Proof.
  do 4 eexists.
  split; [vm_compute; reflexivity|].
  split; [vm_compute; reflexivity|].
  repeat split.
Qed.

(** In general: when the learner has no attempt in status [not_attempted]
    on the package, a launch that is let through creates a new attempt,
    whatever attempts in progress there are. *)
Lemma launch_creates_unless_not_attempted
    (request : Request) (slug : string) (now : Z) (db : Db.t) (package : ScormPackage.t) :
  User.is_authenticated (user request) = true ->
  get_ready_package_or_404 slug db = Ok package ->
  check_permissions (user request) package db = Ok tt ->
  match attempts_of package (user request) db with
  | latest :: _ =>
      negb (ScormPackage.allow_multiple_attempts package)
      && is_terminal (ScormAttempt.lesson_status latest)
  | [] => false
  end = false ->
  List.filter (fun a => ScormAttempt.lesson_status a == "not_attempted")
              (attempts_of package (user request) db) = [] ->
  existsb (fun a => ScormAttempt.started_at a =? now)
          (attempts_of package (user request) db) = false ->
  exists db' c,
    launch_scorm_package request slug now db = (db', Ok (RenderPlayer c))
    /\ Db.attempts db' = Db.attempts db ++ [ScormAttempt.row (ctx_attempt c)]
    /\ ScormAttempt.id (ctx_attempt c) = Db.next_attempt_id db
    /\ ScormAttempt.lesson_status (ctx_attempt c) = "incomplete".
Proof.
  intros Hauth Hpkg Hperm Hfree Hnone Hclash.
  unfold launch_scorm_package. rewrite Hauth. cbn [negb].
  unfold sbind at 1. rewrite Hpkg.
  unfold sbind at 1. rewrite Hperm.
  unfold sbind at 1. rewrite Hfree.
  unfold sbind at 1.
  unfold get_or_create_attempt.
  unfold stry at 1. unfold sbind at 1. rewrite Hnone. cbn [objects_get is_DoesNotExist].
  unfold stry at 1. unfold sbind at 1. unfold create_attempt. rewrite Hclash.
  unfold sret at 1. unfold sbind at 1. unfold sret at 1.
  do 2 eexists. split; [reflexivity|]. cbn [ctx_attempt Db.attempts].
  split; [reflexivity|]. split; reflexivity.
Qed.

(** By contrast, an attempt still in status [not_attempted] is the one the
    lookup finds: it is resumed, launch after launch. *)
Example launch_resumes_not_attempted :
  let db := SampleDb.with_rows true [Sample.attempt true 1 100 "not_attempted" None] in
  exists db1 db2 c1 c2,
    launch_scorm_package SampleDb.request "intro" 1000 db = (db1, Ok (RenderPlayer c1))
    /\ launch_scorm_package SampleDb.request "intro" 2000 db1 = (db2, Ok (RenderPlayer c2))
    /\ ScormAttempt.id (ctx_attempt c1) = 1
    /\ ScormAttempt.id (ctx_attempt c2) = 1
    /\ ScormAttempt.last_accessed (ctx_attempt c2) = 2000
    /\ map ScormAttempt.id (Db.attempts db2) = [1].
Proof.
  do 4 eexists.
  split; [vm_compute; reflexivity|].
  split; [vm_compute; reflexivity|].
  repeat split.
Qed.

(** C3, as claimed, fails: with multiple attempts disallowed and a completed
    attempt on record, a launch still creates a new attempt when a newer
    attempt of the learner is not completed. *)
Lemma launch_checks_latest_attempt_only :
  let db := SampleDb.completed_then_incomplete in
  ScormPackage.allow_multiple_attempts (Sample.package false) = false
  /\ existsb (fun a => is_terminal (ScormAttempt.lesson_status a))
       (attempts_of (Sample.package false) Sample.learner db) = true
  /\ exists db' c,
       launch_scorm_package SampleDb.request "intro" 3000 db = (db', Ok (RenderPlayer c))
       /\ ScormAttempt.id (ctx_attempt c) = 3
       /\ map ScormAttempt.id (Db.attempts db) = [1; 2]
       /\ map ScormAttempt.id (Db.attempts db') = [1; 2; 3].
Proof.
  split; [reflexivity|]. split; [vm_compute; reflexivity|].
  do 2 eexists. split; [vm_compute; reflexivity|]. repeat split.
Qed.

(** C3, amended. When the package disallows multiple attempts and the most
    recent attempt of the learner on it has [lesson_status] [completed] or
    [passed], launch leaves the table as it is and renders no player: for a
    learner with access the response is the redirect to the package page
    with the warning; otherwise it is the login redirect or [Http404]. *)
Theorem launch_refused_after_completion
    (request : Request) (slug : string) (now : Z) (db : Db.t)
    (package : ScormPackage.t) (latest : ScormAttempt.t) (older : list ScormAttempt.t) :
  get_ready_package_or_404 slug db = Ok package ->
  ScormPackage.allow_multiple_attempts package = false ->
  attempts_of package (user request) db = latest :: older ->
  is_terminal (ScormAttempt.lesson_status latest) = true ->
  (forall a, In a (attempts_of package (user request) db) ->
             ScormAttempt.started_at a <= ScormAttempt.started_at latest)
  /\ exists r,
       launch_scorm_package request slug now db = (db, r)
       /\ (forall c, r <> Ok (RenderPlayer c))
       /\ (User.is_authenticated (user request) = true ->
           check_permissions (user request) package db = Ok tt ->
           r = Ok (Redirect "scorm:package_detail" slug
                     "You have already completed this SCORM package and multiple attempts are not allowed.")).
Proof.
  intros Hpkg Hallow Hrows Hterm. split.
  - intros a Ha. unfold attempts_of in Hrows, Ha.
    apply order_by_desc_first in Hrows. destruct Hrows as [_ Hmax].
    apply Hmax.
    exact (Permutation_in a (order_by_desc_perm ScormAttempt.started_at _) Ha).
  - unfold launch_scorm_package.
    destruct (User.is_authenticated (user request)); cbn [negb].
    + unfold sbind at 1. rewrite Hpkg.
      unfold sbind at 1.
      destruct (check_permissions (user request) package db) as [[] | e].
      * unfold sbind at 1. rewrite Hrows, Hallow, Hterm. cbn [negb andb].
        eexists. split; [reflexivity|]. split; [discriminate|].
        intros _ _. reflexivity.
      * eexists. split; [reflexivity|]. split; [discriminate|].
        intros _ H. discriminate H.
    + eexists. split; [reflexivity|]. split; [discriminate|].
      intros H. discriminate H.
Qed.

Lemma launch_refused_after_completion_witness :
  exists r,
    launch_scorm_package SampleDb.request "intro" 3000
      (SampleDb.with_rows false [Sample.attempt false 1 100 "completed" None])
    = (SampleDb.with_rows false [Sample.attempt false 1 100 "completed" None], r)
    /\ (forall c, r <> Ok (RenderPlayer c)).
Proof.
  destruct (launch_refused_after_completion SampleDb.request "intro" 3000
              (SampleDb.with_rows false [Sample.attempt false 1 100 "completed" None])
              (Sample.package false) (Sample.attempt false 1 100 "completed" None) [])
    as [_ (r & Hr & Hno & _)].
  - reflexivity.
  - reflexivity.
  - reflexivity.
  - reflexivity.
  - exists r. split; assumption.
Defined.

(** ** Progress summaries *)

(** *** The order of floats *)

Lemma float_gt_rank (f g : PyFloat.t) :
  float_gt f g = true <-> rank_gt (rank f) (rank g).
Proof.
  unfold float_gt, py_gt, py_compare, SFcompare, rank_gt, lex_gt.
  destruct f as [s | s | | s m e], g as [s' | s' | | s' m' e'];
    try destruct s; try destruct s'; cbn [rank];
    try (split; [discriminate | lia]);
    try (split; [intros _; lia | reflexivity]);
    try (split; [discriminate | intros []]).
  - change (Pos.compare_cont Eq m m') with (Pos.compare m m').
    destruct (Z.compare_spec e e'); destruct (Pos.compare_spec m m'); cbn [CompOpp];
      split; intros H'; try discriminate H'; try reflexivity; lia.
  - change (Pos.compare_cont Eq m m') with (Pos.compare m m').
    destruct (Z.compare_spec e e'); destruct (Pos.compare_spec m m');
      split; intros H'; try discriminate H'; try reflexivity; lia.
Qed.

(** A score that does not exceed the old best does not exceed a new,
    greater best either. *)
Lemma float_gt_keeps_bound (raw g s : PyFloat.t) :
  float_gt raw g = true -> float_gt s g = false -> float_gt s raw = false.
Proof.
  intros Hraw Hs. apply not_true_iff_false. intros Hsr.
  apply not_true_iff_false in Hs. apply Hs.
  rewrite float_gt_rank in *. unfold rank_gt, lex_gt in *.
  destruct (rank raw) as [[[a b] c]|], (rank g) as [[[a' b'] c']|],
    (rank s) as [[[a'' b''] c'']|]; try contradiction; lia.
Qed.

Lemma float_gt_irrefl (f : PyFloat.t) : float_gt f f = false.
Proof.
  apply not_true_iff_false. rewrite float_gt_rank. unfold rank_gt, lex_gt.
  destruct (rank f) as [[[a b] c]|]; [lia | tauto].
Qed.

(** Against the integer [0], a float compares as against the float zero. *)
Lemma py_gt_int_zero (s : PyFloat.t) :
  py_gt (PFloat s) (PInt 0) = float_gt s (S754_zero false).
Proof.
  unfold float_gt, py_gt, py_compare, PyFloat.compare_int, SFcompare.
  destruct s as [b | b | | b m e]; try destruct b; try reflexivity; cbn [cond_Zopp].
  - destruct (0 <=? e) eqn:E; [|reflexivity].
    apply Z.leb_le in E. pose proof (Z.pow_pos_nonneg 2 e ltac:(lia) E) as Hp.
    assert (H : Z.opp (Zpos m) * 2 ^ e < 0) by nia.
    apply Z.compare_lt_iff in H. rewrite H. reflexivity.
  - destruct (0 <=? e) eqn:E; [|reflexivity].
    apply Z.leb_le in E. pose proof (Z.pow_pos_nonneg 2 e ltac:(lia) E) as Hp.
    assert (H : Zpos m * 2 ^ e > 0) by nia.
    apply Z.compare_gt_iff in H. apply Z.compare_gt_iff in H. rewrite H. reflexivity.
Qed.

(** *** The dictionary of summaries *)

Lemma dict_get_app (k k' : Z) (e : ProgressEntry) (d : progress_dict) :
  dict_get k (d ++ [(k', e)])
  = match dict_get k d with
    | Some x => Some x
    | None => if k' =? k then Some e else None
    end.
Proof.
  induction d as [|[k0 e0] d IH]; cbn [dict_get app]; [reflexivity|].
  destruct (k0 =? k); [reflexivity | exact IH].
Qed.

Lemma dict_get_update (k k' : Z) (f : ProgressEntry -> ProgressEntry) (d : progress_dict) :
  dict_get k (dict_update k' f d)
  = if k' =? k then option_map f (dict_get k d) else dict_get k d.
Proof.
  induction d as [|[k0 e0] d IH]; cbn [dict_get dict_update].
  - destruct (k' =? k); reflexivity.
  - destruct (Z.eqb_spec k0 k') as [-> | Hne]; cbn [dict_get].
    + destruct (k' =? k); reflexivity.
    + rewrite IH. destruct (Z.eqb_spec k0 k) as [-> | Hne'].
      * destruct (Z.eqb_spec k' k) as [-> | _]; [contradiction | reflexivity].
      * reflexivity.
Qed.

(** One iteration, seen from one key of the dictionary. *)
Lemma progress_step_get (d : progress_dict) (a : ScormAttempt.t) (k : Z) :
  dict_get k (progress_step d a)
  = if ScormPackage.id (ScormAttempt.package a) =? k
    then Some (entry_step (dict_get k d) a)
    else dict_get k d.
Proof.
  unfold progress_step.
  set (ka := ScormPackage.id (ScormAttempt.package a)).
  set (init := {| pe_package := ScormAttempt.package a; latest_attempt := a;
                  total_attempts := 0; best_score := PInt 0 |}).
  set (bump := fun e => {| pe_package := pe_package e; latest_attempt := latest_attempt e;
                           total_attempts := total_attempts e + 1;
                           best_score := best_score e |}).
  set (d1 := match dict_get ka d with Some _ => d | None => d ++ [(ka, init)] end).
  set (d2 := dict_update ka bump d1).
  set (e0 := match dict_get ka d with Some e => e | None => init end).
  assert (Hka1 : dict_get ka d1 = Some e0).
  { subst d1 e0. destruct (dict_get ka d) eqn:E; [exact E|].
    rewrite dict_get_app, E, Z.eqb_refl. reflexivity. }
  assert (Hk1 : ka <> k -> dict_get k d1 = dict_get k d).
  { intros Hne. subst d1. destruct (dict_get ka d); [reflexivity|].
    rewrite dict_get_app. destruct (dict_get k d); [reflexivity|].
    destruct (Z.eqb_spec ka k); [contradiction | reflexivity]. }
  assert (Hka2 : dict_get ka d2 = Some (bump e0)).
  { subst d2. rewrite dict_get_update, Z.eqb_refl, Hka1. reflexivity. }
  assert (Hk2 : ka <> k -> dict_get k d2 = dict_get k d).
  { intros Hne. subst d2. rewrite dict_get_update.
    destruct (Z.eqb_spec ka k); [contradiction | exact (Hk1 Hne)]. }
  rewrite Hka2.
  destruct (Z.eqb_spec ka k) as [<- | Hne].
  - unfold entry_step. fold init. fold e0.
    destruct (ScormAttempt.score_raw a) as [raw|]; [|exact Hka2].
    change (best_score (bump e0)) with (best_score e0).
    destruct (PyFloat.truthy raw && py_gt (PFloat raw) (best_score e0)); [|exact Hka2].
    rewrite dict_get_update, Z.eqb_refl, Hka2. reflexivity.
  - destruct (ScormAttempt.score_raw a) as [raw|]; [|exact (Hk2 Hne)].
    destruct (PyFloat.truthy raw && py_gt (PFloat raw) (best_score (bump e0)));
      [|exact (Hk2 Hne)].
    rewrite dict_get_update. destruct (Z.eqb_spec ka k); [contradiction | exact (Hk2 Hne)].
Qed.

Lemma progress_fold_get (l : list ScormAttempt.t) (d : progress_dict) (k : Z) :
  dict_get k (fold_left progress_step l d)
  = fold_left (fun o a => Some (entry_step o a))
      (List.filter (fun a => ScormPackage.id (ScormAttempt.package a) =? k) l)
      (dict_get k d).
Proof.
  revert d. induction l as [|a l IH]; intros d; cbn [fold_left List.filter]; [reflexivity|].
  rewrite IH, progress_step_get.
  destruct (ScormPackage.id (ScormAttempt.package a) =? k); reflexivity.
Qed.

(** *** The loop invariant *)

Lemma summarises_first (a : ScormAttempt.t) : summarises [a] (entry_step None a).
Proof.
  unfold summarises, entry_step. cbn [total_attempts best_score length].
  split; [reflexivity|]. split.
  - intros a' s [<- | []] Hs. rewrite Hs.
    destruct (PyFloat.truthy s && py_gt (PFloat s) (PInt 0)) eqn:E.
    + apply float_gt_irrefl.
    + apply andb_false_iff in E. destruct E as [E | E]; [|exact E].
      rewrite py_gt_int_zero. destruct s; try discriminate E. reflexivity.
  - destruct (ScormAttempt.score_raw a) as [raw|] eqn:Hraw; [|left; reflexivity].
    destruct (PyFloat.truthy raw && py_gt (PFloat raw) (PInt 0)) eqn:E;
      [|left; reflexivity].
    apply andb_true_iff in E. destruct E as [_ E].
    right. exists a, raw. repeat split; try assumption. left. reflexivity.
Qed.

Lemma float_gt_above_zero (raw g : PyFloat.t) :
  float_gt raw g = true -> float_gt (S754_zero false) g = false ->
  float_gt raw (S754_zero false) = true.
Proof.
  intros Hraw Hzero. apply not_true_iff_false in Hzero.
  rewrite float_gt_rank in *. unfold rank_gt, lex_gt in *. cbn [rank] in *.
  destruct (rank raw) as [[[a b] c]|]; [|contradiction].
  destruct (rank g) as [[[a' b'] c']|]; [lia | contradiction].
Qed.

Lemma zero_not_above_positive (s : PyFloat.t) :
  float_gt s (S754_zero false) = true -> float_gt (S754_zero false) s = false.
Proof.
  intros Hpos. apply not_true_iff_false. intros Hlt.
  rewrite float_gt_rank in *. unfold rank_gt, lex_gt in *. cbn [rank] in *.
  destruct (rank s) as [[[a b] c]|]; [lia | contradiction].
Qed.

Lemma float_gt_zero_sign (b : bool) (g : PyFloat.t) :
  float_gt (S754_zero b) g = float_gt (S754_zero false) g.
Proof. destruct g; reflexivity. Qed.

Lemma summarises_step (seen : list ScormAttempt.t) (e : ProgressEntry)
    (a : ScormAttempt.t) :
  summarises seen e -> summarises (seen ++ [a]) (entry_step (Some e) a).
Proof.
  intros (Hcount & Hbound & Hbest).
  set (B := match best_score e with
            | PFloat g => g
            | PInt _ => S754_zero false
            end).
  assert (Hfloat : forall s, py_gt (PFloat s) (best_score e) = float_gt s B).
  { intros s. subst B. destruct Hbest as [-> | (a0 & s0 & _ & _ & -> & _)];
      [apply py_gt_int_zero | reflexivity]. }
  assert (Hzero : float_gt (S754_zero false) B = false).
  { subst B. destruct Hbest as [-> | (a0 & s0 & _ & _ & -> & Hpos)];
      [reflexivity|].
    apply zero_not_above_positive. rewrite <- py_gt_int_zero. exact Hpos. }
  assert (Hkeep : best_score e = PInt 0
                  \/ exists a0 s0, In a0 (seen ++ [a]) /\ ScormAttempt.score_raw a0 = Some s0
                                   /\ best_score e = PFloat s0
                                   /\ py_gt (PFloat s0) (PInt 0) = true).
  { destruct Hbest as [Hb | (a0 & s0 & Hin & Hs & Hb & Hpos)]; [left; exact Hb|].
    right. exists a0, s0. split; [apply in_app_iff; left; exact Hin|].
    split; [exact Hs|]. split; assumption. }
  unfold summarises, entry_step. cbn [total_attempts best_score].
  split; [rewrite Hcount, length_app; cbn [length]; lia|].
  destruct (ScormAttempt.score_raw a) as [raw|] eqn:Hraw.
  - rewrite Hfloat.
    destruct (PyFloat.truthy raw && float_gt raw B) eqn:E.
    + apply andb_true_iff in E. destruct E as [_ E]. split.
      * intros a' s Hin Hs. apply in_app_iff in Hin.
        destruct Hin as [Hin | [<- | []]].
        -- specialize (Hbound a' s Hin Hs). rewrite Hfloat in Hbound.
           exact (float_gt_keeps_bound _ _ _ E Hbound).
        -- rewrite Hraw in Hs. injection Hs as <-. apply float_gt_irrefl.
      * right. exists a, raw.
        split; [apply in_app_iff; right; left; reflexivity|].
        split; [exact Hraw|]. split; [reflexivity|].
        rewrite py_gt_int_zero. exact (float_gt_above_zero _ _ E Hzero).
    + split; [|exact Hkeep].
      intros a' s Hin Hs. apply in_app_iff in Hin.
      destruct Hin as [Hin | [<- | []]]; [exact (Hbound a' s Hin Hs)|].
      rewrite Hraw in Hs. injection Hs as <-. rewrite Hfloat.
      apply andb_false_iff in E. destruct E as [E | E]; [|exact E].
      destruct raw as [b | b | | b m x]; try discriminate E.
      rewrite float_gt_zero_sign. exact Hzero.
  - split; [|exact Hkeep].
    intros a' s Hin Hs. apply in_app_iff in Hin.
    destruct Hin as [Hin | [<- | []]]; [exact (Hbound a' s Hin Hs) | congruence].
Qed.

Lemma summarises_fold (rows seen : list ScormAttempt.t) (e : ProgressEntry) :
  summarises seen e ->
  exists e', fold_left (fun o a => Some (entry_step o a)) rows (Some e) = Some e'
             /\ summarises (seen ++ rows) e'.
Proof.
  revert seen e. induction rows as [|a rows IH]; intros seen e He; cbn [fold_left].
  - exists e. rewrite app_nil_r. split; [reflexivity | exact He].
  - destruct (IH (seen ++ [a]) _ (summarises_step seen e a He)) as (e' & Hfold & He').
    exists e'. split; [exact Hfold|]. rewrite <- app_assoc in He'. exact He'.
Qed.

Lemma summarises_rows (rows : list ScormAttempt.t) :
  rows <> [] ->
  exists e, fold_left (fun o a => Some (entry_step o a)) rows None = Some e
            /\ summarises rows e.
Proof.
  destruct rows as [|a rows]; [congruence|]. intros _. cbn [fold_left].
  exact (summarises_fold rows [a] _ (summarises_first a)).
Qed.

Lemma summarises_perm (seen seen' : list ScormAttempt.t) (e : ProgressEntry) :
  Permutation seen seen' -> summarises seen e -> summarises seen' e.
Proof.
  intros P (Hcount & Hbound & Hbest). split; [|split].
  - rewrite Hcount, (Permutation_length P). reflexivity.
  - intros a s Hin. apply Hbound. exact (Permutation_in a (Permutation_sym P) Hin).
  - destruct Hbest as [Hb | (a & s & Hin & Hrest)]; [left; exact Hb|].
    right. exists a, s. split; [exact (Permutation_in a P Hin) | exact Hrest].
Qed.

Lemma filter_perm {A} (f : A -> bool) (l l' : list A) :
  Permutation l l' -> Permutation (List.filter f l) (List.filter f l').
Proof.
  induction 1 as [| x l l' _ IH | x y l | l l' l'' _ IH1 _ IH2]; cbn [List.filter].
  - constructor.
  - destruct (f x); [apply perm_skip|]; exact IH.
  - destruct (f x), (f y); try reflexivity. apply perm_swap.
  - exact (Permutation_trans IH1 IH2).
Qed.

Lemma filter_filter {A} (f g : A -> bool) (l : list A) :
  List.filter f (List.filter g l) = List.filter (fun x => g x && f x) l.
Proof.
  induction l as [|x l IH]; cbn [List.filter]; [reflexivity|].
  destruct (g x); cbn [List.filter andb]; [destruct (f x)|]; rewrite IH; reflexivity.
Qed.

(** The rows the loop sees for one package are the stored attempts of the
    learner on it, newest first. *)
Lemma loop_rows_perm (u : User.t) (db : Db.t) (k : Z) :
  Permutation
    (List.filter (fun a => ScormPackage.id (ScormAttempt.package a) =? k)
                 (user_attempts u db))
    (attempts_on u k db).
Proof.
  unfold user_attempts, attempts_on. rewrite <- filter_filter.
  apply filter_perm, order_by_desc_perm.
Qed.

(** C9, as claimed, fails: a learner whose only attempt on a package has
    the raw score -5 gets the best score [0], which is greater than the
    maximum raw score of the attempts. *)
Lemma best_score_floored_at_zero :
  max_score_raw_in_words (attempts_on Sample.learner 1 SampleDb.negative_score)
  = Some (Sample.float_of "-5")
  /\ (exists ctx,
        user_scorm_progress SampleDb.request SampleDb.negative_score = RenderProgress ctx
        /\ map best_score (progress_data ctx) = [PInt 0]
        /\ map total_attempts (progress_data ctx) = [1])
  /\ py_compare (PInt 0) (PFloat (Sample.float_of "-5")) = Some Gt.
Proof.
  split; [vm_compute; reflexivity|]. split; [|vm_compute; reflexivity].
  eexists. split; [vm_compute; reflexivity|]. split; reflexivity.
Qed.

(** C9, amended. For every learner and package on which the learner has
    attempts, the summary of that package counts exactly those attempts; no
    raw score among them exceeds its best score; and its best score is a
    positive raw score of one of them, or [0] when none is positive. *)
Theorem progress_summary_per_package (u : User.t) (db : Db.t) (k : Z) :
  attempts_on u k db <> [] ->
  exists e,
    dict_get k (progress_by_package u db) = Some e
    /\ total_attempts e = Z.of_nat (length (attempts_on u k db))
    /\ (forall a s, In a (attempts_on u k db) -> ScormAttempt.score_raw a = Some s ->
                    py_gt (PFloat s) (best_score e) = false)
    /\ (best_score e = PInt 0
        \/ exists a s, In a (attempts_on u k db)
                       /\ ScormAttempt.score_raw a = Some s
                       /\ best_score e = PFloat s
                       /\ py_gt (PFloat s) (PInt 0) = true).
Proof.
  intros Hrows. pose proof (loop_rows_perm u db k) as P.
  unfold progress_by_package. rewrite progress_fold_get. cbn [dict_get].
  destruct (summarises_rows
              (List.filter (fun a => ScormPackage.id (ScormAttempt.package a) =? k)
                           (user_attempts u db))) as (e & Hfold & He).
  - intros Hnil. rewrite Hnil in P. apply Permutation_nil in P. contradiction.
  - exists e. split; [exact Hfold|]. exact (summarises_perm _ _ e P He).
Qed.

Lemma progress_summary_per_package_witness :
  exists e,
    dict_get 1 (progress_by_package Sample.learner SampleDb.one_row) = Some e
    /\ total_attempts e = 1
    /\ (best_score e = PInt 0
        \/ exists s, best_score e = PFloat s /\ py_gt (PFloat s) (PInt 0) = true).
Proof.
  destruct (progress_summary_per_package Sample.learner SampleDb.one_row 1)
    as (e & Hget & Hcount & _ & Hbest).
  - vm_compute. discriminate.
  - exists e. split; [exact Hget|]. split; [exact Hcount|].
    destruct Hbest as [Hb | (a & s & _ & _ & Hb & Hpos)]; [left; exact Hb|].
    right. exists s. split; assumption.
Defined.

(** ** Ingestion *)











(** Outside the archives the claim is about: on a record without an
    uploaded file, [extract_package] returns false at its guard and the
    status stays [pending]. *)
Lemma extract_package_without_file_stays_pending :
  exists s',
    Ingest.extract_package SampleIngest.slug_generator SampleIngest.no_file = (s', Ok false)
    /\ ScormPackage.status (Ingest.self s') = "pending"
    /\ ScormPackage.error_message (Ingest.self s') = "".
Proof. eexists. split; [reflexivity|]. split; reflexivity. Qed.



(** The sample archive, run: the entry point is the manifest's first
    resource reference. *)
Example extract_package_sample :
  exists s',
    Ingest.extract_package SampleIngest.slug_generator SampleIngest.uploaded = (s', Ok true)
    /\ ScormPackage.entry_point (Ingest.self s') = "content/start.html"
    /\ ScormPackage.extracted_path (Ingest.self s') = "scorm_extracted/7/intro".
Proof. eexists. split; [vm_compute; reflexivity|]. split; reflexivity. Qed.

(** ** The runtime endpoint *)

Lemma get_attempt_found (attempt_id : Z) (u : User.t) (db : Db.t) (a : ScormAttempt.t) :
  get_attempt attempt_id u db = Ok a ->
  In a (Db.attempts db)
  /\ ScormAttempt.id a = attempt_id
  /\ User.id (ScormAttempt.user a) = User.id u.
Proof.
  unfold get_attempt, objects_get. intros H.
  destruct (List.filter _ (Db.attempts db)) as [|x [|y l]] eqn:E; try discriminate H.
  injection H as ->.
  assert (Hin : In a (List.filter
                        (fun a => (ScormAttempt.id a =? attempt_id)
                                  && (User.id (ScormAttempt.user a) =? User.id u))
                        (Db.attempts db))) by (rewrite E; left; reflexivity).
  apply filter_In in Hin. destruct Hin as [Hin Hb].
  apply andb_true_iff in Hb. destruct Hb as [H1 H2].
  apply Z.eqb_eq in H1, H2. repeat split; assumption.
Qed.

Lemma find_attempt_found (prepared : result Z) (u : User.t) (db : Db.t)
    (a : ScormAttempt.t) :
  find_attempt prepared u db = Ok a ->
  prepared = Ok (ScormAttempt.id a)
  /\ In a (Db.attempts db)
  /\ User.id (ScormAttempt.user a) = User.id u.
Proof.
  unfold find_attempt. destruct prepared as [attempt_id | e]; cbn [rbind]; [|discriminate].
  intros H. apply get_attempt_found in H. destruct H as (Hin & <- & Huser).
  split; [reflexivity|]. split; assumption.
Qed.

(** The dispatch writes by saving the attempt it was given, and only for
    [LMSCommit] and [LMSFinish]. *)
Lemma scorm_api_dispatch_writes (data : ApiData) (attempt : ScormAttempt.t)
    (now : Z) (db : Db.t) :
  fst (scorm_api_dispatch data attempt now db) = db
  \/ (py_str_eq (api_method data) "LMSCommit" = true
      /\ fst (scorm_api_dispatch data attempt now db) = fst (save_attempt now attempt db))
  \/ (py_str_eq (api_method data) "LMSFinish" = true
      /\ fst (scorm_api_dispatch data attempt now db)
         = fst (save_attempt now (with_completed_at (Some now) attempt) db)).
Proof.
  unfold scorm_api_dispatch.
  destruct (py_str_eq (api_method data) "LMSGetValue").
  { left. unfold sbind, eval, sret.
    destruct (first_if_any (api_parameters data)); reflexivity. }
  destruct (py_str_eq (api_method data) "LMSSetValue").
  { left. unfold sbind, eval, sret.
    destruct (item_or_empty 0 (api_parameters data)) as [element|]; [|reflexivity].
    destruct (item_or_empty 1 (api_parameters data)) as [value|]; [|reflexivity].
    destruct (snd (set_scorm_value_of attempt element value)); reflexivity. }
  destruct (py_str_eq (api_method data) "LMSCommit").
  { right. left. split; [reflexivity|]. unfold sbind, sret.
    destruct (save_attempt now attempt db) as [d [r | e]]; reflexivity. }
  destruct (py_str_eq (api_method data) "LMSFinish"); [|left; reflexivity].
  right. right. split; [reflexivity|]. unfold sbind, sret.
  destruct (save_attempt now (with_completed_at (Some now) attempt) db) as [d [r | e]];
    reflexivity.
Qed.

(** A call either leaves the store alone or reaches the dispatch on an
    attempt of the caller's that is in the store. *)
Lemma scorm_api_reaches_dispatch (request : ApiRequest) (now : Z) (db : Db.t) :
  fst (scorm_api request now db) = db
  \/ exists data attempt,
       api_body request = BodyObject data
       /\ In attempt (Db.attempts db)
       /\ User.id (ScormAttempt.user attempt) = User.id (api_user request)
       /\ fst (scorm_api request now db) = fst (scorm_api_dispatch data attempt now db).
Proof.
  unfold scorm_api.
  destruct (User.is_authenticated (api_user request)); cbn [negb]; [|left; reflexivity].
  destruct (http_method request == "POST"); [|left; reflexivity].
  destruct (api_body request) as [| e | v | text | | data]; cbn [decoded_object];
    try (left; reflexivity).
  unfold sbind, eval, scorm_api_try.
  destruct (lookup_value (api_attempt_id data)) as [prepared|]; [|left; reflexivity].
  destruct (find_attempt prepared (api_user request) db) as [attempt | e] eqn:Hfind;
    [|left; destruct (is_DoesNotExist e); reflexivity].
  apply find_attempt_found in Hfind. destruct Hfind as (_ & Hin & Huser).
  right. exists data, attempt. split; [reflexivity|]. split; [exact Hin|].
  split; [exact Huser|].
  destruct (scorm_api_dispatch data attempt now db) as [db' [response | e]]; reflexivity.
Qed.

Lemma scorm_api_dispatch_reads (data : ApiData) (attempt : ScormAttempt.t)
    (now : Z) (db : Db.t) :
  py_str_eq (api_method data) "LMSCommit" = false ->
  py_str_eq (api_method data) "LMSFinish" = false ->
  fst (scorm_api_dispatch data attempt now db) = db.
Proof.
  intros Hcommit Hfinish.
  destruct (scorm_api_dispatch_writes data attempt now db)
    as [H | [[H _] | [H _]]]; [exact H | congruence | congruence].
Qed.

(** X1. Only [LMSCommit] and [LMSFinish] write: a call with any other
    method, [LMSSetValue] among them, leaves the store exactly as it was. *)
Theorem scorm_api_set_value_stores_nothing (request : ApiRequest) (now : Z) (db : Db.t) :
  (forall data, api_body request = BodyObject data ->
                py_str_eq (api_method data) "LMSCommit" = false
                /\ py_str_eq (api_method data) "LMSFinish" = false) ->
  fst (scorm_api request now db) = db.
Proof.
  intros Hmethod.
  destruct (scorm_api_reaches_dispatch request now db)
    as [Hsame | (data & attempt & Hbody & _ & _ & Hrun)]; [exact Hsame|].
  rewrite Hrun. destruct (Hmethod data Hbody) as [Hcommit Hfinish].
  apply scorm_api_dispatch_reads; assumption.
Qed.

Lemma scorm_api_set_value_stores_nothing_witness :
  fst (scorm_api (SampleApi.call "LMSSetValue" [VStr "cmi.core.score.raw"; VStr "85"])
         500 SampleDb.one_row)
  = SampleDb.one_row.
Proof.
  apply scorm_api_set_value_stores_nothing.
  intros data H. injection H as <-. split; reflexivity.
Defined.

Lemma get_attempt_none (attempt_id : Z) (u : User.t) (db : Db.t) :
  (forall a, In a (Db.attempts db) -> ScormAttempt.id a = attempt_id ->
             User.id (ScormAttempt.user a) <> User.id u) ->
  get_attempt attempt_id u db = Raise (DoesNotExist "matching query does not exist.").
Proof.
  intros Hforeign. unfold get_attempt.
  assert (Hnone : List.filter
                    (fun a => (ScormAttempt.id a =? attempt_id)
                              && (User.id (ScormAttempt.user a) =? User.id u))
                    (Db.attempts db) = []).
  { induction (Db.attempts db) as [|x l IH]; [reflexivity|]. cbn [List.filter].
    destruct (Z.eqb_spec (ScormAttempt.id x) attempt_id) as [Ex | _]; cbn [andb].
    - destruct (Z.eqb_spec (User.id (ScormAttempt.user x)) (User.id u)) as [Eu | _].
      + exfalso. exact (Hforeign x (or_introl eq_refl) Ex Eu).
      + apply IH. intros a Ha. apply Hforeign. right. exact Ha.
    - apply IH. intros a Ha. apply Hforeign. right. exact Ha. }
  rewrite Hnone. reflexivity.
Qed.

(** X2. A call is answered by an error, and changes nothing, in this
    order of checks.  Not logged in: the login redirect.  Not a POST: 405.
    A body [json.loads] rejects with [JSONDecodeError]: 400; a body on
    which it raises otherwise (bytes that are not UTF-8), or JSON that is
    not an object: 500 with the text of the exception.  An [attempt_id]
    that is absent or falsy: 400; one whose conversion to a key raises:
    500 with that text; one whose key no attempt of the caller has, be the
    attempt missing or another learner's: 404. *)
Theorem scorm_api_refuses (request : ApiRequest) (now : Z) (db : Db.t) :
  (User.is_authenticated (api_user request) = false ->
   scorm_api request now db = (db, ApiLoginRedirect))
  /\ (User.is_authenticated (api_user request) = true ->
      (http_method request == "POST") = false ->
      scorm_api request now db = (db, ApiJson (JsonError 405 "Method not allowed")))
  /\ (User.is_authenticated (api_user request) = true ->
      (http_method request == "POST") = true ->
      match api_body request with
      | BodyNotJson =>
          scorm_api request now db = (db, ApiJson (JsonError 400 "Invalid JSON"))
      | BodyRaises e =>
          scorm_api request now db = (db, ApiJson (JsonError 500 (exn_str e)))
      | BodyScalar v =>
          scorm_api request now db
          = (db, ApiJson (JsonError 500 ("'" ++ scalar_type v
                                             ++ "' object has no attribute 'get'")))
      | BodyText _ =>
          scorm_api request now db
          = (db, ApiJson (JsonError 500 "'str' object has no attribute 'get'"))
      | BodyArray =>
          scorm_api request now db
          = (db, ApiJson (JsonError 500 "'list' object has no attribute 'get'"))
      | BodyObject data =>
          match lookup_value (api_attempt_id data) with
          | None =>
              scorm_api request now db
              = (db, ApiJson (JsonError 400 "No attempt ID provided"))
          | Some (Raise e) =>
              scorm_api request now db
              = (db, ApiJson (if is_DoesNotExist e
                              then JsonError 404 "Invalid attempt"
                              else JsonError 500 (exn_str e)))
          | Some (Ok attempt_id) =>
              (forall a, In a (Db.attempts db) ->
                         ScormAttempt.id a = attempt_id ->
                         User.id (ScormAttempt.user a) <> User.id (api_user request)) ->
              scorm_api request now db = (db, ApiJson (JsonError 404 "Invalid attempt"))
          end
      end).
Proof.
  unfold scorm_api. split; [|split].
  - intros ->. reflexivity.
  - intros -> ->. reflexivity.
  - intros -> ->. cbn [negb].
    destruct (api_body request) as [| e | v | text | | data]; cbn [decoded_object];
      try reflexivity.
    unfold sbind, eval, scorm_api_try.
    destruct (lookup_value (api_attempt_id data)) as [[attempt_id | e]|];
      [| |reflexivity].
    + intros Hforeign. unfold find_attempt. cbn [rbind].
      rewrite (get_attempt_none attempt_id (api_user request) db Hforeign). reflexivity.
    + unfold find_attempt. cbn [rbind]. destruct (is_DoesNotExist e); reflexivity.
Qed.

Lemma scorm_api_refuses_witness :
  scorm_api {| api_user := SampleApi.stranger; http_method := "POST";
               api_body := api_body (SampleApi.call "LMSGetValue" [VStr "cmi.suspend_data"]) |}
            500 SampleDb.one_row
  = (SampleDb.one_row, ApiJson (JsonError 404 "Invalid attempt")).
Proof.
  refine (proj2 (proj2
            (scorm_api_refuses
               {| api_user := SampleApi.stranger; http_method := "POST";
                  api_body := api_body (SampleApi.call "LMSGetValue"
                                          [VStr "cmi.suspend_data"]) |}
               500 SampleDb.one_row))
            eq_refl eq_refl _).
  intros a [<- | []] _. cbn. discriminate.
Defined.

(** Bytes that are not UTF-8 are answered with 500, not with 400. *)
Example scorm_api_undecodable_body :
  scorm_api {| api_user := Sample.learner; http_method := "POST";
               api_body := BodyRaises
                             (UnicodeDecodeError
                                "'utf-8' codec can't decode byte 0xff in position 0: invalid start byte") |}
            500 SampleDb.one_row
  = (SampleDb.one_row,
     ApiJson (JsonError 500
                "'utf-8' codec can't decode byte 0xff in position 0: invalid start byte")).
Proof. reflexivity. Qed.

Lemma unique_row (l : list ScormAttempt.t) (a x : ScormAttempt.t) :
  List.NoDup (map ScormAttempt.id l) -> In a l -> In x l ->
  ScormAttempt.id x = ScormAttempt.id a -> x = a.
Proof.
  induction l as [|y l IH]; intros Hnd Ha Hx Hid; [contradiction|].
  cbn [map] in Hnd. inversion Hnd as [|? ? Hnotin Hnd']; subst.
  destruct Ha as [-> | Ha], Hx as [-> | Hx].
  - reflexivity.
  - exfalso. apply Hnotin. rewrite <- Hid. apply in_map. exact Hx.
  - exfalso. apply Hnotin. rewrite Hid. apply in_map. exact Ha.
  - apply IH; assumption.
Qed.

(** Saving a stored attempt under unique keys replaces its row and no other. *)
Lemma save_attempt_replaces (now : Z) (stored edited : ScormAttempt.t) (db : Db.t) :
  List.NoDup (map ScormAttempt.id (Db.attempts db)) ->
  In stored (Db.attempts db) ->
  ScormAttempt.id edited = ScormAttempt.id stored ->
  save_attempt now edited db
  = (Db.with_attempts
       (map (fun a => if ScormAttempt.id a =? ScormAttempt.id stored
                      then ScormAttempt.with_last_accessed now edited else a)
            (Db.attempts db)) db,
     Ok (ScormAttempt.with_last_accessed now edited)).
Proof.
  intros Hnd Hin Hid. unfold save_attempt.
  cbn [ScormAttempt.with_last_accessed ScormAttempt.id]. rewrite Hid.
  assert (Hex : existsb (fun a => ScormAttempt.id a =? ScormAttempt.id stored)
                  (Db.attempts db) = true).
  { apply existsb_exists. exists stored. split; [exact Hin | apply Z.eqb_refl]. }
  rewrite Hex. reflexivity.
Qed.

Lemma map_replace_row (f : ScormAttempt.t -> ScormAttempt.t)
    (l : list ScormAttempt.t) (stored row : ScormAttempt.t) :
  List.NoDup (map ScormAttempt.id l) -> In stored l -> f row = f stored ->
  map f (map (fun a => if ScormAttempt.id a =? ScormAttempt.id stored then row else a) l)
  = map f l.
Proof.
  intros Hnd Hin Hf. rewrite map_map. apply map_ext_in. intros x Hx.
  destruct (Z.eqb_spec (ScormAttempt.id x) (ScormAttempt.id stored)) as [E | _];
    [|reflexivity].
  rewrite (unique_row l stored x Hnd Hin Hx E). exact Hf.
Qed.

(** With unique attempt keys, no call of the endpoint changes the
    packages, the enrolments, the number of attempts or any attempt's data
    other than its [last_accessed] and [completed_at] time stamps. *)
Lemma scorm_api_frame (request : ApiRequest) (now : Z) (db : Db.t) :
  List.NoDup (map ScormAttempt.id (Db.attempts db)) ->
  Db.packages (fst (scorm_api request now db)) = Db.packages db
  /\ Db.enrollments (fst (scorm_api request now db)) = Db.enrollments db
  /\ map without_save_times (Db.attempts (fst (scorm_api request now db)))
     = map without_save_times (Db.attempts db).
Proof.
  intros Hnd.
  destruct (scorm_api_reaches_dispatch request now db)
    as [-> | (data & attempt & _ & Hin & _ & ->)];
    [split; [reflexivity | split; reflexivity]|].
  destruct (scorm_api_dispatch_writes data attempt now db)
    as [-> | [[_ ->] | [_ ->]]]; [split; [reflexivity | split; reflexivity] | |].
  - rewrite (save_attempt_replaces now attempt attempt db Hnd Hin eq_refl).
    cbn [fst Db.with_attempts Db.packages Db.enrollments Db.attempts].
    split; [reflexivity|]. split; [reflexivity|].
    apply map_replace_row; [exact Hnd | exact Hin | reflexivity].
  - rewrite (save_attempt_replaces now attempt (with_completed_at (Some now) attempt)
               db Hnd Hin eq_refl).
    cbn [fst Db.with_attempts Db.packages Db.enrollments Db.attempts].
    split; [reflexivity|]. split; [reflexivity|].
    apply map_replace_row; [exact Hnd | exact Hin | reflexivity].
Qed.

Lemma get_scorm_value_ignores_times (a : ScormAttempt.t) (element : pyval) :
  get_scorm_value_of (without_save_times a) element = get_scorm_value_of a element.
Proof. destruct element; reflexivity. Qed.

(** What [set_scorm_value] returns does not depend on the attempt. *)
Lemma set_scorm_value_answer (a a' : ScormAttempt.t) (element value : pyval) :
  snd (set_scorm_value_of a element value) = snd (set_scorm_value_of a' element value).
Proof.
  destruct element as [| | | |name| |]; try reflexivity.
  unfold set_scorm_value_of, set_scorm_value, stry, set_scorm_value_body.
  repeat (destruct (_ == _);
          [unfold set_float, stry, sbind, eval, assign, sret;
           try destruct (py_in_str_keys _ _) as [[?|]|?];
           try destruct (py_float _) as [?|e0]; try destruct (is_ValueError e0);
           try destruct (is_Exception _); reflexivity|]).
  repeat (destruct (String.prefix _ _); [reflexivity|]). reflexivity.
Qed.

Lemma filter_map_same_test {A} (p : A -> bool) (w : A -> A) (l : list A) :
  (forall a, p (w a) = p a) -> List.filter p (map w l) = map w (List.filter p l).
Proof.
  intros Hp. induction l as [|x l IH]; [reflexivity|].
  cbn [map List.filter]. rewrite Hp, IH. destruct (p x); reflexivity.
Qed.

(** Stores that agree up to the save time stamps find the same attempt, up
    to its time stamps, or fail alike. *)
Lemma get_attempt_related (attempt_id : Z) (u : User.t) (db db' : Db.t) :
  map without_save_times (Db.attempts db) = map without_save_times (Db.attempts db') ->
  match get_attempt attempt_id u db, get_attempt attempt_id u db' with
  | Ok a, Ok a' => without_save_times a = without_save_times a'
  | Raise e, Raise e' => e = e'
  | _, _ => False
  end.
Proof.
  intros Hrel. unfold get_attempt.
  set (p := fun a => (ScormAttempt.id a =? attempt_id)
                     && (User.id (ScormAttempt.user a) =? User.id u)).
  assert (Hfilter : map without_save_times (List.filter p (Db.attempts db))
                    = map without_save_times (List.filter p (Db.attempts db'))).
  { rewrite <- !filter_map_same_test by reflexivity. rewrite Hrel. reflexivity. }
  destruct (List.filter p (Db.attempts db)) as [|x [|y l]],
           (List.filter p (Db.attempts db')) as [|x' [|y' l']];
    cbn [map] in Hfilter; cbn [objects_get]; try discriminate; try reflexivity.
  exact (f_equal (fun rows => match rows with
                              | row :: _ => row
                              | [] => without_save_times x
                              end) Hfilter).
Qed.

Lemma find_attempt_related (prepared : result Z) (u : User.t) (db db' : Db.t) :
  map without_save_times (Db.attempts db) = map without_save_times (Db.attempts db') ->
  match find_attempt prepared u db, find_attempt prepared u db' with
  | Ok a, Ok a' => without_save_times a = without_save_times a'
  | Raise e, Raise e' => e = e'
  | _, _ => False
  end.
Proof.
  intros Hrel. unfold find_attempt. destruct prepared as [attempt_id | e]; cbn [rbind].
  - apply get_attempt_related. exact Hrel.
  - reflexivity.
Qed.

Lemma save_attempt_stored_ok (now : Z) (stored edited : ScormAttempt.t) (db : Db.t) :
  In stored (Db.attempts db) -> ScormAttempt.id edited = ScormAttempt.id stored ->
  snd (save_attempt now edited db) = Ok (ScormAttempt.with_last_accessed now edited).
Proof.
  intros Hin Hid. unfold save_attempt.
  cbn [ScormAttempt.with_last_accessed ScormAttempt.id]. rewrite Hid.
  assert (Hex : existsb (fun a => ScormAttempt.id a =? ScormAttempt.id stored)
                  (Db.attempts db) = true).
  { apply existsb_exists. exists stored. split; [exact Hin | apply Z.eqb_refl]. }
  rewrite Hex. reflexivity.
Qed.

Lemma scorm_api_dispatch_answer (data : ApiData) (a a' : ScormAttempt.t) (now : Z)
    (db db' : Db.t) :
  In a (Db.attempts db) -> In a' (Db.attempts db') ->
  without_save_times a = without_save_times a' ->
  snd (scorm_api_dispatch data a now db) = snd (scorm_api_dispatch data a' now db').
Proof.
  intros Hin Hin' Hrel. unfold scorm_api_dispatch.
  destruct (py_str_eq (api_method data) "LMSGetValue").
  { unfold sbind, eval, sret.
    destruct (first_if_any (api_parameters data)) as [element|]; [|reflexivity].
    cbn [snd].
    rewrite <- (get_scorm_value_ignores_times a), <- (get_scorm_value_ignores_times a'),
      Hrel. reflexivity. }
  destruct (py_str_eq (api_method data) "LMSSetValue").
  { unfold sbind, eval, sret.
    destruct (item_or_empty 0 (api_parameters data)) as [element|]; [|reflexivity].
    destruct (item_or_empty 1 (api_parameters data)) as [value|]; [|reflexivity].
    rewrite (set_scorm_value_answer a a').
    destruct (snd (set_scorm_value_of a' element value)); reflexivity. }
  destruct (py_str_eq (api_method data) "LMSCommit").
  { unfold sbind, sret.
    pose proof (save_attempt_stored_ok now a a db Hin eq_refl) as H.
    pose proof (save_attempt_stored_ok now a' a' db' Hin' eq_refl) as H'.
    destruct (save_attempt now a db) as [d r], (save_attempt now a' db') as [d' r'].
    cbn [snd] in H, H'. subst r r'. reflexivity. }
  destruct (py_str_eq (api_method data) "LMSFinish"); [|reflexivity].
  unfold sbind, sret.
  pose proof (save_attempt_stored_ok now a (with_completed_at (Some now) a) db Hin eq_refl)
    as H.
  pose proof (save_attempt_stored_ok now a' (with_completed_at (Some now) a') db' Hin'
                eq_refl) as H'.
  destruct (save_attempt now (with_completed_at (Some now) a) db) as [d r],
           (save_attempt now (with_completed_at (Some now) a') db') as [d' r'].
  cbn [snd] in H, H'. subst r r'. reflexivity.
Qed.

(** Stores that agree up to the save time stamps answer every call alike. *)
Lemma scorm_api_answer_related (request : ApiRequest) (now : Z) (db db' : Db.t) :
  map without_save_times (Db.attempts db) = map without_save_times (Db.attempts db') ->
  snd (scorm_api request now db) = snd (scorm_api request now db').
Proof.
  intros Hrel. unfold scorm_api.
  destruct (User.is_authenticated (api_user request)); cbn [negb]; [|reflexivity].
  destruct (http_method request == "POST"); [|reflexivity].
  destruct (api_body request) as [| e | v | text | | data]; cbn [decoded_object];
    try reflexivity.
  unfold sbind, eval, scorm_api_try.
  destruct (lookup_value (api_attempt_id data)) as [prepared|]; [|reflexivity].
  pose proof (find_attempt_related prepared (api_user request) db db' Hrel) as Hfind.
  destruct (find_attempt prepared (api_user request) db) as [a | e] eqn:Ha,
           (find_attempt prepared (api_user request) db') as [a' | e'] eqn:Ha';
    try contradiction.
  - apply find_attempt_found in Ha, Ha'.
    pose proof (scorm_api_dispatch_answer data a a' now db db'
                  (proj1 (proj2 Ha)) (proj1 (proj2 Ha')) Hfind) as Hanswer.
    destruct (scorm_api_dispatch data a now db) as [d [r | x]],
             (scorm_api_dispatch data a' now db') as [d' [r' | x']];
      cbn [snd] in Hanswer |- *; congruence.
  - subst e'. destruct (is_DoesNotExist e); reflexivity.
Qed.

Lemma scorm_api_calls_frame (calls : list (ApiRequest * Z)) (db : Db.t) :
  List.NoDup (map ScormAttempt.id (Db.attempts db)) ->
  Db.packages (scorm_api_calls calls db) = Db.packages db
  /\ Db.enrollments (scorm_api_calls calls db) = Db.enrollments db
  /\ map without_save_times (Db.attempts (scorm_api_calls calls db))
     = map without_save_times (Db.attempts db).
Proof.
  revert db. induction calls as [|[request now] calls IH]; intros db Hnd;
    [split; [reflexivity | split; reflexivity]|].
  unfold scorm_api_calls. cbn [fold_left fst snd].
  destruct (scorm_api_frame request now db Hnd) as (Hp & He & Ha).
  assert (Hnd' : List.NoDup (map ScormAttempt.id
                               (Db.attempts (fst (scorm_api request now db))))).
  { replace (map ScormAttempt.id (Db.attempts (fst (scorm_api request now db))))
      with (map ScormAttempt.id (Db.attempts db)); [exact Hnd|].
    transitivity (map ScormAttempt.id (map without_save_times (Db.attempts db)));
      [rewrite map_map; reflexivity | rewrite <- Ha, map_map; reflexivity]. }
  destruct (IH _ Hnd') as (Hp' & He' & Ha'). unfold scorm_api_calls in Hp', He', Ha'.
  rewrite Hp', He', Ha'. split; [exact Hp|]. split; [exact He | exact Ha].
Qed.

(** X3. With unique attempt keys, a session of runtime calls, whatever
    they are, leaves the packages, the enrolments and every attempt's data
    other than the [last_accessed] and [completed_at] time stamps as they
    were, and so every call is answered after the session as it would have
    been before it: what [LMSSetValue] accepted is not read back. *)
Theorem scorm_api_session_changes_no_answer
    (calls : list (ApiRequest * Z)) (db : Db.t) :
  List.NoDup (map ScormAttempt.id (Db.attempts db)) ->
  Db.packages (scorm_api_calls calls db) = Db.packages db
  /\ Db.enrollments (scorm_api_calls calls db) = Db.enrollments db
  /\ map without_save_times (Db.attempts (scorm_api_calls calls db))
     = map without_save_times (Db.attempts db)
  /\ forall request now,
       snd (scorm_api request now (scorm_api_calls calls db))
       = snd (scorm_api request now db).
Proof.
  intros Hnd. destruct (scorm_api_calls_frame calls db Hnd) as (Hp & He & Ha).
  split; [exact Hp|]. split; [exact He|]. split; [exact Ha|].
  intros request now. apply scorm_api_answer_related. exact Ha.
Qed.

Lemma scorm_api_session_changes_no_answer_witness :
  snd (scorm_api (SampleApi.call "LMSGetValue" [VStr "cmi.core.score.raw"]) 502
         (scorm_api_calls
            [ (SampleApi.call "LMSSetValue" [VStr "cmi.core.score.raw"; VStr "85"], 500);
              (SampleApi.call "LMSCommit" [], 501) ]
            SampleDb.one_row))
  = ApiJson (JsonValue "10.0").
Proof.
  refine (eq_trans
            (proj2 (proj2 (proj2
               (scorm_api_session_changes_no_answer _ SampleDb.one_row _))) _ _) _).
  - constructor; [intros [] | constructor].
  - vm_compute. reflexivity.
Defined.

Lemma get_attempt_own (a : ScormAttempt.t) (u : User.t) (db : Db.t) :
  List.NoDup (map ScormAttempt.id (Db.attempts db)) ->
  In a (Db.attempts db) ->
  User.id (ScormAttempt.user a) = User.id u ->
  get_attempt (ScormAttempt.id a) u db = Ok a.
Proof.
  intros Hnd Hin Huser. unfold get_attempt.
  set (p := fun x => (ScormAttempt.id x =? ScormAttempt.id a)
                     && (User.id (ScormAttempt.user x) =? User.id u)).
  assert (Hfilter : List.filter p (Db.attempts db) = [a]).
  { induction (Db.attempts db) as [|x l IH]; [contradiction|].
    cbn [map] in Hnd. inversion Hnd as [|? ? Hnotin Hnd']; subst.
    assert (Hrest : forall y, In y l -> ScormAttempt.id y <> ScormAttempt.id x).
    { intros y Hy E. apply Hnotin. rewrite <- E. apply in_map. exact Hy. }
    cbn [List.filter]. destruct Hin as [-> | Hin].
    - assert (Hp : p a = true).
      { unfold p. rewrite Z.eqb_refl, Huser, Z.eqb_refl. reflexivity. }
      rewrite Hp. f_equal.
      clear IH Hnd Hnd' Hnotin. induction l as [|y l IHl]; [reflexivity|].
      cbn [List.filter]. unfold p at 1.
      destruct (Z.eqb_spec (ScormAttempt.id y) (ScormAttempt.id a)) as [E | _].
      + exfalso. exact (Hrest y (or_introl eq_refl) E).
      + cbn [andb]. apply IHl. intros z Hz. apply Hrest. right. exact Hz.
    - assert (Hp : p x = false).
      { unfold p. destruct (Z.eqb_spec (ScormAttempt.id x) (ScormAttempt.id a)) as [E | _];
          [|reflexivity].
        exfalso. exact (Hrest a Hin (eq_sym E)). }
      rewrite Hp. apply IH; assumption. }
  rewrite Hfilter. reflexivity.
Qed.

(** X4. With unique attempt keys, [LMSCommit] on an attempt of the caller's
    answers success and only resets the row's [last_accessed] to the time
    of the call; [LMSFinish] also sets its [completed_at] to that time.
    Neither touches the lesson status, the score or another row. *)
Theorem scorm_api_commit_and_finish (a : ScormAttempt.t) (u : User.t)
    (parameters : parameters) (now : Z) (db : Db.t) :
  List.NoDup (map ScormAttempt.id (Db.attempts db)) ->
  In a (Db.attempts db) ->
  ScormAttempt.id a <> 0 ->
  User.is_authenticated u = true ->
  User.id (ScormAttempt.user a) = User.id u ->
  let call method :=
    {| api_user := u; http_method := "POST";
       api_body := BodyObject {| api_method := VStr method;
                                 api_parameters := parameters;
                                 api_attempt_id := KeyInt (ScormAttempt.id a) |} |} in
  let stored row :=
    Db.with_attempts
      (map (fun x => if ScormAttempt.id x =? ScormAttempt.id a then row else x)
           (Db.attempts db)) db in
  scorm_api (call "LMSCommit") now db
  = (stored (ScormAttempt.with_last_accessed now a), ApiJson (JsonSuccess true))
  /\ scorm_api (call "LMSFinish") now db
     = (stored (ScormAttempt.with_last_accessed now (with_completed_at (Some now) a)),
        ApiJson (JsonSuccess true)).
Proof.
  intros Hnd Hin Hid Hauth Huser call stored. unfold scorm_api, call.
  cbn [api_user http_method api_body decoded_object]. rewrite Hauth.
  cbn [negb]. change ("POST" == "POST") with true. cbv iota.
  unfold sbind, eval, scorm_api_try. cbn [api_attempt_id lookup_value].
  destruct (Z.eqb_spec (ScormAttempt.id a) 0) as [E | _]; [contradiction|].
  unfold find_attempt. cbn [rbind].
  rewrite (get_attempt_own a u db Hnd Hin Huser).
  unfold scorm_api_dispatch. cbn [api_method py_str_eq].
  change ("LMSCommit" == "LMSGetValue") with false.
  change ("LMSCommit" == "LMSSetValue") with false.
  change ("LMSCommit" == "LMSCommit") with true.
  change ("LMSFinish" == "LMSGetValue") with false.
  change ("LMSFinish" == "LMSSetValue") with false.
  change ("LMSFinish" == "LMSCommit") with false.
  change ("LMSFinish" == "LMSFinish") with true.
  cbv iota. unfold sbind, sret.
  rewrite (save_attempt_replaces now a a db Hnd Hin eq_refl).
  rewrite (save_attempt_replaces now a (with_completed_at (Some now) a) db Hnd Hin eq_refl).
  split; reflexivity.
Qed.

Lemma scorm_api_commit_and_finish_witness :
  Db.attempts
    (fst (scorm_api (SampleApi.call "LMSFinish" []) 500 SampleDb.one_row))
  = [ScormAttempt.with_last_accessed 500
       (with_completed_at (Some 500) Sample.passed_low_score)].
Proof.
  refine (eq_trans
            (f_equal (fun r => Db.attempts (fst r))
               (proj2 (scorm_api_commit_and_finish Sample.passed_low_score Sample.learner
                         (ParamArray []) 500 SampleDb.one_row _ _ _ _ _))) _).
  - constructor; [intros [] | constructor].
  - left. reflexivity.
  - discriminate.
  - reflexivity.
  - reflexivity.
  - reflexivity.
Defined.

(** ** The bridge: what a set can change *)

Lemma set_scorm_value_effect (a : ScormAttempt.t) (element : string) (value : pyval) :
  set_effect a element (fst (set_scorm_value a element value)).
Proof.
  unfold set_scorm_value, stry, set_scorm_value_body.
  repeat match goal with
         | |- context [element == ?name] =>
             destruct (String.eqb_spec element name) as [-> | _];
             [cbn [String.eqb Ascii.eqb Bool.eqb];
              unfold set_float, stry, sbind, eval, assign, sret;
              repeat match goal with
                     | |- context [py_in_str_keys value ?keys] =>
                         destruct (py_in_str_keys value keys) as [[status|]|e0] eqn:Hkeys
                     | |- context [py_float value] =>
                         destruct (py_float value) as [f|e0]
                     | |- context [is_ValueError ?e] => destruct (is_ValueError e)
                     | |- context [is_Exception ?e] => destruct (is_Exception e)
                     end;
              cbn [fst]; try solve [constructor] |]
         end.
  - constructor. destruct value; try discriminate.
    cbn [py_in_str_keys] in Hkeys.
    destruct (existsb (String.eqb s) ScormAttempt.STATUS_CHOICES) eqn:E; [|discriminate].
    injection Hkeys as <-. apply existsb_eqb_In. exact E.
  - repeat (destruct (String.prefix _ _); [constructor|]). constructor.
Qed.

(** X5. A call of [set_scorm_value] writes at most the field its element
    names: the attempt's key, package, learner and time stamps stay, and
    [get_scorm_value] of every other element returns what it returned
    before, whatever the value and whether the call succeeded. *)
Theorem set_scorm_value_frame (a : ScormAttempt.t) (element : string) (value : pyval) :
  let a' := fst (set_scorm_value a element value) in
  ScormAttempt.id a' = ScormAttempt.id a
  /\ ScormAttempt.package a' = ScormAttempt.package a
  /\ ScormAttempt.user a' = ScormAttempt.user a
  /\ ScormAttempt.started_at a' = ScormAttempt.started_at a
  /\ ScormAttempt.last_accessed a' = ScormAttempt.last_accessed a
  /\ ScormAttempt.completed_at a' = ScormAttempt.completed_at a
  /\ forall other, other <> element -> get_scorm_value a' other = get_scorm_value a other.
Proof.
  intros a'. subst a'.
  generalize (set_scorm_value_effect a element value).
  generalize (fst (set_scorm_value a element value)). intros a' Heffect.
  do 6 (split; [destruct Heffect; reflexivity|]).
  intros other Hother.
  destruct Heffect; try reflexivity; unfold get_scorm_value;
    repeat match goal with
           | |- context [other == ?name] =>
               destruct (String.eqb_spec other name) as [-> | _];
               [first [reflexivity | congruence]|]
           end; reflexivity.
Qed.

Lemma set_scorm_value_frame_witness :
  get_scorm_value
    (fst (set_scorm_value Sample.passed_low_score "cmi.core.score.max" (VStr "50")))
    "cmi.core.score.raw"
  = "10.0".
Proof.
  refine (eq_trans
            (proj2 (proj2 (proj2 (proj2 (proj2 (proj2
               (set_scorm_value_frame Sample.passed_low_score "cmi.core.score.max"
                  (VStr "50")))))))
               "cmi.core.score.raw" _) _).
  - discriminate.
  - vm_compute. reflexivity.
Defined.

Lemma length_str_prefix (n : nat) (s : string) : (String.length (str_prefix n s) <= n)%nat.
Proof.
  unfold str_prefix. revert s. induction n as [|n IH]; intros [|c s]; cbn; try lia.
  specialize (IH s). lia.
Qed.

(** X6. The bridge keeps the attempt within its columns: if the lesson
    status, the lesson location and the exit mode fit their 20, 255 and 20
    characters, they still do after any call of [set_scorm_value]. *)
Theorem set_scorm_value_fits_columns (a : ScormAttempt.t) (element : string)
    (value : pyval) :
  fits_columns a -> fits_columns (fst (set_scorm_value a element value)).
Proof.
  intros (Hstatus & Hlocation & Hexit).
  generalize (set_scorm_value_effect a element value).
  generalize (fst (set_scorm_value a element value)). intros a' Heffect.
  destruct Heffect as [| status Hin | | | | text | text |]; unfold fits_columns;
    cbn [ScormAttempt.with_lesson_status ScormAttempt.with_score_raw
         ScormAttempt.with_score_min ScormAttempt.with_score_max
         ScormAttempt.with_lesson_location ScormAttempt.with_exit_mode
         ScormAttempt.with_suspend_data ScormAttempt.lesson_status
         ScormAttempt.lesson_location ScormAttempt.exit_mode];
    try (split; [exact Hstatus | split; [exact Hlocation | exact Hexit]]).
  - split; [|split; [exact Hlocation | exact Hexit]].
    cbn in Hin. decompose [or] Hin; subst; cbn; lia.
  - split; [exact Hstatus | split; [apply length_str_prefix | exact Hexit]].
  - split; [exact Hstatus | split; [exact Hlocation | apply length_str_prefix]].
Qed.

Lemma set_scorm_value_fits_columns_witness :
  fits_columns
    (fst (set_scorm_value Sample.passed_low_score "cmi.core.exit"
            (VStr "suspend-and-come-back-later"))).
Proof.
  apply set_scorm_value_fits_columns. unfold fits_columns. cbn. lia.
Defined.

(** ** Launching: who gets in, and what a launch writes *)

Lemma attempts_of_In (package : ScormPackage.t) (u : User.t) (db : Db.t)
    (a : ScormAttempt.t) :
  In a (attempts_of package u db) ->
  In a (Db.attempts db)
  /\ ScormPackage.id (ScormAttempt.package a) = ScormPackage.id package
  /\ User.id (ScormAttempt.user a) = User.id u.
Proof.
  unfold attempts_of. intros Hin.
  apply (Permutation_in _ (order_by_desc_perm _ _)) in Hin.
  apply filter_In in Hin. destruct Hin as [Hin Htest].
  apply andb_prop in Htest. destruct Htest as [Hp Hu].
  split; [exact Hin|]. split; [apply Z.eqb_eq, Hp | apply Z.eqb_eq, Hu].
Qed.

(** The three outcomes of [get_or_create]: an error with the store as it
    was, a stored [not_attempted] attempt, or a new row appended. *)
Lemma get_or_create_attempt_cases (package : ScormPackage.t) (u : User.t) (now : Z)
    (db : Db.t) :
  (exists e, get_or_create_attempt package u now db = (db, Raise e))
  \/ (exists found,
        get_or_create_attempt package u now db
        = (db, Ok (ScormAttempt.loaded found, false))
        /\ In found (attempts_of package u db)
        /\ ScormAttempt.lesson_status found = "not_attempted")
  \/ (exists row : ScormAttempt.instance,
        get_or_create_attempt package u now db
        = ({| Db.packages := Db.packages db;
              Db.attempts := Db.attempts db ++ [ScormAttempt.row row];
              Db.enrollments := Db.enrollments db;
              Db.next_attempt_id := Db.next_attempt_id db + 1 |}, Ok (row, true))
        /\ ScormAttempt.id row = Db.next_attempt_id db
        /\ ScormAttempt.package row = package
        /\ ScormAttempt.user row = u
        /\ ScormAttempt.started_at row = now
        /\ ScormAttempt.lesson_status row = "incomplete"
        /\ ScormAttempt.score_raw row = None
        /\ ScormAttempt.completed_at row = None).
Proof.
  remember (get_or_create_attempt package u now db) as outcome eqn:E.
  unfold get_or_create_attempt in E.
  destruct (List.filter (fun a => ScormAttempt.lesson_status a == "not_attempted")
              (attempts_of package u db)) as [|found [|second rest]] eqn:Hlookup;
    unfold stry at 1 in E; unfold sbind at 1 in E; rewrite Hlookup in E;
    cbn [objects_get is_DoesNotExist] in E.
  - unfold stry at 1 in E. unfold sbind at 1 in E. unfold create_attempt in E.
    destruct (existsb (fun a => ScormAttempt.started_at a =? now)
                (attempts_of package u db)).
    + cbn [is_IntegrityError] in E. unfold stry, sbind in E. rewrite Hlookup in E.
      cbn [objects_get is_DoesNotExist] in E. left. eexists. exact E.
    + right. right. unfold sret in E. cbv beta iota in E.
      match type of E with
      | _ = (_, Ok (?created, true)) => exists created
      end.
      split; [exact E|]. cbn. repeat split.
  - right. left. exists found. split; [exact E|].
    assert (Hin : In found (List.filter
                              (fun a => ScormAttempt.lesson_status a == "not_attempted")
                              (attempts_of package u db))).
    { rewrite Hlookup. left. reflexivity. }
    apply filter_In in Hin. destruct Hin as [Hin Hstatus].
    split; [exact Hin | apply String.eqb_eq, Hstatus].
  - left. eexists. exact E.
Qed.

(** A launch either leaves the store alone and renders no player, or
    renders the player for a ready package the caller has access to, after
    resuming a stored attempt or appending a new one. *)
Lemma launch_scorm_package_cases (request : Request) (slug : string) (now : Z)
    (db : Db.t) :
  (exists r, launch_scorm_package request slug now db = (db, r)
             /\ forall c, r <> Ok (RenderPlayer c))
  \/ exists package db' c,
       launch_scorm_package request slug now db = (db', Ok (RenderPlayer c))
       /\ User.is_authenticated (user request) = true
       /\ get_ready_package_or_404 slug db = Ok package
       /\ check_permissions (user request) package db = Ok tt
       /\ ctx_package c = package
       /\ ((exists found,
              In found (attempts_of package (user request) db)
              /\ ScormAttempt.lesson_status found = "not_attempted"
              /\ ctx_attempt c
                 = ScormAttempt.loaded (ScormAttempt.with_last_accessed now found)
              /\ db' = Db.with_attempts
                         (map (fun a => if ScormAttempt.id a =? ScormAttempt.id found
                                        then ScormAttempt.with_last_accessed now found
                                        else a)
                              (Db.attempts db)) db)
           \/ (db' = {| Db.packages := Db.packages db;
                        Db.attempts := Db.attempts db ++ [ScormAttempt.row (ctx_attempt c)];
                        Db.enrollments := Db.enrollments db;
                        Db.next_attempt_id := Db.next_attempt_id db + 1 |}
               /\ ScormAttempt.id (ctx_attempt c) = Db.next_attempt_id db
               /\ ScormAttempt.package (ctx_attempt c) = package
               /\ ScormAttempt.user (ctx_attempt c) = user request
               /\ ScormAttempt.started_at (ctx_attempt c) = now
               /\ ScormAttempt.lesson_status (ctx_attempt c) = "incomplete"
               /\ ScormAttempt.score_raw (ctx_attempt c) = None
               /\ ScormAttempt.completed_at (ctx_attempt c) = None)).
Proof.
  remember (launch_scorm_package request slug now db) as outcome eqn:E.
  unfold launch_scorm_package in E.
  destruct (User.is_authenticated (user request)) eqn:Hauth; cbn [negb] in E;
    [|left; eexists; split; [exact E | discriminate]].
  unfold sbind at 1 in E.
  destruct (get_ready_package_or_404 slug db) as [package | e] eqn:Hpackage;
    [|left; eexists; split; [exact E | discriminate]].
  unfold sbind at 1 in E.
  destruct (check_permissions (user request) package db) as [[] | e] eqn:Hperm;
    [|left; eexists; split; [exact E | discriminate]].
  unfold sbind at 1 in E.
  destruct (match attempts_of package (user request) db with
            | latest_attempt :: _ =>
                negb (ScormPackage.allow_multiple_attempts package)
                && is_terminal (ScormAttempt.lesson_status latest_attempt)
            | [] => false
            end);
    [left; eexists; split; [exact E | discriminate]|].
  unfold sbind at 1 in E.
  destruct (get_or_create_attempt_cases package (user request) now db)
    as [[e H] | [(found & H & Hin & Hstatus) | (row & H & Hrow)]];
    rewrite H in E.
  - left. eexists. split; [exact E | discriminate].
  - right. unfold sbind at 1 in E.
    assert (Hstored : existsb (fun a => ScormAttempt.id a =? ScormAttempt.id found)
                        (Db.attempts db) = true).
    { apply existsb_exists. exists found.
      split; [exact (proj1 (attempts_of_In _ _ _ _ Hin)) | apply Z.eqb_refl]. }
    unfold sbind at 1 in E. unfold save_attempt in E.
    cbn [ScormAttempt.loaded ScormAttempt.row ScormAttempt.with_last_accessed
         ScormAttempt.id] in E.
    rewrite Hstored in E. unfold sret at 1 in E.
    exists package. do 2 eexists. split; [exact E|].
    split; [reflexivity|]. split; [reflexivity|]. split; [exact Hperm|].
    split; [reflexivity|]. left. exists found.
    split; [exact Hin|]. split; [exact Hstatus|]. split; reflexivity.
  - right. unfold sret at 1 in E. unfold sbind at 1 in E.
    exists package. do 2 eexists. split; [exact E|].
    split; [reflexivity|]. split; [reflexivity|]. split; [exact Hperm|].
    split; [reflexivity|]. right. split; [reflexivity|]. exact Hrow.
Qed.

Lemma get_ready_package_found (slug : string) (db : Db.t) (package : ScormPackage.t) :
  get_ready_package_or_404 slug db = Ok package ->
  In package (Db.packages db)
  /\ ScormPackage.slug package = slug
  /\ ScormPackage.status package = "ready".
Proof.
  unfold get_ready_package_or_404, try_except. intros H.
  set (p := fun q => (ScormPackage.slug q == slug) && (ScormPackage.status q == "ready"))
    in H.
  assert (Hin : In package (List.filter p (Db.packages db))).
  { destruct (List.filter p (Db.packages db)) as [|x [|y l]]; cbn in H;
      try discriminate.
    injection H as <-. left. reflexivity. }
  apply filter_In in Hin. destruct Hin as [Hin Htest].
  apply andb_prop in Htest. destruct Htest as [Hslug Hstatus].
  split; [exact Hin|]. split; [apply String.eqb_eq, Hslug | apply String.eqb_eq, Hstatus].
Qed.

Lemma check_permissions_granted (u : User.t) (package : ScormPackage.t) (db : Db.t) :
  check_permissions u package db = Ok tt -> may_launch u package db.
Proof.
  unfold check_permissions, may_launch.
  destruct (User.is_superuser u); [left; reflexivity|].
  destruct (User.is_staff u); [right; left; reflexivity|]. cbn [orb negb].
  destruct (User.is_student u); [|discriminate].
  destruct (mem_Z (ScormPackage.course package) (enrolled_courses u db)) eqn:Hmem;
    [|discriminate].
  intros _. right. right. split; [reflexivity|].
  unfold mem_Z in Hmem. apply existsb_exists in Hmem. destruct Hmem as (c & Hc & Heq).
  apply Z.eqb_eq in Heq. subst c. unfold enrolled_courses in Hc.
  apply in_map_iff in Hc. destruct Hc as ([student course] & Hsnd & Hrow).
  apply filter_In in Hrow. destruct Hrow as [Hrow Hfst].
  cbn [fst snd] in Hsnd, Hfst. apply Z.eqb_eq in Hfst. subst. exact Hrow.
Qed.

(** X7. The player is rendered only for a logged-in caller, for a package
    of the store that has the requested slug and is ready, and only if the
    caller is a superuser, is staff, or is a student enrolled in the
    package's course.  A launch that renders no player writes nothing. *)
Theorem launch_renders_only_with_access (request : Request) (slug : string) (now : Z)
    (db : Db.t) :
  (forall c,
     snd (launch_scorm_package request slug now db) = Ok (RenderPlayer c) ->
     User.is_authenticated (user request) = true
     /\ In (ctx_package c) (Db.packages db)
     /\ ScormPackage.slug (ctx_package c) = slug
     /\ ScormPackage.status (ctx_package c) = "ready"
     /\ may_launch (user request) (ctx_package c) db)
  /\ ((forall c, snd (launch_scorm_package request slug now db) <> Ok (RenderPlayer c)) ->
      fst (launch_scorm_package request slug now db) = db).
Proof.
  destruct (launch_scorm_package_cases request slug now db)
    as [(r & -> & Hno) | (package & db' & c' & -> & Hauth & Hpackage & Hperm & Hctx & _)];
    cbn [fst snd].
  - split; [|reflexivity]. intros c Hr. exfalso. exact (Hno c Hr).
  - split.
    + intros c Hc. injection Hc as <-. rewrite Hctx.
      destruct (get_ready_package_found slug db package Hpackage) as (Hin & Hslug & Hready).
      split; [exact Hauth|]. split; [exact Hin|]. split; [exact Hslug|].
      split; [exact Hready|]. apply check_permissions_granted. exact Hperm.
    + intros Hno. exfalso. exact (Hno c' eq_refl).
Qed.

Lemma launch_renders_only_with_access_witness :
  fst (launch_scorm_package {| user := SampleApi.stranger |} "intro" 1000
         (SampleDb.fresh true))
  = SampleDb.fresh true.
Proof.
  apply (proj2 (launch_renders_only_with_access {| user := SampleApi.stranger |} "intro"
                  1000 (SampleDb.fresh true))).
  intros c. vm_compute. discriminate.
Defined.

Lemma map_id_replace_row (l : list ScormAttempt.t) (k : Z) (row : ScormAttempt.t) :
  ScormAttempt.id row = k ->
  map ScormAttempt.id (map (fun a => if ScormAttempt.id a =? k then row else a) l)
  = map ScormAttempt.id l.
Proof.
  intros Hrow. rewrite map_map. apply map_ext. intros a.
  destruct (Z.eqb_spec (ScormAttempt.id a) k) as [-> | _]; [exact Hrow | reflexivity].
Qed.

Lemma well_keyed_same_keys (db db' : Db.t) :
  map ScormAttempt.id (Db.attempts db') = map ScormAttempt.id (Db.attempts db) ->
  Db.next_attempt_id db' = Db.next_attempt_id db ->
  well_keyed db -> well_keyed db'.
Proof.
  intros Hids Hnext [Hnd Hbelow]. split; [rewrite Hids; exact Hnd|].
  intros a Ha. apply (in_map ScormAttempt.id) in Ha. rewrite Hids in Ha.
  apply in_map_iff in Ha. destruct Ha as (b & Hb & Hin).
  rewrite <- Hb, Hnext. apply Hbelow. exact Hin.
Qed.

Lemma well_keyed_append (db : Db.t) (row : ScormAttempt.t) :
  ScormAttempt.id row = Db.next_attempt_id db ->
  well_keyed db ->
  well_keyed {| Db.packages := Db.packages db;
                Db.attempts := Db.attempts db ++ [row];
                Db.enrollments := Db.enrollments db;
                Db.next_attempt_id := Db.next_attempt_id db + 1 |}.
Proof.
  intros Hrow [Hnd Hbelow]. split; cbn [Db.attempts Db.next_attempt_id].
  - rewrite map_app. cbn [map]. apply List.NoDup_app; [exact Hnd | | ].
    + constructor; [intros [] | constructor].
    + intros k Hk [<- | []]. apply in_map_iff in Hk. destruct Hk as (b & Hb & Hin).
      specialize (Hbelow b Hin). lia.
  - intros a Ha. apply in_app_or in Ha. destruct Ha as [Ha | [<- | []]].
    + specialize (Hbelow a Ha). lia.
    + lia.
Qed.

Lemma save_attempt_next_id (now : Z) (a : ScormAttempt.t) (db : Db.t) :
  Db.next_attempt_id (fst (save_attempt now a db)) = Db.next_attempt_id db.
Proof.
  unfold save_attempt. repeat (destruct (existsb _ _); [reflexivity|]). reflexivity.
Qed.

Lemma scorm_api_next_id (request : ApiRequest) (now : Z) (db : Db.t) :
  Db.next_attempt_id (fst (scorm_api request now db)) = Db.next_attempt_id db.
Proof.
  destruct (scorm_api_reaches_dispatch request now db)
    as [-> | (data & attempt & _ & _ & _ & ->)]; [reflexivity|].
  destruct (scorm_api_dispatch_writes data attempt now db)
    as [-> | [[_ ->] | [_ ->]]]; [reflexivity | |]; apply save_attempt_next_id.
Qed.

(** X8. Unique attempt keys, all below the next key to hand out, are an
    invariant of the store under both writing views: a launch and a
    runtime call each keep it. *)
Theorem views_keep_keys_unique (db : Db.t) :
  well_keyed db ->
  (forall request slug now, well_keyed (fst (launch_scorm_package request slug now db)))
  /\ (forall request now, well_keyed (fst (scorm_api request now db))).
Proof.
  intros Hwf. split.
  - intros request slug now.
    destruct (launch_scorm_package_cases request slug now db)
      as [(r & -> & _) | (package & db' & c & -> & _ & _ & _ & _ & Hwrite)];
      cbn [fst]; [exact Hwf|].
    destruct Hwrite as [(found & _ & _ & _ & ->) | (-> & Hid & _)].
    + apply (well_keyed_same_keys db); [|reflexivity | exact Hwf].
      cbn [Db.with_attempts Db.attempts]. apply map_id_replace_row. reflexivity.
    + apply well_keyed_append; assumption.
  - intros request now.
    apply (well_keyed_same_keys db); [|apply scorm_api_next_id | exact Hwf].
    destruct (scorm_api_frame request now db (proj1 Hwf)) as (_ & _ & Hsame).
    apply (f_equal (map ScormAttempt.id)) in Hsame.
    rewrite !map_map in Hsame. exact Hsame.
Qed.

Lemma views_keep_keys_unique_witness :
  well_keyed (fst (launch_scorm_package SampleDb.request "intro" 1000 SampleDb.one_row)).
Proof.
  refine (proj1 (views_keep_keys_unique SampleDb.one_row _) _ _ _).
  split.
  - constructor; [intros [] | constructor].
  - intros a [<- | []]. reflexivity.
Defined.

(** X9. With unique attempt keys, a launch leaves the packages and the
    enrolments alone, changes no stored attempt beyond its [last_accessed]
    time, and adds at most one attempt: the caller's own, on a package of
    the requested slug, started at the time of the launch, [incomplete],
    without score or completion time. *)
Theorem launch_write_footprint (request : Request) (slug : string) (now : Z) (db : Db.t) :
  List.NoDup (map ScormAttempt.id (Db.attempts db)) ->
  let db' := fst (launch_scorm_package request slug now db) in
  Db.packages db' = Db.packages db
  /\ Db.enrollments db' = Db.enrollments db
  /\ exists added,
       map (ScormAttempt.with_last_accessed 0) (Db.attempts db')
       = map (ScormAttempt.with_last_accessed 0) (Db.attempts db ++ added)
       /\ (length added <= 1)%nat
       /\ forall row,
            In row added ->
            ScormAttempt.user row = user request
            /\ ScormPackage.slug (ScormAttempt.package row) = slug
            /\ ScormAttempt.started_at row = now
            /\ ScormAttempt.lesson_status row = "incomplete"
            /\ ScormAttempt.score_raw row = None
            /\ ScormAttempt.completed_at row = None.
Proof.
  intros Hnd db'. subst db'.
  destruct (launch_scorm_package_cases request slug now db)
    as [(r & -> & _) | (package & db' & c & -> & _ & Hpackage & _ & _ & Hwrite)];
    cbn [fst].
  - split; [reflexivity|]. split; [reflexivity|]. exists [].
    split; [rewrite app_nil_r; reflexivity|]. split; [cbn; lia|]. intros row [].
  - destruct Hwrite as [(found & Hin & _ & _ & ->)
                       | (-> & _ & Hpkg & Huser & Hstart & Hstatus & Hraw & Hdone)].
    + split; [reflexivity|]. split; [reflexivity|]. exists [].
      split; [|split; [cbn; lia | intros row []]].
      rewrite app_nil_r. cbn [Db.with_attempts Db.attempts].
      apply map_replace_row;
        [exact Hnd | exact (proj1 (attempts_of_In _ _ _ _ Hin)) | reflexivity].
    + split; [reflexivity|]. split; [reflexivity|]. exists [ScormAttempt.row (ctx_attempt c)].
      split; [reflexivity|]. split; [cbn; lia|].
      intros row [<- | []]. rewrite Hpkg.
      destruct (get_ready_package_found slug db package Hpackage) as (_ & Hslug & _).
      split; [exact Huser|]. split; [exact Hslug|]. split; [exact Hstart|].
      split; [exact Hstatus|]. split; [exact Hraw | exact Hdone].
Qed.

Lemma launch_write_footprint_witness :
  Db.packages (fst (launch_scorm_package SampleDb.request "intro" 1000 SampleDb.one_row))
  = Db.packages SampleDb.one_row.
Proof.
  refine (proj1 (launch_write_footprint SampleDb.request "intro" 1000 SampleDb.one_row _)).
  constructor; [intros [] | constructor].
Defined.

(** ** The progress page: one entry per attempted package *)

Lemma dict_update_keys (k : Z) (f : ProgressEntry -> ProgressEntry) (d : progress_dict) :
  map fst (dict_update k f d) = map fst d.
Proof.
  induction d as [|[k0 e0] d IH]; cbn [dict_update map]; [reflexivity|].
  destruct (k0 =? k); cbn [map fst]; [reflexivity | rewrite IH; reflexivity].
Qed.

Lemma dict_get_None (k : Z) (d : progress_dict) :
  dict_get k d = None <-> ~ In k (map fst d).
Proof.
  induction d as [|[k0 e0] d IH]; cbn [dict_get map fst In]; [tauto|].
  destruct (Z.eqb_spec k0 k) as [-> | Hne].
  - split; [discriminate | intros H; exfalso; apply H; left; reflexivity].
  - rewrite IH. tauto.
Qed.

Lemma dict_get_In (k : Z) (e : ProgressEntry) (d : progress_dict) :
  List.NoDup (map fst d) -> In (k, e) d -> dict_get k d = Some e.
Proof.
  induction d as [|[k0 e0] d IH]; cbn [dict_get map fst In]; [contradiction|].
  intros Hnd [Heq | Hin]; inversion Hnd as [|? ? Hnotin Hnd']; subst.
  - injection Heq as -> ->. rewrite Z.eqb_refl. reflexivity.
  - destruct (Z.eqb_spec k0 k) as [-> | _]; [|apply IH; assumption].
    exfalso. apply Hnotin. apply (in_map fst) in Hin. exact Hin.
Qed.

(** An iteration adds the key of the attempt's package unless it is there. *)
Lemma progress_step_keys (d : progress_dict) (a : ScormAttempt.t) :
  map fst (progress_step d a)
  = map fst d ++ match dict_get (ScormPackage.id (ScormAttempt.package a)) d with
                 | None => [ScormPackage.id (ScormAttempt.package a)]
                 | Some _ => []
                 end.
Proof.
  unfold progress_step.
  set (k := ScormPackage.id (ScormAttempt.package a)).
  assert (Hkeys : forall d' : progress_dict,
             map fst
               (match ScormAttempt.score_raw a, dict_get k d' with
                | Some raw, Some e =>
                    if PyFloat.truthy raw && py_gt (PFloat raw) (best_score e)
                    then dict_update k
                           (fun e => {| pe_package := pe_package e;
                                        latest_attempt := latest_attempt e;
                                        total_attempts := total_attempts e;
                                        best_score := PFloat raw |}) d'
                    else d'
                | _, _ => d'
                end) = map fst d').
  { intros d'. destruct (ScormAttempt.score_raw a) as [raw|]; [|reflexivity].
    destruct (dict_get k d') as [e|]; [|reflexivity].
    destruct (PyFloat.truthy raw && py_gt (PFloat raw) (best_score e)); [|reflexivity].
    apply dict_update_keys. }
  rewrite Hkeys, dict_update_keys.
  destruct (dict_get k d); [rewrite app_nil_r; reflexivity|].
  rewrite map_app. reflexivity.
Qed.

Lemma progress_fold_keys (l : list ScormAttempt.t) (d : progress_dict) :
  List.NoDup (map fst d) -> List.NoDup (map fst (fold_left progress_step l d)).
Proof.
  revert d. induction l as [|a l IH]; intros d Hnd; cbn [fold_left]; [exact Hnd|].
  apply IH. rewrite progress_step_keys.
  destruct (dict_get (ScormPackage.id (ScormAttempt.package a)) d) eqn:Hget;
    [rewrite app_nil_r; exact Hnd|].
  apply List.NoDup_app; [exact Hnd | constructor; [intros [] | constructor] |].
  intros k Hk [<- | []]. apply dict_get_None in Hget. contradiction.
Qed.

(** Later iterations keep an entry's package and latest attempt. *)
Lemma entry_fold_latest (rows : list ScormAttempt.t) (e0 : ProgressEntry) :
  exists e,
    fold_left (fun o a => Some (entry_step o a)) rows (Some e0) = Some e
    /\ latest_attempt e = latest_attempt e0
    /\ pe_package e = pe_package e0.
Proof.
  revert e0. induction rows as [|a rows IH]; intros e0; cbn [fold_left].
  - exists e0. split; [reflexivity|]. split; reflexivity.
  - destruct (IH (entry_step (Some e0) a)) as (e & He & Hlatest & Hpackage).
    exists e. split; [exact He|]. split; [exact Hlatest | exact Hpackage].
Qed.

Lemma filter_newest_first {A} (key : A -> Z) (p : A -> bool) (l : list A) :
  newest_first key l -> newest_first key (List.filter p l).
Proof.
  induction l as [|x l IH]; cbn [newest_first List.filter]; [trivial|].
  intros [Hx Hl]. destruct (p x); [|apply IH; exact Hl].
  cbn [newest_first]. split; [|apply IH; exact Hl].
  intros y Hy. apply Hx. apply filter_In in Hy. exact (proj1 Hy).
Qed.

Lemma progress_entry_rows (u : User.t) (db : Db.t) (k : Z) :
  match List.filter (fun a => ScormPackage.id (ScormAttempt.package a) =? k)
                    (user_attempts u db) with
  | [] => dict_get k (progress_by_package u db) = None
  | newest :: _ =>
      exists e, dict_get k (progress_by_package u db) = Some e
                /\ latest_attempt e = newest
                /\ pe_package e = ScormAttempt.package newest
  end.
Proof.
  unfold progress_by_package. rewrite progress_fold_get. cbn [dict_get].
  destruct (List.filter _ (user_attempts u db)) as [|newest rows]; [reflexivity|].
  cbn [fold_left].
  destruct (entry_fold_latest rows (entry_step None newest)) as (e & He & Hlatest & Hpkg).
  exists e. split; [exact He|]. split; [exact Hlatest | exact Hpkg].
Qed.

Lemma progress_entry_latest (u : User.t) (db : Db.t) (k : Z) (e : ProgressEntry) :
  dict_get k (progress_by_package u db) = Some e ->
  pe_package e = ScormAttempt.package (latest_attempt e)
  /\ ScormPackage.id (pe_package e) = k
  /\ In (latest_attempt e) (attempts_on u k db)
  /\ forall a, In a (attempts_on u k db) ->
               ScormAttempt.started_at a <= ScormAttempt.started_at (latest_attempt e).
Proof.
  intros Hget. pose proof (progress_entry_rows u db k) as Hrows.
  pose proof (loop_rows_perm u db k) as Hperm.
  assert (Hsorted : newest_first ScormAttempt.started_at
                      (List.filter (fun a => ScormPackage.id (ScormAttempt.package a) =? k)
                                   (user_attempts u db))).
  { apply filter_newest_first. unfold user_attempts. apply order_by_desc_newest_first. }
  destruct (List.filter (fun a => ScormPackage.id (ScormAttempt.package a) =? k)
                        (user_attempts u db)) as [|newest rows] eqn:Hfilter.
  - rewrite Hrows in Hget. discriminate.
  - destruct Hrows as (e' & He' & Hlatest & Hpkg). rewrite He' in Hget.
    injection Hget as ->. rewrite Hlatest, Hpkg.
    assert (Hnewest : In newest
                        (List.filter
                           (fun a => ScormPackage.id (ScormAttempt.package a) =? k)
                           (user_attempts u db))).
    { rewrite Hfilter. left. reflexivity. }
    apply filter_In in Hnewest. destruct Hnewest as [_ Hk]. apply Z.eqb_eq in Hk.
    split; [reflexivity|]. split; [exact Hk|].
    split; [apply (Permutation_in _ Hperm); left; reflexivity|].
    intros a Ha. apply (Permutation_in _ (Permutation_sym Hperm)) in Ha.
    destruct Ha as [<- | Ha]; [lia|]. exact (proj1 Hsorted a Ha).
Qed.

Lemma progress_key_present (u : User.t) (db : Db.t) (k : Z) :
  In k (map fst (progress_by_package u db)) <-> attempts_on u k db <> [].
Proof.
  pose proof (progress_entry_rows u db k) as Hrows.
  pose proof (loop_rows_perm u db k) as Hperm.
  destruct (List.filter (fun a => ScormPackage.id (ScormAttempt.package a) =? k)
                        (user_attempts u db)) as [|newest rows].
  - apply Permutation_nil in Hperm. rewrite Hperm.
    apply dict_get_None in Hrows. split; [contradiction | intros H; contradiction].
  - destruct Hrows as (e & He & _). split.
    + intros _ Hnil. rewrite Hnil in Hperm.
      apply Permutation_sym, Permutation_nil in Hperm. discriminate.
    + intros _. destruct (in_dec Z.eq_dec k (map fst (progress_by_package u db)))
        as [Hin | Hout]; [exact Hin|].
      apply dict_get_None in Hout. rewrite Hout in He. discriminate.
Qed.

(** X10. The progress page of a logged-in learner lists each package the
    learner has attempted once, and no other; [total_packages] is the
    number of entries; an entry's package is that of its latest attempt,
    which is an attempt of the learner on that package started no earlier
    than any other. *)
Theorem user_scorm_progress_entries (request : Request) (db : Db.t) :
  User.is_authenticated (user request) = true ->
  exists ctx,
    user_scorm_progress request db = RenderProgress ctx
    /\ total_packages ctx = Z.of_nat (length (progress_data ctx))
    /\ List.NoDup (map (fun e => ScormPackage.id (pe_package e)) (progress_data ctx))
    /\ (forall k, In k (map (fun e => ScormPackage.id (pe_package e)) (progress_data ctx))
                  <-> attempts_on (user request) k db <> [])
    /\ forall e,
         In e (progress_data ctx) ->
         pe_package e = ScormAttempt.package (latest_attempt e)
         /\ In (latest_attempt e)
               (attempts_on (user request) (ScormPackage.id (pe_package e)) db)
         /\ forall a,
              In a (attempts_on (user request) (ScormPackage.id (pe_package e)) db) ->
              ScormAttempt.started_at a <= ScormAttempt.started_at (latest_attempt e).
Proof.
  intros Hauth. unfold user_scorm_progress. rewrite Hauth. cbn [negb].
  eexists. split; [reflexivity|]. cbn [total_packages progress_data].
  set (d := progress_by_package (user request) db).
  assert (Hnd : List.NoDup (map fst d)).
  { apply progress_fold_keys. constructor. }
  assert (Hentry : forall k e, In (k, e) d ->
             pe_package e = ScormAttempt.package (latest_attempt e)
             /\ ScormPackage.id (pe_package e) = k
             /\ In (latest_attempt e) (attempts_on (user request) k db)
             /\ forall a, In a (attempts_on (user request) k db) ->
                          ScormAttempt.started_at a
                          <= ScormAttempt.started_at (latest_attempt e)).
  { intros k e Hin. apply progress_entry_latest. apply dict_get_In; assumption. }
  assert (Hkeys : map (fun e => ScormPackage.id (pe_package e)) (map snd d) = map fst d).
  { rewrite map_map. apply map_ext_in. intros [k e] Hin.
    exact (proj1 (proj2 (Hentry k e Hin))). }
  split; [rewrite length_map; reflexivity|].
  split; [rewrite Hkeys; exact Hnd|].
  split; [intros k; rewrite Hkeys; apply progress_key_present|].
  intros e He. apply in_map_iff in He. destruct He as ([k e'] & Heq & Hin).
  cbn [snd] in Heq. subst e'.
  destruct (Hentry k e Hin) as (Hpkg & Hk & Hlatest & Hmax).
  rewrite Hk. split; [exact Hpkg|]. split; [exact Hlatest | exact Hmax].
Qed.

Lemma user_scorm_progress_entries_witness :
  exists ctx,
    user_scorm_progress SampleDb.request SampleDb.completed_then_incomplete
    = RenderProgress ctx
    /\ total_packages ctx = 1.
Proof.
  destruct (user_scorm_progress_entries SampleDb.request
              SampleDb.completed_then_incomplete eq_refl) as (ctx & Hctx & _).
  exists ctx. split; [exact Hctx|].
  apply (f_equal (fun r => match r with
                           | RenderProgress c => total_packages c
                           | _ => 0
                           end)) in Hctx.
  cbn beta iota in Hctx. rewrite <- Hctx. vm_compute. reflexivity.
Defined.

(** ** Ingestion: the manifest pattern *)

Lemma match_prefix_Some (lit s r : list ascii) :
  match_prefix lit s = Some r <-> s = lit ++ r.
Proof.
  revert s. induction lit as [|l lit IH]; intros s; cbn [match_prefix app].
  - split; [intros H; injection H as ->; reflexivity | intros ->; reflexivity].
  - destruct s as [|c s]; [split; discriminate|].
    destruct (Ascii.eqb_spec l c) as [-> | Hne].
    + rewrite IH. split; [intros ->; reflexivity | intros H; injection H as ->; reflexivity].
    + split; [discriminate | intros H; injection H as E _; congruence].
Qed.

Lemma span_spec (p : ascii -> bool) (s a b : list ascii) :
  span p s = (a, b) ->
  s = a ++ b /\ Forall (fun c => p c = true) a
  /\ match b with c :: _ => p c = false | [] => True end.
Proof.
  revert a b. induction s as [|c s IH]; intros a b; cbn [span].
  - intros H. injection H as <- <-. split; [reflexivity|]. split; [constructor | exact I].
  - destruct (p c) eqn:Hc.
    + destruct (span p s) as [a' b']. intros H. injection H as <- <-.
      destruct (IH a' b' eq_refl) as (-> & Ha & Hb).
      split; [reflexivity|]. split; [constructor; assumption | exact Hb].
    + intros H. injection H as <- <-. split; [reflexivity|]. split; [constructor | exact Hc].
Qed.

Lemma span_app (p : ascii -> bool) (a b : list ascii) (c : ascii) :
  Forall (fun x => p x = true) a -> p c = false -> span p (a ++ c :: b) = (a, c :: b).
Proof.
  intros Ha Hc. induction Ha as [|x a Hx Ha IH]; cbn [app span].
  - rewrite Hc. reflexivity.
  - rewrite Hx, IH. reflexivity.
Qed.

Lemma not_quote_test (v : list ascii) :
  Forall (fun c => negb (Ascii.eqb c quote) = true) v <-> Forall (fun c => c <> quote) v.
Proof.
  split; intros H; induction H as [|c v Hc Hv IH]; constructor; try exact IH.
  - destruct (Ascii.eqb_spec c quote); [discriminate | assumption].
  - destruct (Ascii.eqb_spec c quote); [contradiction | reflexivity].
Qed.

Lemma href_group_spec (s v : list ascii) :
  href_group s = Some v
  <-> exists post,
        s = (list_ascii_of_string "href=" ++ [quote]) ++ v ++ quote :: post
        /\ Forall (fun c => c <> quote) v /\ v <> [].
Proof.
  unfold href_group. split.
  - destruct (match_prefix _ s) as [r|] eqn:Hprefix; [|discriminate].
    apply match_prefix_Some in Hprefix.
    destruct (span (fun c => negb (Ascii.eqb c quote)) r) as [a b] eqn:Hspan.
    apply span_spec in Hspan. destruct Hspan as (-> & Ha & Hb).
    destruct a as [|c a]; [discriminate|]. destruct b as [|q post]; [discriminate|].
    intros H. injection H as <-. exists post.
    destruct (Ascii.eqb_spec q quote) as [-> | _]; [|discriminate].
    split; [exact Hprefix|]. split; [apply not_quote_test; exact Ha | discriminate].
  - intros (post & -> & Hv & Hne).
    rewrite (proj2 (match_prefix_Some _ _ (v ++ quote :: post)) eq_refl).
    rewrite span_app; [|apply not_quote_test; exact Hv | reflexivity].
    destruct v; [contradiction | reflexivity].
Qed.

Lemma tag_rest_sound (s v : list ascii) :
  tag_rest s = Some v ->
  exists mid post,
    s = mid ++ (list_ascii_of_string "href=" ++ [quote]) ++ v ++ quote :: post
    /\ Forall (fun c => c <> ">"%char) mid
    /\ Forall (fun c => c <> quote) v /\ v <> [].
Proof.
  assert (Hhere : forall s0, href_group s0 = Some v ->
            exists mid post,
              s0 = mid ++ (list_ascii_of_string "href=" ++ [quote]) ++ v ++ quote :: post
              /\ Forall (fun c => c <> ">"%char) mid
              /\ Forall (fun c => c <> quote) v /\ v <> []).
  { intros s0 H. apply href_group_spec in H. destruct H as (post & -> & Hv & Hne).
    exists [], post. split; [reflexivity|]. split; [constructor | split; assumption]. }
  induction s as [|c r IH]; cbn [tag_rest]; [apply Hhere|].
  destruct (Ascii.eqb_spec c ">") as [-> | Hc]; [apply Hhere|].
  destruct (tag_rest r) as [v'|]; [|apply Hhere].
  intros H. injection H as ->.
  destruct (IH eq_refl) as (mid & post & -> & Hmid & Hv & Hne).
  exists (c :: mid), post. split; [reflexivity|].
  split; [constructor; assumption | split; assumption].
Qed.

Lemma tag_rest_complete (mid rest v : list ascii) :
  Forall (fun c => c <> ">"%char) mid -> href_group rest = Some v ->
  exists v', tag_rest (mid ++ rest) = Some v'.
Proof.
  intros Hmid Hrest.
  assert (Hbase : exists v', tag_rest rest = Some v').
  { destruct rest as [|c r]; cbn [tag_rest]; [exists v; exact Hrest|].
    destruct (if Ascii.eqb c ">" then None else tag_rest r) as [v'|];
      [exists v'; reflexivity | exists v; exact Hrest]. }
  induction Hmid as [|c mid Hc Hmid IH]; [exact Hbase|].
  cbn [app tag_rest]. destruct (Ascii.eqb_spec c ">") as [E | _]; [contradiction|].
  destruct IH as (v' & ->). exists v'. reflexivity.
Qed.

(** X11. The manifest search finds what the pattern describes: a found
    group is the quoted, non-empty, quote-free value of an [href=] that
    follows [<resource] with no [>] in between; and the search fails, so
    that the entry point falls back to [index.html], exactly when the text
    has no such place. *)
Theorem search_resource_href_spec (s : list ascii) :
  (forall v, search_resource_href s = Some v -> matches_resource_href s v)
  /\ (search_resource_href s = None <-> forall v, ~ matches_resource_href s v).
Proof.
  assert (Hsound : forall s0 v, search_resource_href s0 = Some v ->
                                matches_resource_href s0 v).
  { assert (Hat : forall s0 v, resource_href_at s0 = Some v -> matches_resource_href s0 v).
    { intros s0 v. unfold resource_href_at.
      destruct (match_prefix _ s0) as [r|] eqn:Hprefix; [|discriminate].
      apply match_prefix_Some in Hprefix. intros Htag.
      apply tag_rest_sound in Htag. destruct Htag as (mid & post & -> & Hmid & Hv & Hne).
      exists [], mid, post. split; [exact Hprefix|]. split; [exact Hmid | split; assumption]. }
    intros s0 v. induction s0 as [|c r IH]; cbn [search_resource_href].
    - destruct (resource_href_at []) eqn:E; [|discriminate].
      intros H. injection H as <-. apply Hat. exact E.
    - destruct (resource_href_at (c :: r)) eqn:E.
      + intros H. injection H as <-. apply Hat. exact E.
      + intros H. destruct (IH H) as (pre & mid & post & -> & Hrest).
        exists (c :: pre), mid, post. split; [reflexivity | exact Hrest]. }
  assert (Hcomplete : forall v, matches_resource_href s v ->
                                exists v', search_resource_href s = Some v').
  { intros v (pre & mid & post & -> & Hmid & Hv & Hne).
    assert (Hat : exists v', resource_href_at
                               (list_ascii_of_string "<resource" ++ mid
                                  ++ (list_ascii_of_string "href=" ++ [quote])
                                  ++ v ++ quote :: post) = Some v').
    { unfold resource_href_at.
      rewrite (proj2 (match_prefix_Some _ _ _) eq_refl).
      apply (tag_rest_complete mid _ v Hmid). apply href_group_spec.
      exists post. split; [reflexivity | split; assumption]. }
    destruct Hat as (v' & Hat).
    induction pre as [|c pre IH].
    - exists v'. cbn [app]. 
      destruct (list_ascii_of_string "<resource" ++ mid
                  ++ (list_ascii_of_string "href=" ++ [quote]) ++ v ++ quote :: post)
        as [|c r] eqn:E; cbn [search_resource_href]; rewrite Hat; reflexivity.
    - destruct IH as (w & Hw). cbn [app search_resource_href].
      match goal with
      | |- context [resource_href_at (c :: ?t)] =>
          destruct (resource_href_at (c :: t)) as [w'|]
      end; [exists w'; reflexivity | exists w; exact Hw]. }
  split; [exact (Hsound s)|]. split.
  - intros Hnone v Hv. destruct (Hcomplete v Hv) as (v' & Hv'). congruence.
  - intros Hno. destruct (search_resource_href s) as [v|] eqn:E; [|reflexivity].
    exfalso. exact (Hno v (Hsound s v E)).
Qed.

Lemma search_resource_href_spec_witness :
  matches_resource_href (list_ascii_of_string SampleIngest.manifest)
    (list_ascii_of_string "content/start.html").
Proof.
  apply (proj1 (search_resource_href_spec (list_ascii_of_string SampleIngest.manifest))).
  vm_compute. reflexivity.
Defined.

(** ** Ingestion: what extraction writes *)


Section Preserves.

Context {S : Type} (R : S -> S -> Prop).
Hypothesis R_refl : forall s, R s s.
Hypothesis R_trans : forall s1 s2 s3, R s1 s2 -> R s2 s3 -> R s1 s3.




End Preserves.












(** ** Upload validation *)

Lemma lower_length (s : string) : String.length (lower s) = String.length s.
Proof. induction s as [|c r IH]; cbn; [reflexivity | rewrite IH; reflexivity]. Qed.

Lemma lower_substring (n m : nat) (s : string) :
  lower (String.substring n m s) = String.substring n m (lower s).
Proof.
  revert n m. induction s as [|c r IH]; intros [|n] [|m]; cbn; try reflexivity.
  - rewrite IH. reflexivity.
  - apply IH.
  - apply IH.
Qed.

Lemma endswith_lower (s suffix : string) :
  lower suffix = suffix -> endswith s suffix = true -> endswith (lower s) suffix = true.
Proof.
  unfold endswith. intros Hsuffix H. rewrite lower_length.
  apply andb_prop in H. destruct H as [Hlen Heq]. rewrite Hlen. cbn [andb].
  apply String.eqb_eq in Heq. apply String.eqb_eq.
  rewrite <- lower_substring, Heq. exact Hsuffix.
Qed.

(** X14. The form's own check of the uploaded file is implied by the
    model's validator: a file [validate_scorm_package] accepts is returned
    unchanged by [clean_package_file], and it has a name ending in [.zip],
    at most 500 MB, and a member named [imsmanifest.xml]. *)
Theorem validated_file_passes_form_check (file : UploadedFile) :
  validate_scorm_package file = Cleaned tt ->
  clean_package_file (Some file) = Cleaned (Some file)
  /\ endswith (file_name file) ".zip" = true
  /\ file_size file <= 524288000
  /\ exists names, file_namelist file = Some names /\ In "imsmanifest.xml" names.
Proof.
  unfold validate_scorm_package, clean_package_file, max_size.
  destruct (endswith (file_name file) ".zip") eqn:Hzip; [|discriminate]. cbn [negb].
  destruct (Z.gtb_spec (file_size file) (500 * 1024 * 1024)) as [_ | Hsize];
    [discriminate|].
  destruct (file_namelist file) as [names|]; [|discriminate].
  destruct (existsb (String.eqb "imsmanifest.xml") names) eqn:Hmanifest; [|discriminate].
  intros _. rewrite (endswith_lower _ ".zip" eq_refl Hzip). cbn [negb].
  split.
  - destruct (String.eqb (file_name file) ""); reflexivity.
  - split; [reflexivity|]. split; [lia|]. exists names. split; [reflexivity|].
    apply existsb_exists in Hmanifest. destruct Hmanifest as (x & Hx & Heq).
    apply String.eqb_eq in Heq. subst x. exact Hx.
Qed.

Lemma validated_file_passes_form_check_witness :
  clean_package_file
    (Some {| file_name := "intro.zip"; file_size := 2048;
             file_namelist := Some ["index.html"; "imsmanifest.xml"] |})
  = Cleaned (Some {| file_name := "intro.zip"; file_size := 2048;
                     file_namelist := Some ["index.html"; "imsmanifest.xml"] |}).
Proof.
  apply (proj1 (validated_file_passes_form_check
                  {| file_name := "intro.zip"; file_size := 2048;
                     file_namelist := Some ["index.html"; "imsmanifest.xml"] |}
                  eq_refl)).
Defined.

(** The converse fails: the form's check ignores case, the validator does
    not. *)
Example form_check_ignores_case :
  let file := {| file_name := "INTRO.ZIP"; file_size := 2048;
                 file_namelist := Some ["imsmanifest.xml"] |} in
  clean_package_file (Some file) = Cleaned (Some file)
  /\ validate_scorm_package file = ValidationError "File must be a ZIP archive".
Proof. split; reflexivity. Qed.

(** ** The bridge: scores *)

(** X15. The three score elements store [float(value)] and read it back
    as its [repr]; when [float(value)] raises, be it [ValueError],
    [TypeError] or [OverflowError], the call writes nothing and returns
    false. *)
Theorem set_score_stores_float (a : ScormAttempt.t) (value : pyval) :
  match py_float value with
  | Ok f =>
      set_scorm_value a "cmi.core.score.raw" value
      = (ScormAttempt.with_score_raw (Some f) a, Ok true)
      /\ set_scorm_value a "cmi.core.score.min" value
         = (ScormAttempt.with_score_min f a, Ok true)
      /\ set_scorm_value a "cmi.core.score.max" value
         = (ScormAttempt.with_score_max f a, Ok true)
      /\ get_scorm_value (ScormAttempt.with_score_raw (Some f) a) "cmi.core.score.raw"
         = PyFloat.repr f
      /\ get_scorm_value (ScormAttempt.with_score_min f a) "cmi.core.score.min"
         = PyFloat.repr f
      /\ get_scorm_value (ScormAttempt.with_score_max f a) "cmi.core.score.max"
         = PyFloat.repr f
  | Raise _ =>
      set_scorm_value a "cmi.core.score.raw" value = (a, Ok false)
      /\ set_scorm_value a "cmi.core.score.min" value = (a, Ok false)
      /\ set_scorm_value a "cmi.core.score.max" value = (a, Ok false)
  end.
Proof.
  unfold set_scorm_value, stry, set_scorm_value_body.
  cbn [String.eqb Ascii.eqb Bool.eqb].
  unfold set_float, stry, sbind, eval, assign, sret.
  destruct (py_float value) as [f | e].
  - split; [reflexivity|]. split; [reflexivity|]. split; [reflexivity|].
    split; [reflexivity|]. split; reflexivity.
  - destruct (is_ValueError e); cbn [is_Exception];
      (split; [reflexivity | split; reflexivity]).
Qed.

Lemma div_nan (g : PyFloat.t) : PyFloat.div S754_nan g = S754_nan.
Proof. destruct g; reflexivity. Qed.

(** X16. A raw score that is not a number, which the bridge stores for
    any value [float] reads as NaN, makes the attempt fail a package whose
    passing score the forms accept and is not 0: [is_passed] is false
    whatever the lesson status says. *)
Theorem nan_score_never_passes (a : ScormAttempt.t) (value : pyval) :
  py_float value = Ok S754_nan ->
  clean_passing_score (Some (ScormPackage.passing_score (ScormAttempt.package a)))
  = Cleaned (Some (ScormPackage.passing_score (ScormAttempt.package a))) ->
  ScormPackage.passing_score (ScormAttempt.package a) <> 0 ->
  exists a',
    set_scorm_value a "cmi.core.score.raw" value = (a', Ok true)
    /\ get_scorm_value a' "cmi.core.score.raw" = "nan"
    /\ ScormAttempt.lesson_status a' = ScormAttempt.lesson_status a
    /\ ScormAttempt.is_passed a' = Ok false.
Proof.
  intros Hnan Hclean Hscore.
  exists (ScormAttempt.with_score_raw (Some S754_nan) a).
  split.
  { unfold set_scorm_value, stry, set_scorm_value_body.
    cbn [String.eqb Ascii.eqb Bool.eqb].
    unfold set_float, stry, sbind, eval, assign, sret. rewrite Hnan. reflexivity. }
  split; [reflexivity|]. split; [reflexivity|].
  unfold ScormAttempt.is_passed.
  cbn [ScormAttempt.with_score_raw ScormAttempt.score_raw ScormAttempt.package
       ScormAttempt.score_max ScormAttempt.lesson_status].
  destruct (Z.eqb_spec (ScormPackage.passing_score (ScormAttempt.package a)) 0)
    as [E | _]; [contradiction|]. cbn [negb].
  unfold clean_passing_score in Hclean.
  destruct ((0 <=? ScormPackage.passing_score (ScormAttempt.package a))
            && (ScormPackage.passing_score (ScormAttempt.package a) <=? 100)) eqn:Hrange;
    [|discriminate].
  apply andb_prop in Hrange. destruct Hrange as [Hlow _]. apply Z.leb_le in Hlow.
  destruct (PyFloat.truthy (ScormAttempt.score_max a)) eqn:Hmax.
  - unfold ScormAttempt.ratio_times_100, PyFloat.truediv. rewrite Hmax.
    cbn [rbind]. rewrite div_nan. reflexivity.
  - cbn [rbind]. unfold py_ge, py_compare.
    destruct (Z.compare_spec 0 (ScormPackage.passing_score (ScormAttempt.package a)));
      [congruence | reflexivity | lia].
Qed.

Lemma nan_score_never_passes_witness :
  exists a',
    set_scorm_value Sample.passed_low_score "cmi.core.score.raw" (VStr " NaN ")
    = (a', Ok true)
    /\ ScormAttempt.lesson_status a' = "passed"
    /\ ScormAttempt.is_passed a' = Ok false.
Proof.
  destruct (nan_score_never_passes Sample.passed_low_score (VStr " NaN "))
    as (a' & Hset & _ & Hstatus & Hpassed).
  - vm_compute. reflexivity.
  - reflexivity.
  - discriminate.
  - exists a'. split; [exact Hset|]. split; [exact Hstatus | exact Hpassed].
Defined.

(** ** The detail page and the launch agree on access *)

Lemma filter_by_slug (l : list ScormPackage.t) (p : ScormPackage.t) :
  List.NoDup (map ScormPackage.slug l) -> In p l ->
  List.filter (fun q => ScormPackage.slug q == ScormPackage.slug p) l = [p].
Proof.
  induction l as [|x l IH]; intros Hnd Hin; [contradiction|].
  cbn [map] in Hnd. inversion Hnd as [|? ? Hnotin Hnd']; subst.
  assert (Hrest : forall y, In y l -> ScormPackage.slug y <> ScormPackage.slug x).
  { intros y Hy E. apply Hnotin. rewrite <- E. apply in_map. exact Hy. }
  cbn [List.filter]. destruct Hin as [-> | Hin].
  - rewrite String.eqb_refl. f_equal.
    clear IH Hnd Hnd' Hnotin. induction l as [|y l IHl]; [reflexivity|].
    cbn [List.filter].
    destruct (String.eqb_spec (ScormPackage.slug y) (ScormPackage.slug p)) as [E | _].
    + exfalso. exact (Hrest y (or_introl eq_refl) E).
    + apply IHl. intros z Hz. apply Hrest. right. exact Hz.
  - destruct (String.eqb_spec (ScormPackage.slug x) (ScormPackage.slug p)) as [E | _].
    + exfalso. exact (Hrest p Hin (eq_sym E)).
    + apply IH; assumption.
Qed.

Lemma check_permissions_iff (u : User.t) (package : ScormPackage.t) (db : Db.t) :
  check_permissions u package db = Ok tt <-> may_launch u package db.
Proof.
  split; [apply check_permissions_granted|].
  unfold check_permissions, may_launch.
  destruct (User.is_superuser u); [reflexivity|].
  destruct (User.is_staff u); [reflexivity|]. cbn [orb negb].
  intros [H | [H | [Hstudent Henrolled]]]; try discriminate.
  rewrite Hstudent.
  assert (Hmem : mem_Z (ScormPackage.course package) (enrolled_courses u db) = true).
  { unfold mem_Z. apply existsb_exists. exists (ScormPackage.course package).
    split; [|apply Z.eqb_refl]. unfold enrolled_courses. apply in_map_iff.
    exists (User.id u, ScormPackage.course package). split; [reflexivity|].
    apply filter_In. split; [exact Henrolled | apply Z.eqb_refl]. }
  rewrite Hmem. reflexivity.
Qed.

Lemma get_object_by_rule (request : Request) (db : Db.t) (p : ScormPackage.t) :
  List.NoDup (map ScormPackage.slug (Db.packages db)) -> In p (Db.packages db) ->
  ScormPackageDetailView.get_object request (ScormPackage.slug p) db
  = if negb (User.is_authenticated (user request)) then Raise Http404
    else match check_permissions (user request) p db with
         | Ok _ => Ok p
         | Raise e => Raise e
         end.
Proof.
  intros Hnd Hin. unfold ScormPackageDetailView.get_object.
  rewrite (filter_by_slug _ p Hnd Hin). cbn [objects_get try_except rbind].
  unfold check_permissions.
  destruct (User.is_authenticated (user request)); [|reflexivity]. cbn [negb].
  destruct (User.is_superuser (user request) || User.is_staff (user request));
    [reflexivity|]. cbn [negb].
  destruct (User.is_student (user request)); [|reflexivity].
  destruct (mem_Z (ScormPackage.course p) (enrolled_courses (user request) db));
    reflexivity.
Qed.

(** X17. With unique slugs, the detail page shows a package exactly to a
    logged-in caller who is a superuser, is staff, or is a student enrolled
    in its course; so whoever gets the player for a slug also gets the
    detail page of that package. *)
Theorem detail_page_access (request : Request) (db : Db.t) :
  List.NoDup (map ScormPackage.slug (Db.packages db)) ->
  (forall p,
     In p (Db.packages db) ->
     (ScormPackageDetailView.get_object request (ScormPackage.slug p) db = Ok p
      <-> User.is_authenticated (user request) = true /\ may_launch (user request) p db))
  /\ (forall slug now c,
        snd (launch_scorm_package request slug now db) = Ok (RenderPlayer c) ->
        ScormPackageDetailView.get_object request slug db = Ok (ctx_package c)).
Proof.
  intros Hnd.
  assert (Hrule : forall p,
            In p (Db.packages db) ->
            (ScormPackageDetailView.get_object request (ScormPackage.slug p) db = Ok p
             <-> User.is_authenticated (user request) = true
                 /\ may_launch (user request) p db)).
  { intros p Hin. rewrite (get_object_by_rule request db p Hnd Hin).
    rewrite <- check_permissions_iff.
    destruct (User.is_authenticated (user request)); cbn [negb].
    - destruct (check_permissions (user request) p db) as [[] | e].
      + split; [intros _; split; reflexivity | reflexivity].
      + split; [discriminate | intros [_ H]; discriminate].
    - split; [discriminate | intros [H _]; discriminate]. }
  split; [exact Hrule|]. intros slug now c Hrender.
  destruct (launch_scorm_package_cases request slug now db)
    as [(r & Hrun & Hno) | (package & db' & c' & Hrun & Hauth & Hpackage & Hperm & Hctx & _)];
    rewrite Hrun in Hrender; cbn [snd] in Hrender.
  - exfalso. exact (Hno c Hrender).
  - injection Hrender as <-. rewrite Hctx.
    destruct (get_ready_package_found slug db package Hpackage) as (Hin & <- & _).
    apply (Hrule package Hin). split; [exact Hauth|].
    apply check_permissions_iff. exact Hperm.
Qed.

Lemma detail_page_access_witness :
  ScormPackageDetailView.get_object SampleDb.request "intro" SampleDb.one_row
  = Ok (Sample.package true).
Proof.
  refine (proj2 (proj1 (detail_page_access SampleDb.request SampleDb.one_row _)
                   (Sample.package true) _) _).
  - constructor; [intros [] | constructor].
  - left. reflexivity.
  - split; [reflexivity|]. right. right. split; [reflexivity|]. left. reflexivity.
Defined.

(** ** From the launch to the runtime endpoint *)

(** The attempt handed to the player is stored, under a key of the store,
    and belongs to the caller. *)
Lemma launch_attempt_stored (request : Request) (slug : string) (now : Z)
    (db db' : Db.t) (c : PlayerContext) :
  well_keyed db ->
  launch_scorm_package request slug now db = (db', Ok (RenderPlayer c)) ->
  well_keyed db'
  /\ In (ScormAttempt.row (ctx_attempt c)) (Db.attempts db')
  /\ User.id (ScormAttempt.user (ctx_attempt c)) = User.id (user request)
  /\ User.is_authenticated (user request) = true
  /\ (ScormAttempt.id (ctx_attempt c) = Db.next_attempt_id db
      \/ exists found, In found (Db.attempts db)
                       /\ ScormAttempt.id (ctx_attempt c) = ScormAttempt.id found).
Proof.
  intros Hwf Hrun.
  destruct (launch_scorm_package_cases request slug now db)
    as [(r & Hsame & Hno) | (package & db1 & c1 & Hrender & Hauth & _ & _ & _ & Hwrite)].
  - rewrite Hsame in Hrun. injection Hrun as _ Hr. exfalso. exact (Hno c Hr).
  - rewrite Hrender in Hrun. injection Hrun as -> ->.
    destruct Hwrite as [(found & Hin & _ & Hctx & ->) | (-> & Hid & _ & Huser & _)].
    + destruct (attempts_of_In _ _ _ _ Hin) as (Hstored & _ & Huser).
      split.
      { apply (well_keyed_same_keys db); [|reflexivity | exact Hwf].
        cbn [Db.with_attempts Db.attempts]. apply map_id_replace_row. reflexivity. }
      rewrite Hctx. cbn [Db.with_attempts Db.attempts ScormAttempt.loaded ScormAttempt.row].
      split.
      { apply in_map_iff. exists found. rewrite Z.eqb_refl. split; [reflexivity | exact Hstored]. }
      split; [exact Huser|]. split; [exact Hauth|]. right. exists found.
      split; [exact Hstored | reflexivity].
    + split; [apply well_keyed_append; assumption|]. cbn [Db.attempts].
      split; [apply in_or_app; right; left; reflexivity|].
      split; [rewrite Huser; reflexivity|]. split; [exact Hauth|]. left. exact Hid.
Qed.

(** X18. The attempt the launch hands to the player is the one the
    endpoint serves: with unique positive keys in the store, the row of
    that attempt is stored, and a [LMSGetValue] call of the same caller
    with its key, made on the store the launch left, is not refused: it
    reads that row and writes nothing.  The answer is read from the row,
    not from the object the player was given. *)
Theorem launched_attempt_is_served (request : Request) (slug : string) (now later : Z)
    (db db' : Db.t) (c : PlayerContext) (parameters : parameters) :
  well_keyed db ->
  0 < Db.next_attempt_id db ->
  (forall a, In a (Db.attempts db) -> 0 < ScormAttempt.id a) ->
  launch_scorm_package request slug now db = (db', Ok (RenderPlayer c)) ->
  In (ScormAttempt.row (ctx_attempt c)) (Db.attempts db')
  /\ scorm_api
       {| api_user := user request; http_method := "POST";
          api_body :=
            BodyObject
              {| api_method := VStr "LMSGetValue";
                 api_parameters := parameters;
                 api_attempt_id :=
                   KeyInt (ScormAttempt.id (ScormAttempt.row (ctx_attempt c))) |} |}
       later db'
     = (db',
        ApiJson
          match first_if_any parameters with
          | Ok element =>
              JsonValue (get_scorm_value_of (ScormAttempt.row (ctx_attempt c)) element)
          | Raise e => JsonError 500 (exn_str e)
          end).
Proof.
  intros Hwf Hnext Hpositive Hrun.
  destruct (launch_attempt_stored request slug now db db' c Hwf Hrun)
    as ((Hnd & _) & Hstored & Huser & Hauth & Hkey).
  split; [exact Hstored|].
  assert (Hid : ScormAttempt.id (ctx_attempt c) <> 0).
  { destruct Hkey as [-> | (found & Hin & ->)]; [lia|]. specialize (Hpositive found Hin). lia. }
  unfold scorm_api. cbn [api_user http_method api_body decoded_object]. rewrite Hauth.
  cbn [negb]. change ("POST" == "POST") with true. cbv iota.
  unfold sbind, eval, scorm_api_try. cbn [api_attempt_id lookup_value].
  destruct (Z.eqb_spec (ScormAttempt.id (ctx_attempt c)) 0) as [E | _]; [contradiction|].
  unfold find_attempt. cbn [rbind].
  rewrite (get_attempt_own (ctx_attempt c) (user request) db' Hnd Hstored Huser).
  unfold scorm_api_dispatch. cbn [api_method py_str_eq api_parameters].
  change ("LMSGetValue" == "LMSGetValue") with true. cbv iota.
  unfold sbind, eval, sret. destruct (first_if_any parameters); reflexivity.
Qed.

Lemma launched_attempt_is_served_witness :
  exists db' c,
    launch_scorm_package SampleDb.request "intro" 1000 (SampleDb.fresh true)
    = (db', Ok (RenderPlayer c))
    /\ ScormAttempt.held_score_max (ctx_attempt c) = PInt 100
    /\ scorm_api {| api_user := Sample.learner; http_method := "POST";
                    api_body :=
                      BodyObject
                        {| api_method := VStr "LMSGetValue";
                           api_parameters := ParamArray [VStr "cmi.core.score.max"];
                           api_attempt_id :=
                             KeyInt (ScormAttempt.id
                                       (ScormAttempt.row (ctx_attempt c))) |} |}
                 1001 db'
       = (db', ApiJson (JsonValue "100.0")).
Proof.
  destruct (launch_scorm_package SampleDb.request "intro" 1000 (SampleDb.fresh true))
    as [db' [[| | c |]|]] eqn:Hrun; try (vm_compute in Hrun; discriminate).
  exists db', c. split; [reflexivity|].
  split; [vm_compute in Hrun; injection Hrun as <- <-; reflexivity|].
  refine (eq_trans
            (proj2 (launched_attempt_is_served SampleDb.request "intro" 1000 1001
                      (SampleDb.fresh true) db' c
                      (ParamArray [VStr "cmi.core.score.max"]) _ _ _ Hrun)) _).
  - split; [constructor | intros a []].
  - reflexivity.
  - intros a [].
  - vm_compute in Hrun. injection Hrun as <- <-. vm_compute. reflexivity.
Defined.
